(** * PanelConfigurator: the simulation and optimisation engine

    A shallow embedding of [main.py] and of the indicator part of
    [analysis_module.py], and the properties of the engine stated in the
    specification.

    Conventions of the embedding.
    - Python floats are read as real numbers ([R]): rounding, overflow,
      infinities and NaN are not modelled.  Every arithmetic expression
      keeps the shape and the evaluation order it has in the source.
    - The constraint block of [npv_function] is the exception: which
      threshold a candidate meets is decided by the rounding of
      [min_self_sufficiency - 0.1], so that block is embedded on IEEE 754
      binary64 numbers ([float]), the numbers Python computes with.
    - A Python [dict] is an association list in insertion order with unique
      keys: [d[k] = v] overwrites in place or appends, iteration follows
      insertion order.
    - A Python exception is the [Raise] outcome of the [result] type. *)

From Stdlib Require Import PrimFloat.
From Stdlib Require Import String.
From Stdlib Require Import Reals Lra Lia ZArith List Bool.
From Stdlib Require Import Permutation Sorted.
Import ListNotations.

Set Implicit Arguments.

(* A decimal float literal denotes the nearest binary64 number, as in
   Python. *)
Set Warnings "-inexact-float".

Open Scope R_scope.

(* ================================================================== *)
(** * Python base layer *)
(* ================================================================== *)

Module Py.

  (** The exceptions the engine can raise.  [ComplexResult] is not an
      exception: it marks a float power that Python evaluates to a complex
      number, where the value leaves the real-valued model. *)
Inductive exn : Type :=
  | ZeroDivisionError
  | ValueError
  | ComplexResult.

Inductive result (A : Type) : Type :=
  | Ok (a : A)
  | Raise (e : exn).

Arguments Ok {A} a.
Arguments Raise {A} e.

Definition bind {A B : Type} (m : result A) (k : A -> result B) : result B :=
    match m with
    | Ok a => k a
    | Raise e => Raise e
    end.

  (** [sum(iterable)]: starts from 0 and adds from left to right. *)
Definition sum (l : list R) : R := fold_left Rplus l 0.

  (** [min(a, b)]: the first argument unless the second is strictly smaller. *)
Definition min (a b : R) : R := if Rlt_dec b a then b else a.

  (** [abs(a)]. *)
Definition abs (a : R) : R := if Rlt_dec a 0 then - a else a.

  (** [a / b] on floats. *)
Definition div (a b : R) : result R :=
    if Req_dec_T b 0 then Raise ZeroDivisionError else Ok (a / b).

  (** [a ** b] on floats. *)
Definition pow (a b : R) : result R :=
    if Req_dec_T b 0 then Ok 1
    else if Rlt_dec 0 a then Ok (Rpower a b)
    else if Req_dec_T a 0 then
      (if Rlt_dec 0 b then Ok 0 else Raise ZeroDivisionError)
    else if Req_dec_T (IZR (Int_part b)) b then
      Ok ((if Z.even (Int_part b) then 1 else -1) * Rpower (- a) b)
    else Raise ComplexResult.

  (** [int(x)] on a float: truncation toward zero. *)
Definition int (x : R) : Z :=
    if Rle_dec 0 x then Int_part x else (- Int_part (- x))%Z.

  (** [l[i:j]]. *)
Definition slice {A : Type} (l : list A) (i j : nat) : list A :=
    firstn (j - i) (skipn i l).

  (** [range(0, stop, step)] for a positive step. *)
Definition range_step (stop step : nat) : list nat :=
    map (fun k => (k * step)%nat) (seq 0 ((stop + (step - 1)) / step)).

  (** [zip(a, b)] is [List.combine]: it stops at the shorter list. *)
Definition zip {A B : Type} (a : list A) (b : list B) : list (A * B) :=
    combine a b.

End Py.

Import Py.

Notation "x <- m ;; k" := (Py.bind m (fun x => k))
  (at level 61, m at next level, right associativity).

(* ------------------------------------------------------------------ *)
(** ** Dictionaries *)

Class KeyEq (K : Type) : Type :=
  key_eq_dec : forall a b : K, {a = b} + {a <> b}.

Section Dict.
Context {K V : Type} `{KeyEq K}.

Definition dict : Type := list (K * V).

  (** [d.get(k)] *)
Fixpoint dict_get (k : K) (d : dict) : option V :=
    match d with
    | [] => None
    | (k', v) :: d' => if key_eq_dec k k' then Some v else dict_get k d'
    end.

  (** [k in d] *)
Definition dict_mem (k : K) (d : dict) : bool :=
    match dict_get k d with Some _ => true | None => false end.

  (** [d.get(k, default)] *)
Definition dict_get_default (k : K) (dflt : V) (d : dict) : V :=
    match dict_get k d with Some v => v | None => dflt end.

  (** [d[k] = v]: an existing key keeps its place, a new key goes last. *)
Fixpoint dict_set (k : K) (v : V) (d : dict) : dict :=
    match d with
    | [] => [(k, v)]
    | (k', v') :: d' =>
        if key_eq_dec k k' then (k', v) :: d' else (k', v') :: dict_set k v d'
    end.

Definition dict_keys (d : dict) : list K := map fst d.
Definition dict_values (d : dict) : list V := map snd d.

End Dict.

Arguments dict K V : clear implicits.

(* ------------------------------------------------------------------ *)
(** ** [datetime.datetime] (naive) and [datetime.date] *)

Record datetime : Type := mkDatetime {
  year : Z; month : Z; day : Z;
  hour : Z; minute : Z; second : Z; microsecond : Z
}.

Record date : Type := mkDate { d_year : Z; d_month : Z; d_day : Z }.

Definition MINYEAR : Z := 1.
Definition MAXYEAR : Z := 9999.

Definition is_leap (y : Z) : bool :=
  ((y mod 4 =? 0) && (negb (y mod 100 =? 0) || (y mod 400 =? 0)))%Z.

Definition days_in_month (y m : Z) : Z :=
  if (m =? 2)%Z then (if is_leap y then 29 else 28)%Z
  else if ((m =? 4) || (m =? 6) || (m =? 9) || (m =? 11))%Z then 30%Z
  else 31%Z.

(** The check the [datetime] constructor makes on the date fields. *)
Definition check_date_fields (y m d : Z) : bool :=
  ((MINYEAR <=? y) && (y <=? MAXYEAR) && (1 <=? m) && (m <=? 12)
   && (1 <=? d) && (d <=? days_in_month y m))%Z.

Definition check_time_fields (t : datetime) : bool :=
  ((0 <=? hour t) && (hour t <=? 23) && (0 <=? minute t) && (minute t <=? 59)
   && (0 <=? second t) && (second t <=? 59)
   && (0 <=? microsecond t) && (microsecond t <=? 999999))%Z.

Definition valid_datetime (t : datetime) : bool :=
  check_date_fields (year t) (month t) (day t) && check_time_fields t.

(** [t.replace(year=y)]: builds a new datetime, which re-checks the date. *)
Definition with_year (t : datetime) (y : Z) : datetime :=
  mkDatetime y (month t) (day t) (hour t) (minute t) (second t) (microsecond t).

Definition replace_year (t : datetime) (y : Z) : result datetime :=
  if check_date_fields y (month t) (day t)
  then Ok (with_year t y)
  else Raise ValueError.

(** [t.date()] *)
Definition date_of (t : datetime) : date :=
  mkDate (year t) (month t) (day t).

#[export] Instance datetime_eq : KeyEq datetime.
Proof. intros a b. unfold KeyEq. decide equality; apply Z.eq_dec. Defined.

#[export] Instance date_eq : KeyEq date.
Proof. intros a b. decide equality; apply Z.eq_dec. Defined.

#[export] Instance year_month_eq : KeyEq (Z * Z).
Proof. intros a b. decide equality; apply Z.eq_dec. Defined.

(** The UTC calendar reading of a POSIX timestamp (proleptic Gregorian
    calendar), used to run the engine on concrete tables. *)
Definition civil_from_days (z0 : Z) : Z * Z * Z :=
  let z := (z0 + 719468)%Z in
  let era := (z / 146097)%Z in
  let doe := (z - era * 146097)%Z in
  let yoe := ((doe - doe / 1460 + doe / 36524 - doe / 146096) / 365)%Z in
  let doy := (doe - (365 * yoe + yoe / 4 - yoe / 100))%Z in
  let mp := ((5 * doy + 2) / 153)%Z in
  let d := (doy - (153 * mp + 2) / 5 + 1)%Z in
  let m := (if mp <? 10 then mp + 3 else mp - 9)%Z in
  let y := (yoe + era * 400)%Z in
  ((if m <=? 2 then y + 1 else y)%Z, m, d).

Definition utc_of_epoch (e : Z) : datetime :=
  let days := (e / 86400)%Z in
  let secs := (e mod 86400)%Z in
  let '(y, m, d) := civil_from_days days in
  mkDatetime y m d (secs / 3600) ((secs mod 3600) / 60) (secs mod 60) 0.

(* ================================================================== *)
(** * Helper classes ([analysis_module.py]) *)
(* ================================================================== *)

Record Consumer : Type := mkConsumer {
  c_type_id : Z; c_type : string; c_val : R; c_time : datetime
}.

Record Production : Type := mkProduction { p_val : R; p_time : datetime }.

(* ================================================================== *)
(** * The data store *)
(* ================================================================== *)

(** One row of table [Consumption]. *)
Record ConsumptionRow : Type := mkConsumptionRow {
  HouseIDREF : Z; ApplianceIDREF : Z; cr_EpochTime : Z; cr_Value : R
}.

(** One row of table [WeatherData]. *)
Record WeatherRow : Type := mkWeatherRow {
  WeatherStationIDREF : Z; WeatherVariableIDREF : Z;
  wr_EpochTime : Z; wr_Value : R
}.

Record Database : Type := mkDatabase {
  Consumption : list ConsumptionRow;
  WeatherData : list WeatherRow
}.

Module DatabaseManager.
Section WithClock.

  (** [datetime.datetime.utcfromtimestamp] and [datetime.datetime.fromtimestamp]
      (the latter depends on the host's time zone). *)
Variables utcfromtimestamp fromtimestamp : Z -> datetime.
Variable db : Database.

  (** [SELECT ApplianceIDREF, EpochTime, Value FROM Consumption WHERE ...] *)
Definition select_consumption (locuinta_id consumer_id : Z)
    : list (Z * Z * R) :=
    map (fun r => (ApplianceIDREF r, cr_EpochTime r, cr_Value r))
      (filter (fun r => ((HouseIDREF r =? locuinta_id)
                         && (ApplianceIDREF r =? consumer_id)
                         && (886709400 <=? cr_EpochTime r)
                         && (cr_EpochTime r <=? 918244800))%Z)
         (Consumption db)).

  (** [SELECT Value, EpochTime FROM WeatherData WHERE ...] *)
Definition select_weather (station_id parameter_id : Z) : list (R * Z) :=
    map (fun r => (wr_Value r, wr_EpochTime r))
      (filter (fun r => ((WeatherStationIDREF r =? station_id)
                         && (WeatherVariableIDREF r =? parameter_id)
                         && (886712400 <=? wr_EpochTime r)
                         && (wr_EpochTime r <=? 918244800))%Z)
         (WeatherData db)).

Definition row0 : Z * Z * R := (0%Z, 0%Z, 0).

  (** The body of the loop of [get_cons_by_constype] for one complete group. *)
Definition hourly_entry (consumer : string) (group : list (Z * Z * R))
    : Consumer :=
    let ApplianceIDREF := fst (fst (nth 0 group row0)) in
    let EpochTime := snd (fst (nth 5 group row0)) in
    let Value := Py.sum (map snd group) in
    mkConsumer ApplianceIDREF consumer Value (utcfromtimestamp EpochTime).

  (** [for i in range(0, len(rows), 6)], with its [break]. *)
Fixpoint group_loop (consumer : string) (rows : list (Z * Z * R))
    (indices : list nat) (consumers : list Consumer) : list Consumer :=
    match indices with
    | [] => consumers
    | i :: indices' =>
        let group := Py.slice rows i (i + 6) in
        if (length group <? 6)%nat then consumers
        else group_loop consumer rows indices'
               (consumers ++ [hourly_entry consumer group])
    end.

Definition aggregate_rows (consumer : string) (rows : list (Z * Z * R))
    : list Consumer :=
    group_loop consumer rows (Py.range_step (length rows) 6) [].

  (** [DatabaseManager.get_cons_by_constype] (the same body in both files). *)
Definition get_cons_by_constype (locuinta_id consumer_id : Z)
    (consumer : string) : list Consumer :=
    aggregate_rows consumer (select_consumption locuinta_id consumer_id).

  (** [DatabaseManager.get_production] *)
Definition get_production (station_id parameter_id : Z)
    (nominal_power : R) (nr_panels : Z) (f : R) : list Production :=
    map (fun '(Value, EpochTime) =>
           mkProduction (nominal_power * IZR nr_panels * f * Value / 1000)
             (fromtimestamp EpochTime))
      (select_weather station_id parameter_id).

End WithClock.
End DatabaseManager.

(* ================================================================== *)
(** * The engine ([main.py]) *)
(* ================================================================== *)

(** ** Process-wide constants *)

Record Panel : Type := mkPanel { power : Z; cost_per_watt : R }.

Definition panel_low_cost : Panel := mkPanel 200 (16 / 100).
Definition panel_standard : Panel := mkPanel 300 (22 / 100).
Definition panel_high_efficiency : Panel := mkPanel 415 (31 / 100).

Definition c_grid : R := 25 / 100.
Definition c_DAM : R := 1 / 10.
Definition r : R := 5 / 100.
Definition Y : Z := 5.

(** [range(n)] *)
Definition range (n : Z) : list Z := map Z.of_nat (seq 0 (Z.to_nat n)).

(** [if k not in d: d[k] = v] *)
Definition init_if_absent {K V : Type} `{KeyEq K} (k : K) (v : V)
  (d : dict K V) : dict K V :=
  if dict_mem k d then d else dict_set k v d.

(** ** HorizonExtender: [extend_data_to_years] *)

(** One inner loop: [for time, value in series.items()]. *)
Fixpoint extend_series (series : dict datetime R) (offset : Z)
  (extended : dict datetime R) : result (dict datetime R) :=
  match series with
  | [] => Ok extended
  | (time, value) :: rest =>
      new_time <- replace_year time (year time + offset) ;;
      extend_series rest offset (dict_set new_time value extended)
  end.

(** The outer loop: [for year in range(years)]. *)
Fixpoint extend_loop (offsets : list Z)
  (hourly_production hourly_consumption : dict datetime R)
  (extended_production extended_consumption : dict datetime R)
  : result (dict datetime R * dict datetime R) :=
  match offsets with
  | [] => Ok (extended_production, extended_consumption)
  | offset :: offsets' =>
      ep <- extend_series hourly_production offset extended_production ;;
      ec <- extend_series hourly_consumption offset extended_consumption ;;
      extend_loop offsets' hourly_production hourly_consumption ep ec
  end.

Definition extend_data_to_years
  (hourly_production hourly_consumption : dict datetime R) (years : Z)
  : result (dict datetime R * dict datetime R) :=
  extend_loop (range years) hourly_production hourly_consumption [] [].

(** ** EnergyBalanceCalculator: [calculate_monthly_costs] *)

Definition year_month_of (time : datetime) : Z * Z := (year time, month time).

(** [d[k] += x] for a key that is present (it was initialised just before). *)
Definition add_at {K : Type} `{KeyEq K} (k : K) (x : R) (d : dict K R)
  : dict K R :=
  dict_set k (dict_get_default k 0 d + x) d.

(** The body of the first loop, on the two buckets. *)
Definition energy_step (hourly_production : dict datetime R)
  (buckets : dict (Z * Z) R * dict (Z * Z) R) (item : datetime * R)
  : dict (Z * Z) R * dict (Z * Z) R :=
  let '(monthly_e_grid, monthly_e_injected) := buckets in
  let '(time, consumption) := item in
  let production := dict_get_default time 0 hourly_production in
  let year_month := year_month_of time in
  let monthly_e_grid := init_if_absent year_month 0 monthly_e_grid in
  let monthly_e_injected := init_if_absent year_month 0 monthly_e_injected in
  if Rgt_dec consumption production
  then (add_at year_month ((consumption - production) / 1000) monthly_e_grid,
        monthly_e_injected)
  else (monthly_e_grid,
        add_at year_month ((production - consumption) / 1000)
          monthly_e_injected).

(** The first loop: the grid-energy and injected-energy buckets. *)
Definition monthly_energy (hourly_production hourly_consumption : dict datetime R)
  : dict (Z * Z) R * dict (Z * Z) R :=
  fold_left (energy_step hourly_production) hourly_consumption ([], []).

(** [sum(hourly_consumption[time] for time in hourly_consumption
         if (time.year, time.month) == year_month)] *)
Definition month_consumption (hourly_consumption : dict datetime R)
  (year_month : Z * Z) : R :=
  Py.sum
    (map (fun time => dict_get_default time 0 hourly_consumption)
       (filter (fun time =>
                  if key_eq_dec (year_month_of time) year_month
                  then true else false)
          (dict_keys hourly_consumption))).

(** The body of the second loop. *)
Definition cost_step (hourly_consumption : dict datetime R)
  (monthly_e_grid monthly_e_injected : dict (Z * Z) R) (c_grid c_DAM : R)
  (monthly_costs : dict (Z * Z) (R * R)) (year_month : Z * Z)
  : dict (Z * Z) (R * R) :=
  let cost_without_panels :=
    month_consumption hourly_consumption year_month / 1000 * c_grid in
  let e_grid := dict_get_default year_month 0 monthly_e_grid in
  let e_injected := dict_get_default year_month 0 monthly_e_injected in
  let cost_with_panels := e_grid * c_grid - e_injected * c_DAM in
  dict_set year_month (cost_without_panels, cost_with_panels) monthly_costs.

Definition calculate_monthly_costs
  (hourly_production hourly_consumption : dict datetime R) (c_grid c_DAM : R)
  : dict (Z * Z) (R * R) :=
  let '(monthly_e_grid, monthly_e_injected) :=
    monthly_energy hourly_production hourly_consumption in
  fold_left
    (cost_step hourly_consumption monthly_e_grid monthly_e_injected
       c_grid c_DAM)
    (dict_keys monthly_e_grid) [].

(** ** FinancialEvaluator: [calculate_npv] *)

(** Tuple comparison on [(year, month)] keys. *)
Definition ym_leb (a b : Z * Z) : bool :=
  ((fst a <? fst b) || ((fst a =? fst b) && (snd a <=? snd b)))%Z.

Fixpoint insert_sorted (k : Z * Z) (l : list (Z * Z)) : list (Z * Z) :=
  match l with
  | [] => [k]
  | k' :: l' => if ym_leb k k' then k :: l else k' :: insert_sorted k l'
  end.

(** [sorted(keys)] on [(year, month)] tuples. *)
Definition sorted (l : list (Z * Z)) : list (Z * Z) :=
  fold_right insert_sorted [] l.

(** [enumerate(l, start)] *)
Fixpoint enumerate {A : Type} (l : list A) (start : Z) : list (Z * A) :=
  match l with
  | [] => []
  | a :: l' => (start, a) :: enumerate l' (start + 1)
  end.

(** The loop of [calculate_npv]. *)
Fixpoint npv_loop (monthly_costs : dict (Z * Z) (R * R)) (OpEX r : R)
  (months : list (Z * (Z * Z))) (npv : R)
  (monthly_npv_values : list ((Z * Z) * R))
  : result (R * list ((Z * Z) * R)) :=
  match months with
  | [] => Ok (npv, monthly_npv_values)
  | (t, year_month) :: months' =>
      let '(cost_without_panels, cost_with_panels) :=
        dict_get_default year_month (0, 0) monthly_costs in
      let G_t := cost_without_panels - cost_with_panels in
      discount <- Py.pow (1 + r) ((IZR t - 1) / 12) ;;
      term <- Py.div (G_t - OpEX / 12) discount ;;
      let npv := npv + term in
      npv_loop monthly_costs OpEX r months' npv
        (monthly_npv_values ++ [(year_month, npv)])
  end.

Definition calculate_npv (monthly_costs : dict (Z * Z) (R * R))
  (CapEX r : R) (Y : Z) : result (R * list ((Z * Z) * R)) :=
  let OpEX := 3 / 100 * CapEX in
  let npv := - CapEX in
  let sorted_months := sorted (dict_keys monthly_costs) in
  npv_loop monthly_costs OpEX r (enumerate sorted_months 1) npv [].

(** ** ObjectiveFunction: [npv_function] *)

(** [{prod.time: prod.val for prod in production}] *)
Definition dict_of_production (production : list Production) : dict datetime R :=
  fold_left (fun d prod => dict_set (p_time prod) (p_val prod) d) production [].

(** [for prod in production: if prod.time in d: d[prod.time] += prod.val
     else: d[prod.time] = prod.val] *)
Definition merge_production (production : list Production)
  (hourly_production : dict datetime R) : dict datetime R :=
  fold_left
    (fun d prod =>
       if dict_mem (p_time prod) d
       then add_at (p_time prod) (p_val prod) d
       else dict_set (p_time prod) (p_val prod) d)
    production hourly_production.

(** The merge of the per-appliance lists into whole-house consumption
    (the same body as [EnergyAnalysis.aggregate_hourly_consumption]). *)
Definition aggregate_hourly_consumption (consumers_data : list (list Consumer))
  : dict datetime R :=
  fold_left
    (fun d consumer_list =>
       fold_left
         (fun d consumer =>
            let time_key := c_time consumer in
            add_at time_key (c_val consumer) (init_if_absent time_key 0 d))
         consumer_list d)
    consumers_data [].

(** The whole-horizon self-sufficiency (lines 267-270). *)
Definition whole_self_sufficiency
  (hourly_production_extended hourly_consumption_extended : dict datetime R)
  : result R :=
  let sum_total_consumption :=
    Py.sum (dict_values hourly_consumption_extended) in
  let sum_min_prod_load :=
    Py.sum
      (map (fun time =>
              Py.min (dict_get_default time 0 hourly_consumption_extended)
                     (dict_get_default time 0 hourly_production_extended))
         (dict_keys hourly_consumption_extended)) in
  Py.div sum_min_prod_load sum_total_consumption.

(** The double the interpreter holds for a quantity that the definitions
    above give in exact arithmetic.  Nothing is assumed of it. *)
Class Binary64 : Type := double_of : R -> float.

Section Objective.

Context {binary64 : Binary64}.
Variables utcfromtimestamp fromtimestamp : Z -> datetime.
Variable db : Database.

  (** The two user inputs read by [npv_function] as globals: a float and an
      integer. *)
Variable min_self_sufficiency : float.
Variable max_panels : Z.

  (** The constraint and penalty policy (lines 273-291), on doubles: [-],
      [*] and [+] are the rounded operations, [<?] is the comparison of
      doubles, and a decimal literal is the double nearest to it. *)
Definition penalty_policy (total_panels : Z) (npv self_sufficiency : float)
    : float :=
    (if (total_panels >? max_panels)%Z then 1000000
     else if self_sufficiency <? min_self_sufficiency - 0.1
     then 500000
     else if self_sufficiency <? min_self_sufficiency - 0.05
     then 450000
     else if self_sufficiency <? min_self_sufficiency - 0.03
     then 400000
     else if self_sufficiency <? min_self_sufficiency - 0.02
     then 350000
     else if self_sufficiency <? min_self_sufficiency - 0.01
     then 300000
     else if self_sufficiency <? min_self_sufficiency
     then 250000 + (min_self_sufficiency - self_sufficiency) * 1000000
     else - npv)%float.

Definition CapEX_of (num_low_cost num_standard num_high_efficiency : Z) : R :=
    IZR num_low_cost * IZR (power panel_low_cost)
      * cost_per_watt panel_low_cost
    + IZR num_standard * IZR (power panel_standard)
      * cost_per_watt panel_standard
    + IZR num_high_efficiency * IZR (power panel_high_efficiency)
      * cost_per_watt panel_high_efficiency.

  (** The data the objective function reads from the store. *)
Definition hourly_production_of
    (num_low_cost num_standard num_high_efficiency : Z) : dict datetime R :=
    let get_production :=
      DatabaseManager.get_production fromtimestamp db 26198001 4 in
    let production_low :=
      get_production (IZR (power panel_low_cost)) num_low_cost (8 / 10) in
    let production_standard :=
      get_production (IZR (power panel_standard)) num_standard (8 / 10) in
    let production_high :=
      get_production (IZR (power panel_high_efficiency)) num_high_efficiency
        (8 / 10) in
    merge_production production_high
      (merge_production production_standard
         (dict_of_production production_low)).

Definition consumers_data : list (list Consumer) :=
    let get := DatabaseManager.get_cons_by_constype utcfromtimestamp db in
    [ get 2000916%Z 0%Z "water pump"%string;
      get 2000916%Z 1%Z "water heater"%string;
      get 2000916%Z 2%Z "washing machine"%string;
      get 2000916%Z 4%Z "freezer"%string;
      get 2000916%Z 5%Z "fridge freezer"%string;
      get 2000916%Z 6%Z "total site light"%string;
      get 2000916%Z 7%Z "TV"%string;
      get 2000916%Z 9%Z "boiler"%string ].

  (** Lines 185-270: the NPV and the whole-horizon self-sufficiency of the
      candidate. *)
Definition npv_and_self_sufficiency
    (num_low_cost num_standard num_high_efficiency : Z) : result (R * R) :=
    let CapEX := CapEX_of num_low_cost num_standard num_high_efficiency in
    let hourly_production :=
      hourly_production_of num_low_cost num_standard num_high_efficiency in
    let hourly_consumption := aggregate_hourly_consumption consumers_data in
    extended <- extend_data_to_years hourly_production hourly_consumption Y ;;
    let hourly_production_extended := fst extended in
    let hourly_consumption_extended := snd extended in
    let monthly_costs :=
      calculate_monthly_costs hourly_production_extended
        hourly_consumption_extended c_grid c_DAM in
    npv_trace <- calculate_npv monthly_costs CapEX r Y ;;
    self_sufficiency <-
      whole_self_sufficiency hourly_production_extended
        hourly_consumption_extended ;;
    Ok (fst npv_trace, self_sufficiency).

Definition npv_function (x : R * R * R) : result float :=
    let '(x0, x1, x2) := x in
    let num_low_cost := Py.int x0 in
    let num_standard := Py.int x1 in
    let num_high_efficiency := Py.int x2 in
    evaluated <-
      npv_and_self_sufficiency num_low_cost num_standard num_high_efficiency ;;
    let npv := double_of (fst evaluated) in
    let self_sufficiency := double_of (snd evaluated) in
    Ok (penalty_policy (num_low_cost + num_standard + num_high_efficiency)
          npv self_sufficiency).

End Objective.

(* ================================================================== *)
(** * IndicatorEngine ([analysis_module.py], [EnergyAnalysis]) *)
(* ================================================================== *)

Module EnergyAnalysis.

  (** [for time, v in series.items(): day = time.date(); ...append(v)] *)
Definition group_by_day (series : dict datetime R) : dict date (list R) :=
    fold_left
      (fun grouped item =>
         let day := date_of (fst item) in
         let grouped := init_if_absent day [] grouped in
         dict_set day (dict_get_default day [] grouped ++ [snd item]) grouped)
      series [].

  (** [sum(min(p, c) for p, c in zip(prod_values, cons_values))] *)
Definition sum_min_prod_load (prod_values cons_values : list R) : R :=
    Py.sum (map (fun pc => Py.min (fst pc) (snd pc))
              (Py.zip prod_values cons_values)).

Definition self_consumption_day (prod_values cons_values : list R) : R :=
    let sum_total_production := Py.sum prod_values in
    if Req_dec_T sum_total_production 0 then 0
    else sum_min_prod_load prod_values cons_values / sum_total_production.

Definition self_sufficiency_day (prod_values cons_values : list R) : R :=
    let sum_total_consumption := Py.sum cons_values in
    if Req_dec_T sum_total_consumption 0 then 0
    else sum_min_prod_load prod_values cons_values / sum_total_consumption.

Definition neeg_day (prod_values cons_values : list R) : R :=
    Py.sum (map (fun pc => Py.abs (fst pc - snd pc))
              (Py.zip prod_values cons_values)) / 1000.

  (** The common loop of the three daily indicators:
      [for day in grouped_production.keys(): if day in grouped_consumption]. *)
Definition daily_indicator (indicator : list R -> list R -> R)
    (hourly_production hourly_consumption : dict datetime R) : dict date R :=
    let grouped_production := group_by_day hourly_production in
    let grouped_consumption := group_by_day hourly_consumption in
    fold_left
      (fun daily day =>
         if dict_mem day grouped_consumption
         then
           let prod_values := dict_get_default day [] grouped_production in
           let cons_values := dict_get_default day [] grouped_consumption in
           dict_set day (indicator prod_values cons_values) daily
         else daily)
      (dict_keys grouped_production) [].

Definition calculate_self_consumption_daily :=
    daily_indicator self_consumption_day.

Definition calculate_self_sufficiency_daily :=
    daily_indicator self_sufficiency_day.

Definition calculate_neeg_daily := daily_indicator neeg_day.

  (** [sum(daily.values()) / len(daily)] *)
Definition calculate_total_self_consumption (daily : dict date R) : result R :=
    Py.div (Py.sum (dict_values daily)) (INR (length daily)).

Definition calculate_total_self_sufficiency (daily : dict date R) : result R :=
    Py.div (Py.sum (dict_values daily)) (INR (length daily)).

Definition calculate_total_neeg (daily : dict date R) : R :=
    Py.sum (dict_values daily).

End EnergyAnalysis.

(* ================================================================== *)
(** * After the search ([main.py], lines 302-316) *)
(* ================================================================== *)

Module Report.

(** The state [EnergyAnalysis.__init__] builds from the store. *)
Record Analysis : Type := mkAnalysis {
  hourly_consumption : dict datetime R;
  hourly_production : dict datetime R
}.

Section WithStore.
Variables utcfromtimestamp fromtimestamp : Z -> datetime.
Variable db : Database.

(** [EnergyAnalysis.load_consumers_data] *)
Definition load_consumers_data (house_id : Z) : list (list Consumer) :=
  let get := DatabaseManager.get_cons_by_constype utcfromtimestamp db in
  [ get house_id 0%Z "water pump"%string;
    get house_id 1%Z "water heater"%string;
    get house_id 2%Z "washing machine"%string;
    get house_id 4%Z "freezer"%string;
    get house_id 5%Z "fridge freezer"%string;
    get house_id 6%Z "total site light"%string;
    get house_id 7%Z "TV"%string;
    get house_id 9%Z "boiler"%string ].

(** [EnergyAnalysis.__init__] *)
Definition init (house_id station_id : Z) (nominal_power : R) (nr_panels : Z)
  (f : R) : Analysis :=
  let consumers_data := load_consumers_data house_id in
  let production_data :=
    DatabaseManager.get_production fromtimestamp db station_id 4
      nominal_power nr_panels f in
  mkAnalysis (aggregate_hourly_consumption consumers_data)
    (dict_of_production production_data).

(** [optimal_config = [int(result.x[0]), int(result.x[1]), int(result.x[2])]] *)
Definition optimal_config (x : R * R * R) : Z * Z * Z :=
  let '(x0, x1, x2) := x in (Py.int x0, Py.int x1, Py.int x2).

(** Lines 309-316: the blended panel handed to [EnergyAnalysis]. *)
Definition analysis_of (optimal_config : Z * Z * Z) : result Analysis :=
  let '(n0, n1, n2) := optimal_config in
  let house_id := 2000916%Z in
  let station_id := 26198001%Z in
  let nr_panels := (n0 + n1 + n2)%Z in
  nominal_power <-
    Py.div (IZR (n0 * power panel_low_cost + n1 * power panel_standard
                 + n2 * power panel_high_efficiency))
           (IZR nr_panels) ;;
  let f := 8 / 10 in
  Ok (init house_id station_id nominal_power nr_panels f).

End WithStore.
End Report.

(* ================================================================== *)
(** * Chart data ([EnergyAnalysis.plot_consumption_vs_production_monthly]) *)
(* ================================================================== *)

Module Charts.

(** [np.mean] of a list of floats (rendering itself is not modelled). *)
Definition np_mean (l : list R) : R := Py.sum l / INR (length l).

(** [datetime.datetime(year, month, day, hour)] *)
Definition make_datetime (y m d h : Z) : result datetime :=
  let t := mkDatetime y m d h 0 0 0 in
  if valid_datetime t then Ok t else Raise ValueError.

(** [range(a, b)] *)
Definition range_from (a b : Z) : list Z := map (fun k => (a + k)%Z) (range (b - a)).

(** [for key in series.keys(): ... [(key.day, key.hour)].append(series[key])] *)
Definition group_by_day_hour (series : dict datetime R)
  : dict (Z * Z) (list R) :=
  fold_left
    (fun grouped key =>
       let day_hour_key := (day key, hour key) in
       let grouped := init_if_absent day_hour_key [] grouped in
       dict_set day_hour_key
         (dict_get_default day_hour_key [] grouped
          ++ [dict_get_default key 0 series]) grouped)
    (dict_keys series) [].

(** [average[key] = np.mean(grouped[key])] for every key of [grouped]. *)
Definition average_by_day_hour (series : dict datetime R) : dict (Z * Z) R :=
  let grouped := group_by_day_hour series in
  fold_left
    (fun average key =>
       dict_set key (np_mean (dict_get_default key [] grouped)) average)
    (dict_keys grouped) [].

(** [for hour in range(24): if (day, hour) in average: times.append(...);
     values.append(...)] *)
Fixpoint hours_loop (average : dict (Z * Z) R) (day : Z) (hours : list Z)
  (acc : list datetime * list R) : result (list datetime * list R) :=
  match hours with
  | [] => Ok acc
  | hour :: hours' =>
      let time_key := (day, hour) in
      if dict_mem time_key average
      then
        time <- make_datetime 2000 1 day hour ;;
        hours_loop average day hours'
          (fst acc ++ [time],
           snd acc ++ [dict_get_default time_key 0 average])
      else hours_loop average day hours' acc
  end.

(** [for day in range(1, 32): for hour in range(24): ...] *)
Fixpoint days_loop (average : dict (Z * Z) R) (days : list Z)
  (acc : list datetime * list R) : result (list datetime * list R) :=
  match days with
  | [] => Ok acc
  | day :: days' =>
      acc' <- hours_loop average day (range 24) acc ;;
      days_loop average days' acc'
  end.

(** The [times] and [values] lists drawn for one series. *)
Definition monthly_points (series : dict datetime R)
  : result (list datetime * list R) :=
  days_loop (average_by_day_hour series) (range_from 1 32) ([], []).

(** The data of the chart: consumption points, then production points. *)
Definition plot_consumption_vs_production_monthly
  (hourly_consumption hourly_production : dict datetime R)
  : result ((list datetime * list R) * (list datetime * list R)) :=
  consumption <- monthly_points hourly_consumption ;;
  production <- monthly_points hourly_production ;;
  Ok (consumption, production).

End Charts.

(* ================================================================== *)
(** * Auxiliary notions *)
(* ================================================================== *)

(** The accumulation pattern shared by the bucket loops of the engine:
    [if key not in d: d[key] = init] followed by [d[key] = op(x, d[key])]. *)
Definition bucket_step {X K V : Type} `{KeyEq K} (key : X -> K) (init : V)
  (op : X -> V -> V) (d : dict K V) (x : X) : dict K V :=
  let d' := init_if_absent (key x) init d in
  dict_set (key x) (op x (dict_get_default (key x) init d')) d'.

Definition bucket_fold {X K V : Type} `{KeyEq K} (key : X -> K) (init : V)
  (op : X -> V -> V) (items : list X) (d : dict K V) : dict K V :=
  fold_left (bucket_step key init op) items d.

(** Decidable key equality as a boolean. *)
Definition key_eqb {K : Type} `{KeyEq K} (a b : K) : bool :=
  if key_eq_dec a b then true else false.

(** What the first loop of [calculate_monthly_costs] does to one bucket. *)
Definition grid_op (hourly_production : dict datetime R)
  (item : datetime * R) (v : R) : R :=
  if Rgt_dec (snd item) (dict_get_default (fst item) 0 hourly_production)
  then v + (snd item - dict_get_default (fst item) 0 hourly_production) / 1000
  else v.

Definition injected_op (hourly_production : dict datetime R)
  (item : datetime * R) (v : R) : R :=
  if Rgt_dec (snd item) (dict_get_default (fst item) 0 hourly_production)
  then v
  else v + (dict_get_default (fst item) 0 hourly_production - snd item) / 1000.

(** ** The monthly figures as the specification words them *)

Module Spec.

(** Production at a timestamp, an absent timestamp counting as 0. *)
Definition production_at (production : dict datetime R) (time : datetime) : R :=
  match dict_get time production with Some p => p | None => 0 end.

(** The hours of the consumption series that fall in a month. *)
Definition hours_of_month (consumption : dict datetime R) (ym : Z * Z)
  : list (datetime * R) :=
  filter (fun h => key_eqb (year_month_of (fst h)) ym) consumption.

Definition draws_from_grid (production : dict datetime R)
  (h : datetime * R) : bool :=
  if Rgt_dec (snd h) (production_at production (fst h)) then true else false.

(** Sum of the deficits of the hours with consumption above production. *)
Definition gridEnergyKWh (production consumption : dict datetime R)
  (ym : Z * Z) : R :=
  Py.sum (map (fun h => (snd h - production_at production (fst h)) / 1000)
            (filter (draws_from_grid production)
               (hours_of_month consumption ym))).

(** Sum of the surpluses of the other hours. *)
Definition injectedEnergyKWh (production consumption : dict datetime R)
  (ym : Z * Z) : R :=
  Py.sum (map (fun h => (production_at production (fst h) - snd h) / 1000)
            (filter (fun h => negb (draws_from_grid production h))
               (hours_of_month consumption ym))).

(** The hours of a series that fall on a calendar day, in iteration order,
    and their values. *)
Definition day_hours (series : dict datetime R) (day : date)
  : list (datetime * R) :=
  filter (fun h => key_eqb (date_of (fst h)) day) series.

Definition day_values (series : dict datetime R) (day : date) : list R :=
  map snd (day_hours series day).

(** The day appears in the daily grouping of the series. *)
Definition has_day (series : dict datetime R) (day : date) : bool :=
  existsb (fun h => key_eqb (date_of (fst h)) day) series.

(** The two series hold the same value at every hour of the day (an hour
    absent from one is absent from the other). *)
Definition equal_on_day (production consumption : dict datetime R)
  (day : date) : Prop :=
  forall time, date_of time = day ->
               dict_get time production = dict_get time consumption.

(** All timestamps of the series are well-formed and fall in year [y]. *)
Definition reference_year (series : dict datetime R) (y : Z) : Prop :=
  Forall (fun time => valid_datetime time = true /\ year time = y)
    (dict_keys series).

(** An hour of the reference series moved [offset] years ahead: only the year
    field changes. *)
Definition shifted (offset : Z) (h : datetime * R) : datetime * R :=
  (with_year (fst h) (year (fst h) + offset), snd h).

(** The reference series repeated for offsets 0 .. years-1. *)
Definition extended (series : dict datetime R) (years : Z) : dict datetime R :=
  flat_map (fun offset => map (shifted offset) series) (range years).

Definition monthConsumption (consumption : dict datetime R) (ym : Z * Z) : R :=
  Py.sum (map snd (hours_of_month consumption ym)).

Definition costWithoutPV (consumption : dict datetime R) (c_grid : R)
  (ym : Z * Z) : R :=
  monthConsumption consumption ym / 1000 * c_grid.

Definition costWithPV (production consumption : dict datetime R)
  (c_grid c_DAM : R) (ym : Z * Z) : R :=
  gridEnergyKWh production consumption ym * c_grid
  - injectedEnergyKWh production consumption ym * c_DAM.

(** The FinancialEvaluator's recurrence.  [months] is the month sequence in
    ascending (year, month) order; the month index [t] counts from 1. *)
Definition record_of (costs : dict (Z * Z) (R * R)) (ym : Z * Z) : R * R :=
  match dict_get ym costs with Some rec => rec | None => (0, 0) end.

Definition month_at (months : list (Z * Z)) (t : nat) : Z * Z :=
  nth (t - 1) months (0%Z, 0%Z).

(** [(costWithoutPV_t - costWithPV_t - 0.03 CapEx / 12) / (1+r)^((t-1)/12)] *)
Definition npv_term (costs : dict (Z * Z) (R * R)) (CapEx r : R)
  (months : list (Z * Z)) (t : nat) : R :=
  let costWithoutPV := fst (record_of costs (month_at months t)) in
  let costWithPV := snd (record_of costs (month_at months t)) in
  (costWithoutPV - costWithPV - 3 / 100 * CapEx / 12)
  / Rpower (1 + r) ((INR t - 1) / 12).

(** [npv_0 = - CapEx], [npv_t = npv_(t-1) + term_t]. *)
Fixpoint npv_after (costs : dict (Z * Z) (R * R)) (CapEx r : R)
  (months : list (Z * Z)) (t : nat) : R :=
  match t with
  | O => - CapEx
  | S t' => npv_after costs CapEx r months t'
            + npv_term costs CapEx r months (S t')
  end.

Definition npv_trace (costs : dict (Z * Z) (R * R)) (CapEx r : R)
  (months : list (Z * Z)) : list ((Z * Z) * R) :=
  map (fun t => (month_at months t, npv_after costs CapEx r months t))
    (seq 1 (length months)).

(** Ascending order on (year, month). *)
Definition ym_le (a b : Z * Z) : Prop :=
  (fst a < fst b)%Z \/ (fst a = fst b /\ (snd a <= snd b)%Z).

(** Two dictionaries that hold the same mapping (Python's [==] on dicts). *)
Definition same_mapping {K V : Type} `{KeyEq K} (d1 d2 : dict K V) : Prop :=
  forall k, dict_get k d1 = dict_get k d2.

End Spec.

(** ** Notions for the chart data *)

Module ChartSpec.

(** Python's order on naive datetimes: field by field. *)
Definition datetime_fields (t : datetime) : list Z :=
  [year t; month t; day t; hour t; minute t; second t; microsecond t].

Fixpoint fields_lt (a b : list Z) : Prop :=
  match a, b with
  | x :: a', y :: b' => (x < y)%Z \/ (x = y /\ fields_lt a' b')
  | _, _ => False
  end.

Definition datetime_lt (a b : datetime) : Prop :=
  fields_lt (datetime_fields a) (datetime_fields b).

(** The (day, hour) cells in the order the two loops visit them. *)
Definition month_grid : list (Z * Z) :=
  flat_map (fun day => map (fun hour => (day, hour)) (range 24))
    (Charts.range_from 1 32).

(** The hours of a series that fall in a (day, hour) cell. *)
Definition cell_values (series : dict datetime R) (cell : Z * Z) : list R :=
  map snd
    (filter (fun h => key_eqb (day (fst h), hour (fst h)) cell) series).

Definition cell_used (series : dict datetime R) (cell : Z * Z) : bool :=
  existsb (fun h => key_eqb (day (fst h), hour (fst h)) cell) series.

(** Day-then-hour order on cells. *)
Definition cell_lt (a b : Z * Z) : Prop :=
  (fst a < fst b)%Z \/ (fst a = fst b /\ (snd a < snd b)%Z).

End ChartSpec.

(** ** Sample data *)

Definition at_hour (y m d h : Z) : datetime := mkDatetime y m d h 0 0 0.

Definition june_1 : date := mkDate 1998 6 1.

Definition idle_day : dict datetime R := [ (at_hour 1998 6 1 12, 0) ].

Definition noon_first : dict datetime R :=
  [ (at_hour 1998 6 1 12, 1); (at_hour 1998 6 1 13, 2) ].

Definition noon_last : dict datetime R :=
  [ (at_hour 1998 6 1 13, 2); (at_hour 1998 6 1 12, 1) ].

Definition noon_only : dict datetime R := [ (at_hour 1998 6 1 12, 1) ].

Definition last_year : dict datetime R := [ (at_hour 9999 1 1 0, 1) ].

Definition sample_costs : dict (Z * Z) (R * R) :=
  [ ((1998, 3)%Z, (50, 20)); ((1998, 2)%Z, (100, 30)) ].

Definition sample_costs_reordered : dict (Z * Z) (R * R) :=
  [ ((1998, 2)%Z, (100, 30)); ((1998, 3)%Z, (50, 20)) ].

(** A store with one hour of data: six samples of [v] for appliance 0 of
    house 2000916, from 1998-02-05 20:10 UTC on, and no weather rows. *)
Definition six_samples (v : R) : list ConsumptionRow :=
  map (fun k => mkConsumptionRow 2000916 0 (886709400 + 600 * k) v)
    [0; 1; 2; 3; 4; 5]%Z.

Definition single_hour_store (v : R) : Database := mkDatabase (six_samples v) [].

Definition idle_house : Database := single_hour_store 0.

(** The whole-house consumption of that store over the 5-year horizon. *)
Definition single_hour_horizon (w : R) : dict datetime R :=
  [ (at_hour 1998 2 5 21, w); (at_hour 1999 2 5 21, w);
    (at_hour 2000 2 5 21, w); (at_hour 2001 2 5 21, w);
    (at_hour 2002 2 5 21, w) ].

(** A store with two hours of irradiance at station 26198001 and the six
    consumption samples of [six_samples]. *)
Definition two_hour_store : Database :=
  mkDatabase (six_samples 100)
    [ mkWeatherRow 26198001 4 886712400 500;
      mkWeatherRow 26198001 4 886716000 800 ].

Definition sample_consumption : dict datetime R :=
  [ (at_hour 1998 2 5 21, 1000); (at_hour 1998 2 5 22, 500);
    (at_hour 1998 3 1 0, 200) ].

Definition sample_production : dict datetime R :=
  [ (at_hour 1998 2 5 21, 300); (at_hour 1998 3 1 0, 700) ].


Definition sample_rows : list (Z * Z * R) :=
  [ (7%Z, 886709400%Z, 1); (7%Z, 886710000%Z, 2); (7%Z, 886710600%Z, 3);
    (7%Z, 886711200%Z, 4); (7%Z, 886711800%Z, 5); (7%Z, 886712400%Z, 6);
    (7%Z, 886713000%Z, 7) ].

(* ================================================================== *)
(** * Properties *)
(* ================================================================== *)

Lemma utc_of_epoch_example :
  utc_of_epoch 886709400 = mkDatetime 1998 2 5 20 10 0 0.
Proof. reflexivity. Qed.

(** ** Sums *)

Lemma fold_left_Rplus_acc (l : list R) (a : R) :
  fold_left Rplus l a = a + Py.sum l.
Proof.
  unfold Py.sum. revert a.
  induction l as [|x l IH]; intros a; simpl.
  - lra.
  - rewrite (IH (a + x)), (IH (0 + x)). lra.
Qed.

Lemma sum_nil : Py.sum [] = 0.
Proof. reflexivity. Qed.

Lemma sum_cons (x : R) (l : list R) : Py.sum (x :: l) = x + Py.sum l.
Proof.
  unfold Py.sum at 1. simpl. rewrite fold_left_Rplus_acc. lra.
Qed.

Lemma sum_app (l1 l2 : list R) : Py.sum (l1 ++ l2) = Py.sum l1 + Py.sum l2.
Proof.
  induction l1 as [|x l1 IH]; simpl.
  - rewrite sum_nil. lra.
  - rewrite !sum_cons, IH. lra.
Qed.

Lemma sum_nonneg (l : list R) :
  Forall (fun x => 0 <= x) l -> 0 <= Py.sum l.
Proof.
  induction 1 as [|x l Hx _ IH].
  - rewrite sum_nil. lra.
  - rewrite sum_cons. lra.
Qed.

Lemma sum_nonneg_zero (l : list R) :
  Forall (fun x => 0 <= x) l -> Py.sum l = 0 -> Forall (fun x => x = 0) l.
Proof.
  induction 1 as [|x l Hx Hl IH]; intros Hs.
  - constructor.
  - rewrite sum_cons in Hs. pose proof (sum_nonneg Hl) as Hn.
    constructor; [lra | apply IH; lra].
Qed.

Lemma min_Rmin (a b : R) : Py.min a b = Rmin a b.
Proof.
  unfold Py.min, Rmin.
  destruct (Rlt_dec b a), (Rle_dec a b); lra.
Qed.

Lemma abs_Rabs (a : R) : Py.abs a = Rabs a.
Proof.
  unfold Py.abs, Rabs.
  destruct (Rlt_dec a 0), (Rcase_abs a); lra.
Qed.

(** ** SampleAggregator *)

Section Aggregator.

Variable utcfromtimestamp : Z -> datetime.
Variable consumer : string.

Let entry := DatabaseManager.hourly_entry utcfromtimestamp consumer.

Lemma slice_length (A : Type) (l : list A) (i : nat) :
    length (Py.slice l i (i + 6)) = Nat.min 6 (length l - i).
  Proof.
    unfold Py.slice. rewrite length_firstn, length_skipn.
    replace (i + 6 - i)%nat with 6%nat by lia. reflexivity.
  Qed.

Lemma group_loop_spec (rows : list (Z * Z * R)) (m a : nat)
    (acc : list Consumer) :
    (a + m = (length rows + 5) / 6)%nat ->
    (a <= length rows / 6)%nat ->
    DatabaseManager.group_loop utcfromtimestamp consumer rows
      (map (fun k => (k * 6)%nat) (seq a m)) acc
    = acc ++ map (fun k => entry (Py.slice rows (k * 6) (k * 6 + 6)))
               (seq a (length rows / 6 - a)).
  Proof.
    revert a acc.
    induction m as [|m IH]; intros a acc Hm Ha.
    - assert (length rows / 6 <= (length rows + 5) / 6)%nat
        by (apply Nat.Div0.div_le_mono; lia).
      replace (length rows / 6 - a)%nat with 0%nat by lia.
      simpl. now rewrite app_nil_r.
    - cbn [seq map DatabaseManager.group_loop]. rewrite slice_length.
      pose proof (Nat.div_mod_eq (length rows) 6) as Hdm.
      pose proof (Nat.mod_upper_bound (length rows) 6 ltac:(lia)) as Hmod.
      destruct (Nat.eq_dec a (length rows / 6)) as [Heq | Hne].
      + subst a.
        replace (Nat.min 6 (length rows - length rows / 6 * 6) <? 6)%nat
          with true by (symmetry; apply Nat.ltb_lt; lia).
        rewrite Nat.sub_diag. cbn [seq map]. now rewrite app_nil_r.
      + replace (Nat.min 6 (length rows - a * 6) <? 6)%nat
          with false by (symmetry; apply Nat.ltb_ge; nia).
        rewrite IH by lia.
        replace (length rows / 6 - a)%nat
          with (S (length rows / 6 - S a)) by lia.
        cbn [seq map]. rewrite <- app_assoc. reflexivity.
  Qed.

Lemma aggregate_rows_eq (rows : list (Z * Z * R)) :
    DatabaseManager.aggregate_rows utcfromtimestamp consumer rows
    = map (fun k => entry (Py.slice rows (k * 6) (k * 6 + 6)))
        (seq 0 (length rows / 6)).
  Proof.
    unfold DatabaseManager.aggregate_rows, Py.range_step.
    rewrite group_loop_spec.
    - now rewrite Nat.sub_0_r.
    - simpl. reflexivity.
    - lia.
  Qed.

Lemma complete_groups_partition (A : Type) (l : list A) (q : nat) :
    (q * 6 <= length l)%nat ->
    l = concat (map (fun k => Py.slice l (k * 6) (k * 6 + 6)) (seq 0 q))
          ++ skipn (q * 6) l.
  Proof.
    induction q as [|q IH]; intros Hq.
    - reflexivity.
    - rewrite seq_S, map_app, concat_app. simpl.
      rewrite app_nil_r, <- app_assoc.
      rewrite IH at 1 by lia. f_equal.
      unfold Py.slice. replace (q * 6 + 6 - q * 6)%nat with 6%nat by lia.
      rewrite <- (firstn_skipn 6 (skipn (q * 6) l)) at 1.
      f_equal. rewrite skipn_skipn. reflexivity.
  Qed.

End Aggregator.

Lemma last_of_six (A : Type) (l : list A) (d : A) :
  length l = 6%nat -> last l d = nth 5 l d.
Proof.
  intros Hl.
  do 6 (destruct l as [|? l]; [discriminate Hl|]).
  destruct l; [reflexivity | discriminate Hl].
Qed.

(** C5. The aggregator cuts the time-ordered sample list into consecutive
    groups of 6 and a trailing rest of fewer than 6 samples; it emits exactly
    one entry per complete group and none for the rest; entry [k] carries the
    sum of the 6 values of group [k] and the timestamp of the last (sixth)
    sample of that group. *)
Theorem aggregate_rows_complete_groups
  (utcfromtimestamp : Z -> datetime) (consumer : string)
  (rows : list (Z * Z * R)) :
  let out := DatabaseManager.aggregate_rows utcfromtimestamp consumer rows in
  let q := (length rows / 6)%nat in
  let group := fun k => Py.slice rows (k * 6) (k * 6 + 6) in
  rows = concat (map group (seq 0 q)) ++ skipn (q * 6) rows /\
  (length (skipn (q * 6) rows) < 6)%nat /\
  length out = q /\
  forall k, (k < q)%nat ->
    length (group k) = 6%nat /\
    exists e,
      nth_error out k = Some e /\
      c_val e = Py.sum (map snd (group k)) /\
      c_time e
      = utcfromtimestamp (snd (fst (last (group k) DatabaseManager.row0))) /\
      c_type_id e = fst (fst (hd DatabaseManager.row0 (group k))) /\
      c_type e = consumer.
Proof.
  intros out q group.
  pose proof (Nat.div_mod_eq (length rows) 6) as Hdm.
  pose proof (Nat.mod_upper_bound (length rows) 6 ltac:(lia)) as Hmod.
  fold q in Hdm.
  assert (Hout : out = map (fun k => DatabaseManager.hourly_entry
                                       utcfromtimestamp consumer (group k))
                         (seq 0 q))
    by (apply aggregate_rows_eq).
  split; [apply complete_groups_partition; lia|].
  split; [rewrite length_skipn; lia|].
  split; [rewrite Hout, length_map, length_seq; reflexivity|].
  intros k Hk.
  assert (Hlen : length (group k) = 6%nat)
    by (unfold group; rewrite slice_length; lia).
  split; [exact Hlen|].
  exists (DatabaseManager.hourly_entry utcfromtimestamp consumer (group k)).
  split.
  - rewrite Hout.
    rewrite (nth_error_map (fun k => DatabaseManager.hourly_entry
                                       utcfromtimestamp consumer (group k))).
    rewrite nth_error_nth' with (d := 0%nat) by (rewrite length_seq; lia).
    rewrite seq_nth by lia. reflexivity.
  - unfold DatabaseManager.hourly_entry; cbn [c_val c_time c_type_id c_type].
    rewrite (last_of_six _ _ Hlen).
    repeat split. destruct (group k); [discriminate Hlen | reflexivity].
Qed.

Lemma aggregate_rows_complete_groups_witness :
  (0 < length sample_rows / 6)%nat /\
  exists e,
    nth_error (DatabaseManager.aggregate_rows utc_of_epoch "TV" sample_rows) 0
    = Some e /\
    c_val e = Py.sum (map snd (Py.slice sample_rows 0 6)) /\
    c_time e
    = utc_of_epoch
        (snd (fst (last (Py.slice sample_rows 0 6) DatabaseManager.row0))) /\
    c_type_id e = fst (fst (hd DatabaseManager.row0 (Py.slice sample_rows 0 6))) /\
    c_type e = "TV"%string.
Proof.
  assert (H0 : (0 < length sample_rows / 6)%nat) by (cbn; lia).
  split; [exact H0|].
  exact (proj2 (proj2 (proj2 (proj2
    (aggregate_rows_complete_groups utc_of_epoch "TV" sample_rows))) 0%nat H0)).
Defined.

(** ** Dictionaries *)

Section DictFacts.
Context {K V : Type} `{KeyEq K}.

Lemma key_eqb_true (a b : K) : key_eqb a b = true <-> a = b.
Proof. unfold key_eqb. destruct (key_eq_dec a b); split; congruence. Qed.

Lemma key_eqb_refl (a : K) : key_eqb a a = true.
Proof. now apply key_eqb_true. Qed.

Lemma dict_get_set_same (k : K) (v : V) (d : dict K V) :
  dict_get k (dict_set k v d) = Some v.
Proof.
  induction d as [|[k' v'] d IH]; simpl.
  - destruct (key_eq_dec k k); congruence.
  - destruct (key_eq_dec k k') as [E|N]; simpl.
    + destruct (key_eq_dec k k'); congruence.
    + destruct (key_eq_dec k k'); congruence.
Qed.

Lemma dict_get_set_other (k k' : K) (v : V) (d : dict K V) :
  k' <> k -> dict_get k' (dict_set k v d) = dict_get k' d.
Proof.
  intros Hne.
  induction d as [|[k0 v0] d IH]; simpl.
  - destruct (key_eq_dec k' k); congruence.
  - destruct (key_eq_dec k k0) as [E|N]; simpl.
    + subst k0. destruct (key_eq_dec k' k); congruence.
    + destruct (key_eq_dec k' k0); congruence.
Qed.

Lemma dict_mem_In (k : K) (d : dict K V) :
  dict_mem k d = true <-> In k (dict_keys d).
Proof.
  unfold dict_mem, dict_keys.
  induction d as [|[k' v'] d IH]; simpl.
  - split; [discriminate | tauto].
  - destruct (key_eq_dec k k') as [E|N].
    + split; auto.
    + rewrite IH. split; [auto | intros [E|I]; congruence].
Qed.

Lemma dict_mem_false (k : K) (d : dict K V) :
  dict_mem k d = false <-> ~ In k (dict_keys d).
Proof.
  rewrite <- dict_mem_In. destruct (dict_mem k d); split; congruence.
Qed.

Lemma dict_get_None (k : K) (d : dict K V) :
  dict_get k d = None <-> ~ In k (dict_keys d).
Proof.
  rewrite <- dict_mem_false. unfold dict_mem.
  destruct (dict_get k d); split; congruence.
Qed.

Lemma dict_get_In (k : K) (v : V) (d : dict K V) :
  dict_get k d = Some v -> In (k, v) d.
Proof.
  induction d as [|[k' v'] d IH]; simpl; [discriminate|].
  destruct (key_eq_dec k k') as [E|N]; intros Hg.
  - left. congruence.
  - right. auto.
Qed.

Lemma dict_In_get (k : K) (v : V) (d : dict K V) :
  NoDup (dict_keys d) -> In (k, v) d -> dict_get k d = Some v.
Proof.
  unfold dict_keys.
  induction d as [|[k' v'] d IH]; simpl; intros Hnd Hin; [tauto|].
  inversion Hnd as [|? ? Hni Hnd']; subst.
  destruct Hin as [E|I].
  - inversion E; subst. destruct (key_eq_dec k k); congruence.
  - destruct (key_eq_dec k k') as [E|N]; [|auto].
    subst k'. exfalso. apply Hni.
    change k with (fst (k, v)). now apply in_map.
Qed.

Lemma dict_keys_set (k : K) (v : V) (d : dict K V) :
  dict_keys (dict_set k v d)
  = if dict_mem k d then dict_keys d else dict_keys d ++ [k].
Proof.
  unfold dict_mem, dict_keys.
  induction d as [|[k' v'] d IH]; simpl; [reflexivity|].
  destruct (key_eq_dec k k') as [E|N]; simpl; [reflexivity|].
  rewrite IH. destruct (dict_get k d); reflexivity.
Qed.

Lemma dict_set_NoDup (k : K) (v : V) (d : dict K V) :
  NoDup (dict_keys d) -> NoDup (dict_keys (dict_set k v d)).
Proof.
  intros Hnd. rewrite dict_keys_set.
  destruct (dict_mem k d) eqn:Hm; [exact Hnd|].
  apply dict_mem_false in Hm.
  apply NoDup_app; [exact Hnd | constructor; [tauto | constructor] |].
  intros a Ha [E|[]]. congruence.
Qed.

Lemma dict_set_In_keys (k k' : K) (v : V) (d : dict K V) :
  In k' (dict_keys (dict_set k v d)) <-> k' = k \/ In k' (dict_keys d).
Proof.
  rewrite dict_keys_set.
  destruct (dict_mem k d) eqn:Hm.
  - apply dict_mem_In in Hm. split; [auto | intros [E|I]; congruence].
  - rewrite in_app_iff. simpl. intuition congruence.
Qed.

Lemma dict_set_same_value (k : K) (dflt : V) (d : dict K V) :
  dict_mem k d = true -> dict_set k (dict_get_default k dflt d) d = d.
Proof.
  unfold dict_mem, dict_get_default.
  induction d as [|[k' v'] d IH]; simpl; [discriminate|].
  destruct (key_eq_dec k k') as [E|N]; intros Hm; [reflexivity|].
  f_equal. auto.
Qed.

Lemma init_if_absent_mem (k : K) (v : V) (d : dict K V) :
  dict_mem k (init_if_absent k v d) = true.
Proof.
  unfold init_if_absent. destruct (dict_mem k d) eqn:Hm; [exact Hm|].
  unfold dict_mem. now rewrite dict_get_set_same.
Qed.

Lemma init_if_absent_get_same (k : K) (v : V) (d : dict K V) :
  dict_get_default k v (init_if_absent k v d) = dict_get_default k v d.
Proof.
  unfold init_if_absent, dict_get_default, dict_mem.
  destruct (dict_get k d) eqn:Hg.
  - now rewrite Hg.
  - now rewrite dict_get_set_same.
Qed.

Lemma init_if_absent_get_other (k k' : K) (v : V) (d : dict K V) :
  k' <> k -> dict_get k' (init_if_absent k v d) = dict_get k' d.
Proof.
  intros Hne. unfold init_if_absent.
  destruct (dict_mem k d); [reflexivity|]. now apply dict_get_set_other.
Qed.

Lemma init_if_absent_In_keys (k k' : K) (v : V) (d : dict K V) :
  In k' (dict_keys (init_if_absent k v d)) <-> k' = k \/ In k' (dict_keys d).
Proof.
  unfold init_if_absent. destruct (dict_mem k d) eqn:Hm.
  - apply dict_mem_In in Hm. split; [auto | intros [E|I]; congruence].
  - apply dict_set_In_keys.
Qed.

Lemma init_if_absent_NoDup (k : K) (v : V) (d : dict K V) :
  NoDup (dict_keys d) -> NoDup (dict_keys (init_if_absent k v d)).
Proof.
  unfold init_if_absent. destruct (dict_mem k d); [auto|].
  apply dict_set_NoDup.
Qed.

End DictFacts.

(** ** The bucket loops *)

Section BucketFacts.
Context {X K V : Type} `{KeyEq K}.
Variable key : X -> K.
Variable init : V.
Variable op : X -> V -> V.

Lemma bucket_step_get_same (d : dict K V) (x : X) :
  dict_get (key x) (bucket_step key init op d x)
  = Some (op x (dict_get_default (key x) init d)).
Proof.
  unfold bucket_step.
  now rewrite dict_get_set_same, init_if_absent_get_same.
Qed.

Lemma bucket_step_get_other (d : dict K V) (x : X) (k : K) :
  k <> key x -> dict_get k (bucket_step key init op d x) = dict_get k d.
Proof.
  intros Hne. unfold bucket_step.
  rewrite dict_get_set_other by exact Hne.
  now apply init_if_absent_get_other.
Qed.

Lemma bucket_step_In_keys (d : dict K V) (x : X) (k : K) :
  In k (dict_keys (bucket_step key init op d x))
  <-> k = key x \/ In k (dict_keys d).
Proof.
  unfold bucket_step.
  rewrite dict_set_In_keys, init_if_absent_In_keys. tauto.
Qed.

Lemma bucket_step_NoDup (d : dict K V) (x : X) :
  NoDup (dict_keys d) -> NoDup (dict_keys (bucket_step key init op d x)).
Proof.
  intros Hnd. unfold bucket_step.
  now apply dict_set_NoDup, init_if_absent_NoDup.
Qed.

(** The value a bucket holds at the end: the operations of the items of that
    key, applied in iteration order. *)
Lemma bucket_fold_get_default (items : list X) (d : dict K V) (k : K) :
  dict_get_default k init (bucket_fold key init op items d)
  = fold_left (fun v x => op x v)
      (filter (fun x => key_eqb (key x) k) items)
      (dict_get_default k init d).
Proof.
  unfold bucket_fold. revert d.
  induction items as [|x items IH]; intros d; simpl; [reflexivity|].
  rewrite IH.
  destruct (key_eq_dec (key x) k) as [E|N].
  - rewrite (proj2 (key_eqb_true (key x) k) E). simpl. f_equal.
    subst k. unfold dict_get_default.
    now rewrite bucket_step_get_same.
  - replace (key_eqb (key x) k) with false
      by (unfold key_eqb; destruct (key_eq_dec (key x) k); congruence).
    f_equal. unfold dict_get_default.
    rewrite bucket_step_get_other by congruence. reflexivity.
Qed.

Lemma bucket_fold_In_keys (items : list X) (d : dict K V) (k : K) :
  In k (dict_keys (bucket_fold key init op items d))
  <-> In k (dict_keys d) \/ exists x, In x items /\ key x = k.
Proof.
  unfold bucket_fold. revert d.
  induction items as [|x items IH]; intros d; simpl.
  - split; [auto | intros [I|[x [[] _]]]; exact I].
  - rewrite IH, bucket_step_In_keys. split.
    + intros [[E|I]|[y [Hy E]]]; eauto.
    + intros [I|[y [[E|Hy] Ek]]]; subst; eauto.
Qed.

Lemma bucket_fold_NoDup (items : list X) (d : dict K V) :
  NoDup (dict_keys d) -> NoDup (dict_keys (bucket_fold key init op items d)).
Proof.
  unfold bucket_fold. revert d.
  induction items as [|x items IH]; intros d Hnd; simpl; [exact Hnd|].
  now apply IH, bucket_step_NoDup.
Qed.

Lemma bucket_fold_get (items : list X) (k : K) :
  dict_get k (bucket_fold key init op items [])
  = if existsb (fun x => key_eqb (key x) k) items
    then Some (fold_left (fun v x => op x v)
                 (filter (fun x => key_eqb (key x) k) items) init)
    else None.
Proof.
  pose proof (bucket_fold_get_default items [] k) as Hd.
  pose proof (bucket_fold_In_keys items [] k) as Hk.
  destruct (existsb (fun x => key_eqb (key x) k) items) eqn:He.
  - apply existsb_exists in He. destruct He as [x [Hx Ex]].
    apply key_eqb_true in Ex.
    destruct (dict_get k (bucket_fold key init op items [])) as [v|] eqn:Hg.
    + unfold dict_get_default in Hd. rewrite Hg in Hd. simpl in Hd.
      now rewrite Hd.
    + apply dict_get_None in Hg. exfalso. apply Hg, Hk. eauto.
  - apply dict_get_None. intros Hin. apply Hk in Hin.
    destruct Hin as [[]|[x [Hx Ex]]].
    assert (existsb (fun x => key_eqb (key x) k) items = true)
      by (apply existsb_exists; exists x; split; [auto | now apply key_eqb_true]).
    congruence.
Qed.

End BucketFacts.

(** ** EnergyBalanceCalculator *)

Lemma energy_fold_buckets (hp : dict datetime R) (items : list (datetime * R))
  (g i : dict (Z * Z) R) :
  fold_left (energy_step hp) items (g, i)
  = (bucket_fold (fun h => year_month_of (fst h)) 0 (grid_op hp) items g,
     bucket_fold (fun h => year_month_of (fst h)) 0 (injected_op hp) items i).
Proof.
  unfold bucket_fold. revert g i.
  induction items as [|[time c] items IH]; intros g i; simpl; [reflexivity|].
  rewrite <- IH. f_equal.
  unfold bucket_step, grid_op, injected_op, add_at; simpl.
  destruct (Rgt_dec c (dict_get_default time 0 hp)); f_equal.
  - symmetry. apply dict_set_same_value, init_if_absent_mem.
  - symmetry. apply dict_set_same_value, init_if_absent_mem.
Qed.

Lemma monthly_energy_buckets (hp hc : dict datetime R) :
  monthly_energy hp hc
  = (bucket_fold (fun h => year_month_of (fst h)) 0 (grid_op hp) hc [],
     bucket_fold (fun h => year_month_of (fst h)) 0 (injected_op hp) hc []).
Proof. apply energy_fold_buckets. Qed.

Lemma fold_conditional_sum (X : Type) (c : X -> bool) (w : X -> R)
  (l : list X) (a : R) :
  fold_left (fun v x => if c x then v + w x else v) l a
  = a + Py.sum (map w (filter c l)).
Proof.
  revert a. induction l as [|x l IH]; intros a; simpl.
  - rewrite sum_nil. lra.
  - rewrite IH. destruct (c x); simpl; [rewrite sum_cons|]; lra.
Qed.

Lemma fold_left_pointwise (A B : Type) (f g : A -> B -> A) (l : list B)
  (a : A) :
  (forall a x, f a x = g a x) -> fold_left f l a = fold_left g l a.
Proof.
  intros Hfg. revert a.
  induction l as [|x l IH]; intros a; simpl; [reflexivity|].
  now rewrite Hfg, IH.
Qed.

Lemma grid_bucket_value (hp : dict datetime R) (l : list (datetime * R)) :
  fold_left (fun v h => grid_op hp h v) l 0
  = Py.sum (map (fun h => (snd h - Spec.production_at hp (fst h)) / 1000)
              (filter (Spec.draws_from_grid hp) l)).
Proof.
  rewrite <- (Rplus_0_l (Py.sum _)).
  rewrite <- fold_conditional_sum.
  apply fold_left_pointwise. intros v h.
  unfold grid_op, Spec.draws_from_grid, Spec.production_at, dict_get_default.
  destruct (Rgt_dec _ _); reflexivity.
Qed.

Lemma injected_bucket_value (hp : dict datetime R) (l : list (datetime * R)) :
  fold_left (fun v h => injected_op hp h v) l 0
  = Py.sum (map (fun h => (Spec.production_at hp (fst h) - snd h) / 1000)
              (filter (fun h => negb (Spec.draws_from_grid hp h)) l)).
Proof.
  rewrite <- (Rplus_0_l (Py.sum _)).
  rewrite <- fold_conditional_sum.
  apply fold_left_pointwise. intros v h.
  unfold injected_op, Spec.draws_from_grid, Spec.production_at,
    dict_get_default.
  destruct (Rgt_dec _ _); reflexivity.
Qed.

Lemma month_in_series (hc : dict datetime R) (ym : Z * Z) :
  existsb (fun h => key_eqb (year_month_of (fst h)) ym) hc = true
  <-> exists time, In time (dict_keys hc) /\ year_month_of time = ym.
Proof.
  rewrite existsb_exists. split.
  - intros [[time c] [Hin He]]. apply key_eqb_true in He.
    exists time. split; [|exact He].
    change time with (fst (time, c)). now apply in_map.
  - intros [time [Hin He]]. apply in_map_iff in Hin.
    destruct Hin as [[t c] [Ht Hin]]. simpl in Ht. subst t.
    exists (time, c). split; [exact Hin | now apply key_eqb_true].
Qed.

Lemma lookup_values_of_keys (hc : dict datetime R) (f : datetime -> bool) :
  NoDup (dict_keys hc) ->
  map (fun time => dict_get_default time 0 hc) (filter f (dict_keys hc))
  = map snd (filter (fun h => f (fst h)) hc).
Proof.
  intros Hnd.
  assert (Hsub : forall l, incl l hc ->
            map (fun time => dict_get_default time 0 hc)
              (filter f (dict_keys l))
            = map snd (filter (fun h => f (fst h)) l)).
  { induction l as [|[time c] l IH]; intros Hincl; simpl; [reflexivity|].
    assert (Htail : incl l hc) by (intros x Hx; apply Hincl; now right).
    destruct (f time); simpl; rewrite (IH Htail); [|reflexivity].
    f_equal. unfold dict_get_default.
    rewrite (dict_In_get _ _ _ Hnd (Hincl _ (or_introl eq_refl))).
    reflexivity. }
  apply Hsub, incl_refl.
Qed.

Lemma month_consumption_spec (hc : dict datetime R) (ym : Z * Z) :
  NoDup (dict_keys hc) ->
  month_consumption hc ym = Spec.monthConsumption hc ym.
Proof.
  intros Hnd. unfold month_consumption, Spec.monthConsumption,
    Spec.hours_of_month.
  rewrite (lookup_values_of_keys hc
             (fun time => if key_eq_dec (year_month_of time) ym
                          then true else false) Hnd).
  reflexivity.
Qed.

Lemma fold_dict_set_get (K V : Type) `{KeyEq K} (f : K -> V) (ks : list K)
  (d : dict K V) (k : K) :
  dict_get k (fold_left (fun d k => dict_set k (f k) d) ks d)
  = if in_dec key_eq_dec k ks then Some (f k) else dict_get k d.
Proof.
  revert d. induction ks as [|k0 ks IH]; intros d; simpl; [reflexivity|].
  rewrite IH.
  destruct (in_dec key_eq_dec k ks) as [I|NI].
  - destruct (key_eq_dec k0 k); reflexivity.
  - destruct (key_eq_dec k0 k) as [E|N].
    + subst k0. apply dict_get_set_same.
    + apply dict_get_set_other. congruence.
Qed.

Lemma fold_dict_set_keys (K V : Type) `{KeyEq K} (f : K -> V) (ks : list K)
  (d : dict K V) :
  NoDup (dict_keys d ++ ks) ->
  dict_keys (fold_left (fun d k => dict_set k (f k) d) ks d)
  = dict_keys d ++ ks.
Proof.
  revert d. induction ks as [|k0 ks IH]; intros d Hnd; simpl.
  - now rewrite app_nil_r.
  - assert (Hm : dict_mem k0 d = false).
    { apply dict_mem_false. intros Hin.
      apply NoDup_remove_2 in Hnd. apply Hnd, in_or_app. now left. }
    rewrite IH; rewrite dict_keys_set, Hm, <- app_assoc; [reflexivity|].
    exact Hnd.
Qed.

Lemma calculate_monthly_costs_unfold (hp hc : dict datetime R) (cg cd : R) :
  calculate_monthly_costs hp hc cg cd
  = fold_left
      (fun d ym =>
         dict_set ym
           (month_consumption hc ym / 1000 * cg,
            dict_get_default ym 0 (fst (monthly_energy hp hc)) * cg
            - dict_get_default ym 0 (snd (monthly_energy hp hc)) * cd) d)
      (dict_keys (fst (monthly_energy hp hc))) [].
Proof.
  unfold calculate_monthly_costs.
  destruct (monthly_energy hp hc) as [g i]. reflexivity.
Qed.

Lemma grid_bucket_get (hp hc : dict datetime R) (ym : Z * Z) :
  dict_get ym (fst (monthly_energy hp hc))
  = if existsb (fun h => key_eqb (year_month_of (fst h)) ym) hc
    then Some (Spec.gridEnergyKWh hp hc ym) else None.
Proof.
  rewrite monthly_energy_buckets. cbn [fst].
  rewrite bucket_fold_get, grid_bucket_value. reflexivity.
Qed.

Lemma injected_bucket_get (hp hc : dict datetime R) (ym : Z * Z) :
  dict_get ym (snd (monthly_energy hp hc))
  = if existsb (fun h => key_eqb (year_month_of (fst h)) ym) hc
    then Some (Spec.injectedEnergyKWh hp hc ym) else None.
Proof.
  rewrite monthly_energy_buckets. cbn [snd].
  rewrite bucket_fold_get, injected_bucket_value. reflexivity.
Qed.

Lemma grid_bucket_keys (hp hc : dict datetime R) :
  NoDup (dict_keys (fst (monthly_energy hp hc))) /\
  forall ym, In ym (dict_keys (fst (monthly_energy hp hc)))
             <-> exists time, In time (dict_keys hc) /\ year_month_of time = ym.
Proof.
  rewrite monthly_energy_buckets. cbn [fst]. split.
  - apply bucket_fold_NoDup. constructor.
  - intros ym. rewrite bucket_fold_In_keys, <- month_in_series.
    rewrite existsb_exists. split.
    + intros [[]|[h [Hin He]]]. exists h. split; [auto|now apply key_eqb_true].
    + intros [h [Hin He]]. right. exists h.
      split; [auto | now apply key_eqb_true].
Qed.

(** C4. The monthly cost calculator goes over the hours of the consumption
    series, reading an absent production timestamp as 0.  The grid-energy
    bucket of a month is the sum of (consumption - production)/1000 over its
    hours with consumption > production, the injected-energy bucket the sum
    of (production - consumption)/1000 over its other hours; the output has
    exactly one record per (year, month) of the consumption series, holding
    costWithoutPV = (month's consumption)/1000 * c_grid and
    costWithPV = gridEnergyKWh * c_grid - injectedEnergyKWh * c_DAM. *)
Theorem calculate_monthly_costs_spec
  (hourly_production hourly_consumption : dict datetime R) (c_grid c_DAM : R) :
  NoDup (dict_keys hourly_consumption) ->
  let costs :=
    calculate_monthly_costs hourly_production hourly_consumption c_grid c_DAM in
  let buckets := monthly_energy hourly_production hourly_consumption in
  NoDup (dict_keys costs) /\
  (forall ym,
      In ym (dict_keys costs)
      <-> exists time,
          In time (dict_keys hourly_consumption) /\ year_month_of time = ym) /\
  (forall ym,
      In ym (dict_keys costs) ->
      dict_get ym (fst buckets)
      = Some (Spec.gridEnergyKWh hourly_production hourly_consumption ym) /\
      dict_get ym (snd buckets)
      = Some (Spec.injectedEnergyKWh hourly_production hourly_consumption ym) /\
      dict_get ym costs
      = Some (Spec.costWithoutPV hourly_consumption c_grid ym,
              Spec.costWithPV hourly_production hourly_consumption
                c_grid c_DAM ym)).
Proof.
  intros Hnd costs buckets.
  destruct (grid_bucket_keys hourly_production hourly_consumption)
    as [Hgnd Hgin].
  assert (Hkeys : dict_keys costs = dict_keys (fst buckets)).
  { unfold costs. rewrite calculate_monthly_costs_unfold.
    rewrite fold_dict_set_keys; [reflexivity | exact Hgnd]. }
  split; [rewrite Hkeys; exact Hgnd|].
  split; [intros ym; rewrite Hkeys; apply Hgin|].
  intros ym Hin. rewrite Hkeys in Hin.
  assert (Hex : existsb (fun h => key_eqb (year_month_of (fst h)) ym)
                  hourly_consumption = true)
    by (apply month_in_series, Hgin, Hin).
  assert (Hg : dict_get ym (fst buckets)
               = Some (Spec.gridEnergyKWh hourly_production
                         hourly_consumption ym))
    by (unfold buckets; rewrite grid_bucket_get, Hex; reflexivity).
  assert (Hi : dict_get ym (snd buckets)
               = Some (Spec.injectedEnergyKWh hourly_production
                         hourly_consumption ym))
    by (unfold buckets; rewrite injected_bucket_get, Hex; reflexivity).
  repeat split; [exact Hg | exact Hi |].
  unfold costs. rewrite calculate_monthly_costs_unfold, fold_dict_set_get.
  destruct (in_dec key_eq_dec ym _) as [_|Hni]; [|contradiction].
  fold buckets. unfold dict_get_default. rewrite Hg, Hi.
  rewrite month_consumption_spec by exact Hnd. reflexivity.
Qed.

Lemma fold_nonneg (X : Type) (op : X -> R -> R) (l : list X) (a : R) :
  (forall x v, 0 <= v -> 0 <= op x v) -> 0 <= a ->
  0 <= fold_left (fun v x => op x v) l a.
Proof.
  intros Hop. revert a.
  induction l as [|x l IH]; intros a Ha; simpl; [exact Ha|].
  apply IH, Hop, Ha.
Qed.

Lemma grid_op_nonneg (hp : dict datetime R) (h : datetime * R) (v : R) :
  0 <= v -> 0 <= grid_op hp h v.
Proof.
  unfold grid_op. destruct (Rgt_dec _ _); lra.
Qed.

Lemma injected_op_nonneg (hp : dict datetime R) (h : datetime * R) (v : R) :
  0 <= v -> 0 <= injected_op hp h v.
Proof.
  unfold injected_op. destruct (Rgt_dec _ _); lra.
Qed.

Lemma bucket_fold_values_nonneg (X : Type) (key : X -> Z * Z)
  (op : X -> R -> R) (items : list X) :
  (forall x v, 0 <= v -> 0 <= op x v) ->
  Forall (fun kv => 0 <= snd kv) (bucket_fold key 0 op items []).
Proof.
  intros Hop. apply Forall_forall. intros [k v] Hin.
  apply dict_In_get in Hin; [|apply bucket_fold_NoDup; constructor].
  rewrite bucket_fold_get in Hin.
  destruct (existsb _ items); [|discriminate].
  inversion Hin; subst. simpl. apply fold_nonneg; [exact Hop | lra].
Qed.

(** One hour's update: a positive amount goes to the grid bucket exactly when
    consumption > production, otherwise a non-negative amount goes to the
    injected bucket; the other bucket keeps its value. *)
Lemma energy_step_adds (hp : dict datetime R) (grid injected : dict (Z * Z) R)
  (time : datetime) (consumption : R) :
  let production := dict_get_default time 0 hp in
  let ym := year_month_of time in
  let after := energy_step hp (grid, injected) (time, consumption) in
  (consumption > production ->
   (consumption - production) / 1000 > 0 /\
   dict_get ym (fst after)
   = Some (dict_get_default ym 0 grid + (consumption - production) / 1000) /\
   dict_get_default ym 0 (snd after) = dict_get_default ym 0 injected) /\
  (~ consumption > production ->
   (production - consumption) / 1000 >= 0 /\
   dict_get ym (snd after)
   = Some (dict_get_default ym 0 injected + (production - consumption) / 1000) /\
   dict_get_default ym 0 (fst after) = dict_get_default ym 0 grid).
Proof.
  intros production ym after.
  unfold after, energy_step, production, add_at. fold ym.
  destruct (Rgt_dec consumption (dict_get_default time 0 hp))
    as [Hgt|Hle]; cbn [fst snd]; split; intros Hc; try contradiction.
  - split; [lra|].
    rewrite dict_get_set_same, !init_if_absent_get_same. auto.
  - split; [lra|].
    rewrite dict_get_set_same, !init_if_absent_get_same. auto.
Qed.

(** C10. Whatever real values the two series hold (no sign precondition),
    every grid-energy bucket and every injected-energy bucket built by the
    monthly cost calculator is >= 0. *)
Theorem monthly_energy_buckets_nonneg
  (hourly_production hourly_consumption : dict datetime R) :
  Forall (fun kv => 0 <= snd kv)
    (fst (monthly_energy hourly_production hourly_consumption)) /\
  Forall (fun kv => 0 <= snd kv)
    (snd (monthly_energy hourly_production hourly_consumption)).
Proof.
  rewrite monthly_energy_buckets. cbn [fst snd]. split.
  - apply bucket_fold_values_nonneg. intros x v. apply grid_op_nonneg.
  - apply bucket_fold_values_nonneg. intros x v. apply injected_op_nonneg.
Qed.

Lemma sample_consumption_NoDup : NoDup (dict_keys sample_consumption).
Proof.
  unfold sample_consumption, dict_keys; simpl.
  repeat constructor; simpl; intuition discriminate.
Qed.

Lemma calculate_monthly_costs_spec_witness :
  NoDup (dict_keys sample_consumption) /\
  dict_get (1998, 2)%Z
    (calculate_monthly_costs sample_production sample_consumption c_grid c_DAM)
  = Some (Spec.costWithoutPV sample_consumption c_grid (1998, 2)%Z,
          Spec.costWithPV sample_production sample_consumption
            c_grid c_DAM (1998, 2)%Z).
Proof.
  split; [exact sample_consumption_NoDup|].
  destruct (calculate_monthly_costs_spec sample_production sample_consumption
              c_grid c_DAM sample_consumption_NoDup) as (_ & Hiff & Hval).
  apply Hval, Hiff. exists (at_hour 1998 2 5 21).
  split; [simpl; auto | reflexivity].
Defined.

(** ** IndicatorEngine *)

Import EnergyAnalysis.

Lemma fold_append_values (X : Type) (w : X -> R) (l : list X) (acc : list R) :
  fold_left (fun v x => v ++ [w x]) l acc = acc ++ map w l.
Proof.
  revert acc. induction l as [|x l IH]; intros acc; simpl.
  - now rewrite app_nil_r.
  - rewrite IH, <- app_assoc. reflexivity.
Qed.

Lemma group_by_day_get (series : dict datetime R) (day : date) :
  dict_get day (group_by_day series)
  = if Spec.has_day series day then Some (Spec.day_values series day)
    else None.
Proof.
  change (group_by_day series)
    with (bucket_fold (fun h : datetime * R => date_of (fst h)) []
            (fun h l => l ++ [snd h]) series []).
  rewrite bucket_fold_get.
  rewrite (fold_append_values (fun h : datetime * R => snd h)).
  reflexivity.
Qed.

Lemma group_by_day_mem (series : dict datetime R) (day : date) :
  dict_mem day (group_by_day series) = Spec.has_day series day.
Proof.
  unfold dict_mem. rewrite group_by_day_get.
  destruct (Spec.has_day series day); reflexivity.
Qed.

Lemma fold_conditional_set (K V : Type) `{KeyEq K} (c : K -> bool)
  (f : K -> V) (ks : list K) (d : dict K V) :
  fold_left (fun d k => if c k then dict_set k (f k) d else d) ks d
  = fold_left (fun d k => dict_set k (f k) d) (filter c ks) d.
Proof.
  revert d. induction ks as [|k ks IH]; intros d; simpl; [reflexivity|].
  rewrite IH. destruct (c k); reflexivity.
Qed.

(** A day has an indicator exactly when it appears in both groupings, and the
    indicator is computed from that day's two value lists. *)
Lemma daily_indicator_get (indicator : list R -> list R -> R)
  (hp hc : dict datetime R) (day : date) :
  dict_get day (daily_indicator indicator hp hc)
  = if Spec.has_day hp day && Spec.has_day hc day
    then Some (indicator (Spec.day_values hp day) (Spec.day_values hc day))
    else None.
Proof.
  unfold daily_indicator.
  rewrite (fold_conditional_set
             (fun day => dict_mem day (group_by_day hc))
             (fun day => indicator
                           (dict_get_default day [] (group_by_day hp))
                           (dict_get_default day [] (group_by_day hc)))).
  rewrite fold_dict_set_get.
  destruct (in_dec key_eq_dec day _) as [Hin|Hni].
  - apply filter_In in Hin. destruct Hin as [Hp Hc].
    apply dict_mem_In in Hp. rewrite group_by_day_mem in Hp, Hc.
    rewrite Hp, Hc. cbn [andb]. unfold dict_get_default.
    rewrite !group_by_day_get, Hp, Hc. reflexivity.
  - destruct (Spec.has_day hp day) eqn:Hp; [|reflexivity].
    destruct (Spec.has_day hc day) eqn:Hc; [|reflexivity].
    exfalso. apply Hni, filter_In.
    rewrite <- dict_mem_In, !group_by_day_mem. auto.
Qed.

Lemma day_values_In (series : dict datetime R) (day : date) (v : R) :
  In v (Spec.day_values series day) -> In v (dict_values series).
Proof.
  unfold Spec.day_values, Spec.day_hours, dict_values.
  rewrite !in_map_iff. intros [h [Hv Hin]].
  apply filter_In in Hin. exists h. tauto.
Qed.

Lemma day_values_nonneg (series : dict datetime R) (day : date) :
  Forall (fun v => 0 <= v) (dict_values series) ->
  Forall (fun v => 0 <= v) (Spec.day_values series day).
Proof.
  rewrite !Forall_forall. intros Hall v Hv.
  apply Hall. eapply day_values_In; eauto.
Qed.

Lemma sum_min_bounds (ps cs : list R) :
  Forall (fun v => 0 <= v) ps -> Forall (fun v => 0 <= v) cs ->
  0 <= sum_min_prod_load ps cs /\
  sum_min_prod_load ps cs <= Py.sum ps /\
  sum_min_prod_load ps cs <= Py.sum cs.
Proof.
  unfold sum_min_prod_load, Py.zip. intros Hp. revert cs.
  induction Hp as [|p ps Hp0 Hps IH]; intros cs Hc.
  - simpl. rewrite sum_nil. pose proof (sum_nonneg Hc). lra.
  - destruct Hc as [|c cs Hc0 Hcs].
    + simpl. rewrite sum_nil. pose proof (sum_nonneg (Forall_cons p Hp0 Hps)).
      lra.
    + simpl. rewrite !sum_cons. destruct (IH cs Hcs) as (H0 & H1 & H2).
      rewrite min_Rmin. unfold Rmin. destruct (Rle_dec p c); lra.
Qed.

Lemma sum_min_same (vs : list R) : sum_min_prod_load vs vs = Py.sum vs.
Proof.
  unfold sum_min_prod_load, Py.zip.
  induction vs as [|v vs IH]; simpl; [reflexivity|].
  rewrite !sum_cons, IH. unfold Py.min. simpl.
  destruct (Rlt_dec v v); lra.
Qed.

Lemma self_consumption_day_bounds (ps cs : list R) :
  Forall (fun v => 0 <= v) ps -> Forall (fun v => 0 <= v) cs ->
  Py.sum ps <> 0 -> 0 <= self_consumption_day ps cs <= 1.
Proof.
  intros Hp Hc Hnz. unfold self_consumption_day.
  destruct (Req_dec_T (Py.sum ps) 0) as [E|_]; [contradiction|].
  destruct (sum_min_bounds Hp Hc) as (H0 & H1 & _).
  pose proof (sum_nonneg Hp) as Hs.
  assert (Hpos : 0 < Py.sum ps) by lra.
  split.
  - apply Rmult_le_pos; [exact H0 | left; now apply Rinv_0_lt_compat].
  - apply (Rmult_le_reg_r (Py.sum ps)); [exact Hpos|].
    unfold Rdiv. rewrite Rmult_assoc, Rinv_l by lra. lra.
Qed.

Lemma self_sufficiency_day_bounds (ps cs : list R) :
  Forall (fun v => 0 <= v) ps -> Forall (fun v => 0 <= v) cs ->
  Py.sum cs <> 0 -> 0 <= self_sufficiency_day ps cs <= 1.
Proof.
  intros Hp Hc Hnz. unfold self_sufficiency_day.
  destruct (Req_dec_T (Py.sum cs) 0) as [E|_]; [contradiction|].
  destruct (sum_min_bounds Hp Hc) as (H0 & _ & H2).
  pose proof (sum_nonneg Hc) as Hs.
  assert (Hpos : 0 < Py.sum cs) by lra.
  split.
  - apply Rmult_le_pos; [exact H0 | left; now apply Rinv_0_lt_compat].
  - apply (Rmult_le_reg_r (Py.sum cs)); [exact Hpos|].
    unfold Rdiv. rewrite Rmult_assoc, Rinv_l by lra. lra.
Qed.

Lemma ratios_of_equal_lists (vs : list R) :
  Py.sum vs <> 0 ->
  self_consumption_day vs vs = 1 /\ self_sufficiency_day vs vs = 1.
Proof.
  intros Hnz. unfold self_consumption_day, self_sufficiency_day.
  destruct (Req_dec_T (Py.sum vs) 0) as [E|_]; [contradiction|].
  rewrite sum_min_same. split; now field.
Qed.

(** C7 (amended). For a day that appears in both daily groupings, with
    non-negative hourly values: the daily self-consumption and the daily
    self-sufficiency lie in [0, 1] whenever their denominator (the day's total
    production, resp. consumption) is non-zero; and when both series list the
    same hours of that day with the same values in the same order and the
    day's total is non-zero, both ratios are exactly 1. *)
Theorem daily_ratios_bounds (hourly_production hourly_consumption
                               : dict datetime R) (day : date) :
  dict_mem day (group_by_day hourly_production) = true ->
  dict_mem day (group_by_day hourly_consumption) = true ->
  Forall (fun v => 0 <= v) (dict_values hourly_production) ->
  Forall (fun v => 0 <= v) (dict_values hourly_consumption) ->
  let prod_values := Spec.day_values hourly_production day in
  let cons_values := Spec.day_values hourly_consumption day in
  dict_get day (group_by_day hourly_production) = Some prod_values /\
  dict_get day (group_by_day hourly_consumption) = Some cons_values /\
  exists sc ss,
    dict_get day
      (calculate_self_consumption_daily hourly_production hourly_consumption)
    = Some sc /\
    dict_get day
      (calculate_self_sufficiency_daily hourly_production hourly_consumption)
    = Some ss /\
    (Py.sum prod_values <> 0 -> 0 <= sc <= 1) /\
    (Py.sum cons_values <> 0 -> 0 <= ss <= 1) /\
    (Spec.day_hours hourly_production day
     = Spec.day_hours hourly_consumption day ->
     Py.sum prod_values <> 0 -> sc = 1 /\ ss = 1).
Proof.
  intros Hp Hc Hpn Hcn prod_values cons_values.
  rewrite group_by_day_mem in Hp, Hc.
  rewrite !group_by_day_get, Hp, Hc.
  split; [reflexivity|]. split; [reflexivity|].
  exists (self_consumption_day prod_values cons_values),
         (self_sufficiency_day prod_values cons_values).
  unfold calculate_self_consumption_daily, calculate_self_sufficiency_daily.
  rewrite !daily_indicator_get, Hp, Hc. cbn [andb].
  split; [reflexivity|]. split; [reflexivity|].
  pose proof (day_values_nonneg hourly_production day Hpn) as Hpd.
  pose proof (day_values_nonneg hourly_consumption day Hcn) as Hcd.
  split; [now apply self_consumption_day_bounds|].
  split; [now apply self_sufficiency_day_bounds|].
  intros Heq Hnz.
  assert (Hv : cons_values = prod_values)
    by (unfold cons_values, prod_values, Spec.day_values; now rewrite Heq).
  rewrite Hv. now apply ratios_of_equal_lists.
Qed.

Lemma daily_ratios_bounds_witness :
  dict_mem june_1 (group_by_day noon_first) = true /\
  Forall (fun v => 0 <= v) (dict_values noon_first) /\
  exists sc ss,
    dict_get june_1 (calculate_self_consumption_daily noon_first noon_first)
    = Some sc /\
    dict_get june_1 (calculate_self_sufficiency_daily noon_first noon_first)
    = Some ss /\
    (Py.sum (Spec.day_values noon_first june_1) <> 0 -> 0 <= sc <= 1) /\
    (Py.sum (Spec.day_values noon_first june_1) <> 0 -> 0 <= ss <= 1) /\
    (Spec.day_hours noon_first june_1 = Spec.day_hours noon_first june_1 ->
     Py.sum (Spec.day_values noon_first june_1) <> 0 -> sc = 1 /\ ss = 1).
Proof.
  assert (Hm : dict_mem june_1 (group_by_day noon_first) = true)
    by reflexivity.
  assert (Hn : Forall (fun v => 0 <= v) (dict_values noon_first))
    by (repeat constructor; simpl; lra).
  split; [exact Hm|]. split; [exact Hn|].
  exact (proj2 (proj2
    (daily_ratios_bounds noon_first noon_first june_1 Hm Hm Hn Hn))).
Defined.

Lemma equal_on_day_idle : Spec.equal_on_day idle_day idle_day june_1.
Proof. intros time _. reflexivity. Qed.

Lemma equal_on_day_reordered : Spec.equal_on_day noon_first noon_last june_1.
Proof.
  intros time _. unfold noon_first, noon_last. simpl.
  destruct (key_eq_dec time (at_hour 1998 6 1 12)) as [E12|N12];
    destruct (key_eq_dec time (at_hour 1998 6 1 13)) as [E13|N13];
    try reflexivity.
  rewrite E12 in E13. discriminate E13.
Qed.

(** C7 as stated fails in two ways.  On a day where both series are 0 at
    every hour the guard returns 0, not 1; and because the daily value lists
    are paired by position, two series that agree at every hour but were
    filled in a different order give ratios below 1. *)
Lemma daily_ratios_counterexample :
  (Spec.equal_on_day idle_day idle_day june_1 /\
   Forall (fun v => 0 <= v) (dict_values idle_day) /\
   dict_get june_1 (calculate_self_consumption_daily idle_day idle_day)
   = Some 0 /\
   dict_get june_1 (calculate_self_sufficiency_daily idle_day idle_day)
   = Some 0) /\
  (Spec.equal_on_day noon_first noon_last june_1 /\
   Forall (fun v => 0 <= v) (dict_values noon_first) /\
   Forall (fun v => 0 <= v) (dict_values noon_last) /\
   dict_get june_1 (calculate_self_consumption_daily noon_first noon_last)
   = Some (2 / 3) /\
   dict_get june_1 (calculate_self_sufficiency_daily noon_first noon_last)
   = Some (2 / 3)) /\
  0 <> 1 /\ 2 / 3 <> 1.
Proof.
  unfold calculate_self_consumption_daily, calculate_self_sufficiency_daily.
  rewrite !daily_indicator_get.
  change (Spec.has_day idle_day june_1) with true.
  change (Spec.has_day noon_first june_1) with true.
  change (Spec.has_day noon_last june_1) with true.
  change (Spec.day_values idle_day june_1) with [0].
  change (Spec.day_values noon_first june_1) with [1; 2].
  change (Spec.day_values noon_last june_1) with [2; 1].
  cbn [andb].
  unfold self_consumption_day, self_sufficiency_day, sum_min_prod_load,
    Py.zip, Py.sum, Py.min; simpl.
  repeat split;
    try exact equal_on_day_idle; try exact equal_on_day_reordered;
    try (repeat constructor; simpl; lra); try lra;
    f_equal;
    repeat match goal with
           | |- context [Req_dec_T ?a ?b] => destruct (Req_dec_T a b)
           | |- context [Rlt_dec ?a ?b] => destruct (Rlt_dec a b)
           end; try lra; try (field_simplify; lra).
Qed.

Lemma abs_nonneg (a : R) : 0 <= Py.abs a.
Proof. rewrite abs_Rabs. apply Rabs_pos. Qed.

Lemma abs_zero (a b : R) : Py.abs (a - b) = 0 <-> a = b.
Proof.
  unfold Py.abs. destruct (Rlt_dec (a - b) 0); split; lra.
Qed.

Lemma neeg_day_nonneg (ps cs : list R) : 0 <= neeg_day ps cs.
Proof.
  unfold neeg_day.
  assert (0 <= Py.sum (map (fun pc => Py.abs (fst pc - snd pc))
                         (Py.zip ps cs))).
  { apply sum_nonneg, Forall_forall. intros v Hv.
    apply in_map_iff in Hv. destruct Hv as [pc [E _]]. subst v.
    apply abs_nonneg. }
  lra.
Qed.

Lemma neeg_day_zero (ps cs : list R) :
  neeg_day ps cs = 0
  <-> Forall (fun pc => fst pc = snd pc) (Py.zip ps cs).
Proof.
  unfold neeg_day.
  set (terms := map (fun pc => Py.abs (fst pc - snd pc)) (Py.zip ps cs)).
  assert (Hnn : Forall (fun v => 0 <= v) terms).
  { apply Forall_forall. intros v Hv. apply in_map_iff in Hv.
    destruct Hv as [pc [E _]]. subst v. apply abs_nonneg. }
  split.
  - intros Hz. assert (Hs : Py.sum terms = 0) by lra.
    pose proof (sum_nonneg_zero Hnn Hs) as Hall.
    rewrite Forall_forall in *. intros pc Hin.
    apply abs_zero, Hall. unfold terms.
    apply in_map_iff. exists pc. auto.
  - intros Hall.
    assert (Hs : Py.sum terms = 0).
    { unfold terms. clear Hnn terms.
      induction Hall as [|pc l Hpc _ IH]; simpl.
      - apply sum_nil.
      - rewrite sum_cons, IH. apply abs_zero in Hpc. lra. }
    rewrite Hs. lra.
Qed.

Lemma same_hours_equal_values (a b : list (datetime * R)) :
  map fst a = map fst b ->
  (Forall (fun pc => fst pc = snd pc) (Py.zip (map snd a) (map snd b))
   <-> a = b).
Proof.
  unfold Py.zip. revert b.
  induction a as [|[ta va] a IH]; intros [|[tb vb] b] Hk; simpl in *;
    try discriminate; [split; auto|].
  inversion Hk as [[Ht Hrest]]. subst tb.
  split.
  - intros Hall. inversion Hall as [|? ? Hv Htl]; subst. simpl in Hv.
    subst vb. f_equal. now apply IH.
  - intros E. inversion E; subst. constructor; [reflexivity|].
    now apply IH.
Qed.

(** C8 (amended). For a day that appears in both daily groupings the daily
    NEEG is >= 0, and it is 0 exactly when production equals consumption at
    every position of the day's two value lists paired in iteration order
    (up to the shorter list); when both series list the same hours of that
    day in the same order, that is: exactly when production equals
    consumption at every hour of that day. *)
Theorem daily_neeg_zero_iff (hourly_production hourly_consumption
                               : dict datetime R) (day : date) :
  dict_mem day (group_by_day hourly_production) = true ->
  dict_mem day (group_by_day hourly_consumption) = true ->
  exists neeg,
    dict_get day (calculate_neeg_daily hourly_production hourly_consumption)
    = Some neeg /\
    0 <= neeg /\
    (neeg = 0
     <-> Forall (fun pc => fst pc = snd pc)
           (Py.zip (Spec.day_values hourly_production day)
                   (Spec.day_values hourly_consumption day))) /\
    (map fst (Spec.day_hours hourly_production day)
     = map fst (Spec.day_hours hourly_consumption day) ->
     (neeg = 0
      <-> Spec.day_hours hourly_production day
          = Spec.day_hours hourly_consumption day)).
Proof.
  intros Hp Hc. rewrite group_by_day_mem in Hp, Hc.
  exists (neeg_day (Spec.day_values hourly_production day)
                   (Spec.day_values hourly_consumption day)).
  unfold calculate_neeg_daily. rewrite daily_indicator_get, Hp, Hc.
  cbn [andb]. split; [reflexivity|].
  split; [apply neeg_day_nonneg|].
  split; [apply neeg_day_zero|].
  intros Hk. rewrite neeg_day_zero.
  now apply same_hours_equal_values.
Qed.

Lemma daily_neeg_zero_iff_witness :
  dict_mem june_1 (group_by_day noon_first) = true /\
  dict_mem june_1 (group_by_day noon_only) = true /\
  exists neeg,
    dict_get june_1 (calculate_neeg_daily noon_first noon_only) = Some neeg /\
    0 <= neeg /\
    (neeg = 0
     <-> Forall (fun pc => fst pc = snd pc)
           (Py.zip (Spec.day_values noon_first june_1)
                   (Spec.day_values noon_only june_1))) /\
    (map fst (Spec.day_hours noon_first june_1)
     = map fst (Spec.day_hours noon_only june_1) ->
     (neeg = 0
      <-> Spec.day_hours noon_first june_1 = Spec.day_hours noon_only june_1)).
Proof.
  assert (Hp : dict_mem june_1 (group_by_day noon_first) = true)
    by reflexivity.
  assert (Hc : dict_mem june_1 (group_by_day noon_only) = true)
    by reflexivity.
  split; [exact Hp|]. split; [exact Hc|].
  exact (daily_neeg_zero_iff noon_first noon_only june_1 Hp Hc).
Defined.

(** C8 as stated fails in both directions of its equivalence.  The value
    lists are paired by position and cut at the shorter one: a production
    hour without a consumption hour is left out, so the NEEG is 0 although
    production and consumption differ at that hour; and two series that agree
    at every hour but were filled in a different order have a positive NEEG. *)
Lemma daily_neeg_counterexample :
  (dict_get june_1 (calculate_neeg_daily noon_first noon_only) = Some 0 /\
   date_of (at_hour 1998 6 1 13) = june_1 /\
   dict_get (at_hour 1998 6 1 13) noon_first = Some 2 /\
   dict_get (at_hour 1998 6 1 13) noon_only = None) /\
  (Spec.equal_on_day noon_first noon_last june_1 /\
   dict_get june_1 (calculate_neeg_daily noon_first noon_last)
   = Some (2 / 1000)) /\
  2 / 1000 <> 0.
Proof.
  unfold calculate_neeg_daily. rewrite !daily_indicator_get.
  change (Spec.has_day noon_only june_1) with true.
  change (Spec.has_day noon_first june_1) with true.
  change (Spec.has_day noon_last june_1) with true.
  change (Spec.day_values noon_only june_1) with [1].
  change (Spec.day_values noon_first june_1) with [1; 2].
  change (Spec.day_values noon_last june_1) with [2; 1].
  cbn [andb].
  unfold neeg_day, Py.zip, Py.sum, Py.abs; simpl.
  repeat split; try exact equal_on_day_reordered; try lra;
    f_equal;
    repeat match goal with
           | |- context [Rlt_dec ?a ?b] => destruct (Rlt_dec a b)
           end; lra.
Qed.

(** ** HorizonExtender *)

Lemma days_in_month_non_leap (y y' m : Z) :
  is_leap y = false -> (days_in_month y m <= days_in_month y' m)%Z.
Proof.
  intros Hl. unfold days_in_month. rewrite Hl.
  destruct (m =? 2)%Z; [destruct (is_leap y'); lia|].
  destruct ((m =? 4) || (m =? 6) || (m =? 9) || (m =? 11))%Z; lia.
Qed.

Lemma replace_year_ok (t : datetime) (y : Z) :
  valid_datetime t = true -> is_leap (year t) = false ->
  (MINYEAR <= y <= MAXYEAR)%Z ->
  replace_year t y = Ok (with_year t y).
Proof.
  intros Hv Hl Hy. unfold replace_year.
  replace (check_date_fields y (month t) (day t)) with true; [reflexivity|].
  symmetry. unfold valid_datetime in Hv.
  apply andb_true_iff in Hv. destruct Hv as [Hd _].
  unfold check_date_fields in *.
  repeat (apply andb_true_iff in Hd; destruct Hd as [Hd ?]).
  pose proof (days_in_month_non_leap (year t) y (month t) Hl).
  repeat (apply andb_true_iff; split); try assumption; apply Z.leb_le; lia.
Qed.

Lemma valid_year_min (t : datetime) :
  valid_datetime t = true -> (MINYEAR <= year t)%Z.
Proof.
  unfold valid_datetime, check_date_fields. intros Hv.
  apply andb_true_iff in Hv. destruct Hv as [Hd _].
  repeat (apply andb_true_iff in Hd; destruct Hd as [Hd ?]).
  now apply Z.leb_le.
Qed.

Lemma extend_series_ok (series : dict datetime R) (y offset : Z)
  (ext : dict datetime R) :
  Spec.reference_year series y -> is_leap y = false ->
  (0 <= offset)%Z -> (y + offset <= MAXYEAR)%Z ->
  extend_series series offset ext
  = Ok (fold_left (fun d h => dict_set (fst h) (snd h) d)
          (map (Spec.shifted offset) series) ext).
Proof.
  unfold Spec.reference_year, dict_keys. intros Href Hl Ho Hy. revert ext.
  induction series as [|[time v] series IH]; intros ext; simpl;
    [reflexivity|].
  inversion Href as [|? ? [Hv Hyear] Hrest]; subst.
  pose proof (valid_year_min _ Hv) as Hmin.
  rewrite replace_year_ok by (simpl; auto; lia).
  simpl. now apply IH.
Qed.

Lemma fold_dict_set_fresh (K V : Type) `{KeyEq K} (l d : dict K V) :
  NoDup (dict_keys d ++ dict_keys l) ->
  fold_left (fun d h => dict_set (fst h) (snd h) d) l d = d ++ l.
Proof.
  revert d. induction l as [|[k v] l IH]; intros d Hnd; simpl.
  - now rewrite app_nil_r.
  - assert (Hm : dict_mem k d = false).
    { apply dict_mem_false. intros Hin. simpl in Hnd.
      apply NoDup_remove_2 in Hnd. apply Hnd, in_or_app. now left. }
    assert (Hset : dict_set k v d = d ++ [(k, v)]).
    { clear - Hm. unfold dict_mem in Hm.
      induction d as [|[k' v'] d IHd]; simpl in *; [reflexivity|].
      destruct (key_eq_dec k k'); [discriminate|]. f_equal. auto. }
    rewrite Hset, IH, <- app_assoc; [reflexivity|].
    unfold dict_keys in *. rewrite map_app, <- app_assoc. exact Hnd.
Qed.

Lemma shifted_keys_year (series : dict datetime R) (y offset : Z) (t : datetime) :
  Spec.reference_year series y ->
  In t (dict_keys (map (Spec.shifted offset) series)) ->
  year t = (y + offset)%Z.
Proof.
  unfold Spec.reference_year, dict_keys. rewrite Forall_forall.
  intros Href Hin. rewrite map_map in Hin. apply in_map_iff in Hin.
  destruct Hin as [h [E Hh]]. subst t. simpl.
  destruct (Href (fst h) (in_map fst _ _ Hh)) as [_ Hy]. now rewrite Hy.
Qed.

Lemma with_year_inj (t t' : datetime) (y : Z) :
  year t = year t' -> with_year t y = with_year t' y -> t = t'.
Proof.
  destruct t, t'. unfold with_year. simpl. intros Hy E.
  inversion E. subst. reflexivity.
Qed.

Lemma shifted_keys_NoDup (series : dict datetime R) (y offset : Z) :
  Spec.reference_year series y -> NoDup (dict_keys series) ->
  NoDup (dict_keys (map (Spec.shifted offset) series)).
Proof.
  unfold Spec.reference_year, dict_keys.
  induction series as [|[time v] series IH]; intros Href Hnd; simpl;
    [constructor|].
  inversion Href as [|? ? [_ Hy] Hrest]; subst.
  inversion Hnd as [|? ? Hni Hnd']; subst.
  constructor; [|now apply IH].
  intros Hin. rewrite map_map in Hin. apply in_map_iff in Hin.
  destruct Hin as [h [E Hh]]. simpl in *.
  rewrite Forall_forall in Hrest.
  destruct (Hrest (fst h) (in_map fst _ _ Hh)) as [_ Hyh].
  rewrite Hyh in E.
  apply with_year_inj in E; [|now rewrite Hyh].
  apply Hni. rewrite <- E. now apply in_map.
Qed.

Lemma extended_offsets_NoDup (series : dict datetime R) (y : Z)
  (offsets : list Z) :
  Spec.reference_year series y -> NoDup (dict_keys series) ->
  NoDup offsets ->
  NoDup (dict_keys
           (flat_map (fun offset => map (Spec.shifted offset) series) offsets))
  /\ forall t,
      In t (dict_keys
              (flat_map (fun offset => map (Spec.shifted offset) series)
                 offsets)) ->
      exists offset, In offset offsets /\ year t = (y + offset)%Z.
Proof.
  intros Href Hnd Hoff.
  induction Hoff as [|offset offsets Hni Hoff [IHnd IHin]]; simpl.
  - split; [constructor | intros t []].
  - unfold dict_keys in *. rewrite map_app. split.
    + apply NoDup_app.
      * now apply (shifted_keys_NoDup offset Href).
      * exact IHnd.
      * intros t Ht1 Ht2.
        apply (shifted_keys_year offset t Href) in Ht1.
        destruct (IHin t Ht2) as [o [Ho Hy]].
        assert (o = offset) by lia. subst o. contradiction.
    + intros t Ht. apply in_app_or in Ht. destruct Ht as [Ht|Ht].
      * exists offset. split; [now left|].
        now apply (shifted_keys_year offset t Href).
      * destruct (IHin t Ht) as [o [Ho Hy]]. exists o. split; [now right|auto].
Qed.

Lemma NoDup_app_prefix (A : Type) (l1 l2 l3 : list A) :
  NoDup (l1 ++ l2 ++ l3) -> NoDup (l1 ++ l2).
Proof.
  intros Hnd. rewrite app_assoc in Hnd.
  now apply NoDup_app_remove_r in Hnd.
Qed.

Lemma extend_loop_ok (hp hc : dict datetime R) (yp yc : Z) (offsets : list Z)
  (ep ec : dict datetime R) :
  Spec.reference_year hp yp -> is_leap yp = false ->
  Spec.reference_year hc yc -> is_leap yc = false ->
  (forall offset, In offset offsets ->
                  (0 <= offset)%Z /\ (yp + offset <= MAXYEAR)%Z
                  /\ (yc + offset <= MAXYEAR)%Z) ->
  NoDup (dict_keys ep
         ++ dict_keys (flat_map (fun offset => map (Spec.shifted offset) hp)
                         offsets)) ->
  NoDup (dict_keys ec
         ++ dict_keys (flat_map (fun offset => map (Spec.shifted offset) hc)
                         offsets)) ->
  extend_loop offsets hp hc ep ec
  = Ok (ep ++ flat_map (fun offset => map (Spec.shifted offset) hp) offsets,
        ec ++ flat_map (fun offset => map (Spec.shifted offset) hc) offsets).
Proof.
  intros Hrp Hlp Hrc Hlc. revert ep ec.
  induction offsets as [|offset offsets IH]; intros ep ec Hrange Hep Hec;
    simpl.
  - now rewrite !app_nil_r.
  - destruct (Hrange offset (or_introl eq_refl)) as (Ho & Hyp & Hyc).
    simpl in Hep, Hec. unfold dict_keys in Hep, Hec.
    rewrite map_app in Hep, Hec.
    rewrite (extend_series_ok _ Hrp Hlp Ho Hyp).
    rewrite (extend_series_ok _ Hrc Hlc Ho Hyc). simpl.
    rewrite !fold_dict_set_fresh
      by (eapply NoDup_app_prefix; eassumption).
    rewrite IH.
    + now rewrite <- !app_assoc.
    + intros o Hin. apply Hrange. now right.
    + unfold dict_keys. rewrite map_app, <- app_assoc. exact Hep.
    + unfold dict_keys. rewrite map_app, <- app_assoc. exact Hec.
Qed.

Lemma range_In (n offset : Z) : In offset (range n) -> (0 <= offset < n)%Z.
Proof.
  unfold range. rewrite in_map_iff. intros [k [E Hk]].
  apply in_seq in Hk. lia.
Qed.

Lemma range_NoDup (n : Z) : NoDup (range n).
Proof.
  unfold range. apply Finite.Injective_map_NoDup; [|apply seq_NoDup].
  intros a b. apply Nat2Z.inj.
Qed.

Lemma range_length (n : Z) : length (range n) = Z.to_nat n.
Proof. unfold range. now rewrite length_map, length_seq. Qed.

Lemma extended_length (series : dict datetime R) (years : Z) :
  length (Spec.extended series years)
  = (Z.to_nat years * length series)%nat.
Proof.
  unfold Spec.extended. rewrite <- range_length.
  induction (range years) as [|offset offsets IH]; simpl; [reflexivity|].
  now rewrite length_app, length_map, IH.
Qed.

(** C6 (amended). For reference series whose timestamps all fall in a single
    non-leap year, and a horizon of Y >= 1 years that ends no later than year
    9999, the horizon extender returns mappings with exactly
    Y * (length of the reference series) distinct timestamps: for each offset
    0 .. Y-1 and each reference hour, the hour with only its year rewritten to
    referenceYear + offset, carrying the reference value. *)
Theorem extend_data_to_years_spec
  (hourly_production hourly_consumption : dict datetime R)
  (production_year consumption_year years : Z) :
  NoDup (dict_keys hourly_production) ->
  NoDup (dict_keys hourly_consumption) ->
  Spec.reference_year hourly_production production_year ->
  is_leap production_year = false ->
  Spec.reference_year hourly_consumption consumption_year ->
  is_leap consumption_year = false ->
  (1 <= years)%Z ->
  (production_year + years - 1 <= MAXYEAR)%Z ->
  (consumption_year + years - 1 <= MAXYEAR)%Z ->
  let extended_production := Spec.extended hourly_production years in
  let extended_consumption := Spec.extended hourly_consumption years in
  extend_data_to_years hourly_production hourly_consumption years
  = Ok (extended_production, extended_consumption) /\
  length extended_production
  = (Z.to_nat years * length hourly_production)%nat /\
  length extended_consumption
  = (Z.to_nat years * length hourly_consumption)%nat /\
  NoDup (dict_keys extended_production) /\
  NoDup (dict_keys extended_consumption).
Proof.
  intros Hndp Hndc Hrp Hlp Hrc Hlc Hy Hmp Hmc ep ec.
  destruct (extended_offsets_NoDup Hrp Hndp (range_NoDup years))
    as [Hep _].
  destruct (extended_offsets_NoDup Hrc Hndc (range_NoDup years))
    as [Hec _].
  split; [|repeat split; try apply extended_length; assumption].
  unfold extend_data_to_years.
  rewrite (extend_loop_ok (range years) [] [] Hrp Hlp Hrc Hlc);
    [reflexivity | | exact Hep | exact Hec].
  intros offset Hin. apply range_In in Hin. lia.
Qed.

Lemma sample_production_NoDup : NoDup (dict_keys sample_production).
Proof.
  unfold sample_production, dict_keys; simpl.
  repeat constructor; simpl; intuition discriminate.
Qed.

Lemma sample_production_year : Spec.reference_year sample_production 1998.
Proof. repeat constructor. Qed.

Lemma sample_consumption_year : Spec.reference_year sample_consumption 1998.
Proof. repeat constructor. Qed.

Lemma extend_data_to_years_spec_witness :
  extend_data_to_years sample_production sample_consumption 5
  = Ok (Spec.extended sample_production 5,
        Spec.extended sample_consumption 5) /\
  length (Spec.extended sample_production 5)
  = (Z.to_nat 5 * length sample_production)%nat /\
  length (Spec.extended sample_consumption 5)
  = (Z.to_nat 5 * length sample_consumption)%nat /\
  NoDup (dict_keys (Spec.extended sample_production 5)) /\
  NoDup (dict_keys (Spec.extended sample_consumption 5)).
Proof.
  apply (extend_data_to_years_spec
           sample_production_NoDup sample_consumption_NoDup
           sample_production_year (eq_refl : is_leap 1998 = false)
           sample_consumption_year (eq_refl : is_leap 1998 = false)).
  - lia.
  - unfold MAXYEAR. lia.
  - unfold MAXYEAR. lia.
Defined.

(** C6 as stated fails at the upper end of the calendar: a reference series
    in the non-leap year 9999 cannot be extended over 2 years, because
    [replace] refuses year 10000. *)
Lemma extend_data_to_years_counterexample :
  NoDup (dict_keys last_year) /\
  Spec.reference_year last_year 9999 /\
  is_leap 9999 = false /\
  (1 <= 2)%Z /\
  extend_data_to_years last_year last_year 2 = Raise ValueError.
Proof.
  split; [repeat constructor; simpl; tauto|].
  split; [repeat constructor|].
  split; [reflexivity|].
  split; [lia | reflexivity].
Qed.

(** ** FinancialEvaluator *)

Lemma ym_leb_le (a b : Z * Z) : ym_leb a b = true <-> Spec.ym_le a b.
Proof.
  unfold ym_leb, Spec.ym_le.
  rewrite orb_true_iff, andb_true_iff, Z.ltb_lt, Z.eqb_eq, Z.leb_le. tauto.
Qed.

Lemma ym_le_total (a b : Z * Z) : Spec.ym_le a b \/ Spec.ym_le b a.
Proof. unfold Spec.ym_le. lia. Qed.

Lemma ym_le_trans (a b c : Z * Z) :
  Spec.ym_le a b -> Spec.ym_le b c -> Spec.ym_le a c.
Proof. unfold Spec.ym_le. lia. Qed.

Lemma ym_le_antisym (a b : Z * Z) :
  Spec.ym_le a b -> Spec.ym_le b a -> a = b.
Proof.
  destruct a, b. unfold Spec.ym_le. simpl. intros H1 H2.
  f_equal; lia.
Qed.

Lemma insert_sorted_perm (k : Z * Z) (l : list (Z * Z)) :
  Permutation (insert_sorted k l) (k :: l).
Proof.
  induction l as [|k' l IH]; simpl; [reflexivity|].
  destruct (ym_leb k k'); [reflexivity|].
  rewrite IH. apply perm_swap.
Qed.

Lemma sorted_perm (l : list (Z * Z)) : Permutation (sorted l) l.
Proof.
  induction l as [|k l IH]; simpl; [reflexivity|].
  rewrite insert_sorted_perm. now constructor.
Qed.

Lemma insert_sorted_sorted (k : Z * Z) (l : list (Z * Z)) :
  StronglySorted Spec.ym_le l -> StronglySorted Spec.ym_le (insert_sorted k l).
Proof.
  induction 1 as [|k' l Hs IH Hall]; simpl.
  - repeat constructor.
  - destruct (ym_leb k k') eqn:Hle.
    + apply ym_leb_le in Hle. constructor; [now constructor|].
      constructor; [exact Hle|].
      eapply Forall_impl; [|exact Hall].
      intros c Hc. eapply ym_le_trans; eauto.
    + assert (Hge : Spec.ym_le k' k).
      { destruct (ym_le_total k k') as [H|H]; [|exact H].
        apply ym_leb_le in H. congruence. }
      constructor; [exact IH|].
      rewrite Forall_forall in *. intros c Hc.
      apply (Permutation_in _ (insert_sorted_perm k l)) in Hc.
      destruct Hc as [E|Hc]; [now subst | now apply Hall].
Qed.

Lemma sorted_sorted (l : list (Z * Z)) : StronglySorted Spec.ym_le (sorted l).
Proof.
  induction l as [|k l IH]; simpl; [constructor|].
  now apply insert_sorted_sorted.
Qed.

(** A list has at most one ascending arrangement. *)
Lemma sorted_unique (l1 l2 : list (Z * Z)) :
  StronglySorted Spec.ym_le l1 -> StronglySorted Spec.ym_le l2 ->
  Permutation l1 l2 -> l1 = l2.
Proof.
  intros Hs1. revert l2.
  induction Hs1 as [|a l1 Hs1 IH Ha]; intros l2 Hs2 Hp.
  - apply Permutation_nil in Hp. now subst.
  - destruct Hs2 as [|b l2 Hs2 Hb].
    + apply Permutation_sym, Permutation_nil in Hp. discriminate.
    + assert (E : a = b).
      { rewrite Forall_forall in Ha, Hb.
        assert (Hin_b : In b (a :: l1))
          by (apply (Permutation_in _ (Permutation_sym Hp)); now left).
        assert (Hin_a : In a (b :: l2))
          by (apply (Permutation_in _ Hp); now left).
        destruct Hin_b as [E|Hin_b]; [exact E|].
        destruct Hin_a as [E|Hin_a]; [now symmetry|].
        apply ym_le_antisym; auto. }
      subst b. f_equal. apply IH; [exact Hs2|].
      now apply Permutation_cons_inv in Hp.
Qed.

Lemma pow_positive_base (a b : R) : 0 < a -> Py.pow a b = Ok (Rpower a b).
Proof.
  intros Ha. unfold Py.pow.
  destruct (Req_dec_T b 0) as [E|N].
  - subst b. now rewrite Rpower_O.
  - destruct (Rlt_dec 0 a); [reflexivity | contradiction].
Qed.

Lemma Rpower_nonzero (a b : R) : Rpower a b <> 0.
Proof.
  unfold Rpower. pose proof (exp_pos (b * ln a)). lra.
Qed.

Lemma div_by_Rpower (x a b : R) : Py.div x (Rpower a b) = Ok (x / Rpower a b).
Proof.
  unfold Py.div. destruct (Req_dec_T (Rpower a b) 0) as [E|N];
    [exfalso; exact (Rpower_nonzero a b E) | reflexivity].
Qed.

Lemma IZR_month_index (k : nat) : IZR (Z.of_nat k + 1) = INR (S k).
Proof.
  replace (Z.of_nat k + 1)%Z with (Z.of_nat (S k)) by lia.
  symmetry. apply INR_IZR_INZ.
Qed.

Section Recurrence.
Variable costs : dict (Z * Z) (R * R).
Variables CapEX r : R.
Hypothesis rate : 0 < 1 + r.
Variable months : list (Z * Z).

Lemma npv_loop_spec (rest done : list (Z * Z))
  (trace : list ((Z * Z) * R)) :
  months = done ++ rest ->
  npv_loop costs (3 / 100 * CapEX) r
    (enumerate rest (Z.of_nat (length done) + 1))
    (Spec.npv_after costs CapEX r months (length done)) trace
  = Ok (Spec.npv_after costs CapEX r months (length done + length rest),
        trace
        ++ map (fun t => (Spec.month_at months t,
                          Spec.npv_after costs CapEX r months t))
             (seq (S (length done)) (length rest))).
Proof.
  revert done trace.
  induction rest as [|ym rest IH]; intros done trace Hm.
  - simpl. now rewrite Nat.add_0_r, app_nil_r.
  - cbn [enumerate npv_loop length].
    assert (Hym : Spec.month_at months (S (length done)) = ym).
    { unfold Spec.month_at. simpl. rewrite Nat.sub_0_r, Hm.
      now rewrite nth_middle. }
    destruct (dict_get_default ym (0, 0) costs) as [cw cp] eqn:Hrec.
    rewrite IZR_month_index, pow_positive_base by exact rate.
    cbn [Py.bind]. rewrite div_by_Rpower. cbn [Py.bind].
    assert (Hstep :
              Spec.npv_after costs CapEX r months (length done)
              + (cw - cp - 3 / 100 * CapEX / 12)
                / Rpower (1 + r) ((INR (S (length done)) - 1) / 12)
              = Spec.npv_after costs CapEX r months (S (length done))).
    { cbn [Spec.npv_after]. unfold Spec.npv_term, Spec.record_of.
      rewrite Hym. unfold dict_get_default in Hrec. rewrite Hrec.
      reflexivity. }
    rewrite Hstep.
    specialize (IH (done ++ [ym])
                  (trace ++ [(ym, Spec.npv_after costs CapEX r months
                                    (S (length done)))])).
    rewrite length_app in IH. cbn [length] in IH.
    replace (length done + 1)%nat with (S (length done)) in IH by lia.
    replace (Z.of_nat (S (length done)) + 1)%Z
      with (Z.of_nat (length done) + 1 + 1)%Z in IH by lia.
    rewrite IH by (rewrite <- app_assoc; exact Hm).
    rewrite <- app_assoc. cbn [seq map app]. rewrite Hym.
    replace (S (length done) + length rest)%nat
      with (length done + S (length rest))%nat by lia.
    reflexivity.
Qed.

End Recurrence.

Lemma first_term_undiscounted (costs : dict (Z * Z) (R * R)) (CapEX r : R)
  (months : list (Z * Z)) :
  Spec.npv_term costs CapEX r months 1
  = fst (Spec.record_of costs (Spec.month_at months 1))
    - snd (Spec.record_of costs (Spec.month_at months 1))
    - 3 / 100 * CapEX / 12.
Proof.
  unfold Spec.npv_term. cbn [INR].
  replace ((1 - 1) / 12) with 0 by lra.
  unfold Rpower. rewrite Rmult_0_l, exp_0. lra.
Qed.

(** C3. With the months taken in ascending (year, month) order and indexed
    t = 1, 2, ..., [calculate_npv] starts from npv = -CapEx and adds, month
    after month, (costWithoutPV_t - costWithPV_t - 0.03 CapEx / 12)
    / (1+r)^((t-1)/12); the first month's term is undiscounted; the function
    returns the final npv together with the running per-month trace.  The
    discount rate is above -100 %, where the power is a positive real. *)
Theorem calculate_npv_recurrence (monthly_costs : dict (Z * Z) (R * R))
  (CapEX r : R) (Y : Z) :
  0 < 1 + r ->
  let months := sorted (dict_keys monthly_costs) in
  let npv := Spec.npv_after monthly_costs CapEX r months in
  StronglySorted Spec.ym_le months /\
  Permutation months (dict_keys monthly_costs) /\
  calculate_npv monthly_costs CapEX r Y
  = Ok (npv (length months),
        map (fun t => (Spec.month_at months t, npv t))
          (seq 1 (length months))) /\
  npv 0%nat = - CapEX /\
  (forall t,
      npv (S t)
      = npv t
        + (fst (Spec.record_of monthly_costs (Spec.month_at months (S t)))
           - snd (Spec.record_of monthly_costs (Spec.month_at months (S t)))
           - 3 / 100 * CapEX / 12)
          / Rpower (1 + r) ((INR (S t) - 1) / 12)) /\
  npv 1%nat
  = - CapEX
    + (fst (Spec.record_of monthly_costs (Spec.month_at months 1))
       - snd (Spec.record_of monthly_costs (Spec.month_at months 1))
       - 3 / 100 * CapEX / 12).
Proof.
  intros Hr months npv.
  split; [apply sorted_sorted|].
  split; [apply sorted_perm|].
  split.
  - unfold calculate_npv. fold months.
    pose proof (@npv_loop_spec monthly_costs CapEX r Hr months months [] []
                  eq_refl) as Hloop.
    cbn [length Z.of_nat Z.add app Nat.add] in Hloop.
    exact Hloop.
  - split; [reflexivity|]. split; [reflexivity|].
    unfold npv. cbn [Spec.npv_after].
    now rewrite first_term_undiscounted.
Qed.

Lemma calculate_npv_recurrence_witness :
  0 < 1 + 5 / 100 /\
  calculate_npv sample_costs 1000 (5 / 100) 5
  = Ok (Spec.npv_after sample_costs 1000 (5 / 100)
          (sorted (dict_keys sample_costs))
          (length (sorted (dict_keys sample_costs))),
        map (fun t =>
               (Spec.month_at (sorted (dict_keys sample_costs)) t,
                Spec.npv_after sample_costs 1000 (5 / 100)
                  (sorted (dict_keys sample_costs)) t))
          (seq 1 (length (sorted (dict_keys sample_costs))))).
Proof.
  assert (Hr : 0 < 1 + 5 / 100) by lra.
  split; [exact Hr|].
  exact (proj1 (proj2 (proj2
    (calculate_npv_recurrence sample_costs 1000 5 Hr)))).
Defined.

Lemma npv_loop_same_mapping (mc1 mc2 : dict (Z * Z) (R * R)) (OpEX r : R)
  (months : list (Z * (Z * Z))) (npv : R) (trace : list ((Z * Z) * R)) :
  Spec.same_mapping mc1 mc2 ->
  npv_loop mc1 OpEX r months npv trace = npv_loop mc2 OpEX r months npv trace.
Proof.
  intros Hsame. revert npv trace.
  induction months as [|[t ym] months IH]; intros npv trace; simpl;
    [reflexivity|].
  unfold dict_get_default. rewrite (Hsame ym).
  destruct (match dict_get ym mc2 with Some v => v | None => (0, 0) end)
    as [cw cp].
  destruct (Py.pow (1 + r) ((IZR t - 1) / 12)) as [discount|e]; simpl;
    [|reflexivity].
  destruct (Py.div (cw - cp - OpEX / 12) discount) as [term|e]; simpl;
    [apply IH | reflexivity].
Qed.

Lemma same_mapping_keys (mc1 mc2 : dict (Z * Z) (R * R)) :
  NoDup (dict_keys mc1) -> NoDup (dict_keys mc2) ->
  Spec.same_mapping mc1 mc2 ->
  Permutation (dict_keys mc1) (dict_keys mc2).
Proof.
  intros Hn1 Hn2 Hsame. apply NoDup_Permutation; [exact Hn1 | exact Hn2|].
  intros k. rewrite <- !dict_mem_In. unfold dict_mem. now rewrite (Hsame k).
Qed.

(** C9. The financial evaluator is deterministic: two calls on identical
    monthly cost mappings (the same keys with the same records, in whatever
    insertion order) with the same capital expenditure, discount rate and
    horizon give the same NPV and the same per-month trace. *)
Theorem calculate_npv_deterministic
  (monthly_costs monthly_costs' : dict (Z * Z) (R * R)) (CapEX r : R) (Y : Z) :
  NoDup (dict_keys monthly_costs) ->
  NoDup (dict_keys monthly_costs') ->
  Spec.same_mapping monthly_costs monthly_costs' ->
  calculate_npv monthly_costs CapEX r Y
  = calculate_npv monthly_costs' CapEX r Y.
Proof.
  intros Hn1 Hn2 Hsame. unfold calculate_npv.
  assert (Hkeys : sorted (dict_keys monthly_costs)
                  = sorted (dict_keys monthly_costs')).
  { apply sorted_unique; try apply sorted_sorted.
    rewrite !sorted_perm. now apply same_mapping_keys. }
  rewrite Hkeys. now apply npv_loop_same_mapping.
Qed.

Lemma sample_costs_same_mapping :
  Spec.same_mapping sample_costs sample_costs_reordered.
Proof.
  intros k. unfold sample_costs, sample_costs_reordered. simpl.
  destruct (key_eq_dec k (1998, 3)%Z) as [E3|N3];
    destruct (key_eq_dec k (1998, 2)%Z) as [E2|N2]; try reflexivity.
  rewrite E3 in E2. discriminate E2.
Qed.

Lemma calculate_npv_deterministic_witness :
  NoDup (dict_keys sample_costs) /\
  NoDup (dict_keys sample_costs_reordered) /\
  Spec.same_mapping sample_costs sample_costs_reordered /\
  calculate_npv sample_costs 1000 (5 / 100) 5
  = calculate_npv sample_costs_reordered 1000 (5 / 100) 5.
Proof.
  assert (Hn1 : NoDup (dict_keys sample_costs))
    by (repeat constructor; simpl; intuition discriminate).
  assert (Hn2 : NoDup (dict_keys sample_costs_reordered))
    by (repeat constructor; simpl; intuition discriminate).
  split; [exact Hn1|]. split; [exact Hn2|].
  split; [exact sample_costs_same_mapping|].
  exact (calculate_npv_deterministic 1000 (5 / 100) 5 Hn1 Hn2
           sample_costs_same_mapping).
Defined.

(** ** ObjectiveFunction *)

Lemma int_of_IZR (z : Z) : Py.int (IZR z) = z.
Proof.
  unfold Py.int. destruct (Rle_dec 0 (IZR z)).
  - symmetry. apply Int_part_spec. lra.
  - rewrite <- opp_IZR. rewrite <- (Int_part_spec (IZR (- z)) (- z)); [lia|].
    lra.
Qed.

(** [int] truncates toward zero. *)
Lemma int_truncates (x : R) :
  (0 <= x -> IZR (Py.int x) <= x < IZR (Py.int x) + 1) /\
  (x < 0 -> x <= IZR (Py.int x) < x + 1).
Proof.
  unfold Py.int. destruct (Rle_dec 0 x) as [Hx|Hx]; split; intros H;
    try lra.
  - destruct (base_Int_part x). lra.
  - rewrite opp_IZR. destruct (base_Int_part (- x)). lra.
Qed.

Lemma calculate_npv_returns (monthly_costs : dict (Z * Z) (R * R))
  (CapEX : R) :
  exists npv trace, calculate_npv monthly_costs CapEX r Y = Ok (npv, trace).
Proof.
  assert (Hr : 0 < 1 + r) by (unfold r; lra).
  pose proof (@npv_loop_spec monthly_costs CapEX r Hr
                (sorted (dict_keys monthly_costs))
                (sorted (dict_keys monthly_costs)) [] [] eq_refl) as Hloop.
  cbn [length Z.of_nat Z.add app Nat.add] in Hloop.
  unfold calculate_npv. eauto.
Qed.

Section SingleHourStore.
Variable fromtimestamp : Z -> datetime.
Variable v : R.

Let w : R := 0 + Py.sum [v; v; v; v; v; v].

Lemma single_hour_consumption :
  aggregate_hourly_consumption
    (consumers_data utc_of_epoch (single_hour_store v))
  = [ (at_hour 1998 2 5 21, w) ].
Proof. reflexivity. Qed.

Lemma single_hour_production (a b c : Z) :
  hourly_production_of fromtimestamp (single_hour_store v) a b c = [].
Proof. reflexivity. Qed.

Lemma single_hour_extended :
  extend_data_to_years [] [ (at_hour 1998 2 5 21, w) ] Y
  = Ok ([], single_hour_horizon w).
Proof. reflexivity. Qed.

Lemma single_hour_self_sufficiency :
  whole_self_sufficiency [] (single_hour_horizon w)
  = Py.div (Py.sum [Py.min w 0; Py.min w 0; Py.min w 0; Py.min w 0;
                    Py.min w 0])
      (Py.sum [w; w; w; w; w]).
Proof. reflexivity. Qed.

Lemma single_hour_evaluation (a b c : Z) :
  npv_and_self_sufficiency utc_of_epoch fromtimestamp (single_hour_store v)
    a b c
  = (npv_trace <- calculate_npv
                    (calculate_monthly_costs [] (single_hour_horizon w)
                       c_grid c_DAM) (CapEX_of a b c) r Y ;;
     self_sufficiency <- whole_self_sufficiency [] (single_hour_horizon w) ;;
     Ok (fst npv_trace, self_sufficiency)).
Proof.
  unfold npv_and_self_sufficiency.
  rewrite single_hour_consumption, single_hour_production,
    single_hour_extended.
  reflexivity.
Qed.

End SingleHourStore.


Lemma idle_house_evaluation (fromtimestamp : Z -> datetime) (a b c : Z) :
  npv_and_self_sufficiency utc_of_epoch fromtimestamp idle_house a b c
  = Raise ZeroDivisionError.
Proof.
  unfold idle_house. rewrite single_hour_evaluation.
  destruct (calculate_npv_returns
              (calculate_monthly_costs []
                 (single_hour_horizon (0 + Py.sum [0; 0; 0; 0; 0; 0]))
                 c_grid c_DAM) (CapEX_of a b c)) as [npv [trace Hnpv]].
  rewrite Hnpv. cbn [Py.bind fst].
  rewrite single_hour_self_sufficiency.
  unfold Py.div, Py.sum. simpl.
  destruct (Req_dec_T _ 0) as [_|N]; [reflexivity | exfalso; apply N; lra].
Qed.

(** The objective function hands the doubles of the computed NPV and
    self-sufficiency to the constraint block. *)
Lemma npv_function_applies_policy {binary64 : Binary64}
  (utcfromtimestamp fromtimestamp : Z -> datetime) (db : Database)
  (min_self_sufficiency : float) (max_panels : Z)
  (x0 x1 x2 npv self_sufficiency : R) :
  npv_and_self_sufficiency utcfromtimestamp fromtimestamp db
    (Py.int x0) (Py.int x1) (Py.int x2)
  = Ok (npv, self_sufficiency) ->
  npv_function utcfromtimestamp fromtimestamp db min_self_sufficiency
    max_panels (x0, x1, x2)
  = Ok (penalty_policy min_self_sufficiency max_panels
          (Py.int x0 + Py.int x1 + Py.int x2)
          (double_of npv) (double_of self_sufficiency)).
Proof.
  intros Heval. unfold npv_function. rewrite Heval. reflexivity.
Qed.




Section UnguardedDivisions.
Context {binary64 : Binary64}.

(** C2, at its failing inputs.  The daily ratios are guarded, but the
    whole-horizon self-sufficiency of the objective function and the two
    aggregate means divide without a guard: a house whose recorded
    consumption is 0 makes [npv_function] raise ZeroDivisionError, and so does
    an empty daily mapping in the aggregate means. *)
Theorem unguarded_divisions :
  (forall min_self_sufficiency max_panels,
      npv_function utc_of_epoch utc_of_epoch idle_house
        min_self_sufficiency max_panels (0, 0, 0)
      = Raise ZeroDivisionError) /\
  calculate_total_self_consumption [] = Raise ZeroDivisionError /\
  calculate_total_self_sufficiency [] = Raise ZeroDivisionError.
Proof.
  split.
  - intros min_ss max_panels. unfold npv_function.
    now rewrite idle_house_evaluation.
  - unfold calculate_total_self_consumption,
      calculate_total_self_sufficiency, Py.div. simpl.
    destruct (Req_dec_T 0 0) as [_|N]; [split; reflexivity | congruence].
Qed.

End UnguardedDivisions.

(** The guard of the daily ratios: a zero denominator gives 0. *)
Lemma daily_ratios_guarded (prod_values cons_values : list R) :
  (Py.sum prod_values = 0 -> self_consumption_day prod_values cons_values = 0)
  /\ (Py.sum cons_values = 0
      -> self_sufficiency_day prod_values cons_values = 0).
Proof.
  unfold self_consumption_day, self_sufficiency_day.
  split; intros Hz; rewrite Hz;
    destruct (Req_dec_T 0 0); congruence.
Qed.

(* ================================================================== *)
(** * Further properties of the engine *)
(* ================================================================== *)

(** ** Whole-horizon self-sufficiency *)

Lemma sum_pointwise_le (X : Type) (f g : X -> R) (l : list X) :
  (forall x, In x l -> f x <= g x) ->
  Py.sum (map f l) <= Py.sum (map g l).
Proof.
  induction l as [|x l IH]; intros Hfg; simpl.
  - rewrite sum_nil. lra.
  - rewrite !sum_cons.
    assert (f x <= g x) by (apply Hfg; now left).
    assert (Py.sum (map f l) <= Py.sum (map g l))
      by (apply IH; intros y Hy; apply Hfg; now right).
    lra.
Qed.

Lemma dict_get_default_nonneg (K : Type) `{KeyEq K} (d : dict K R) (k : K) :
  Forall (fun v => 0 <= v) (dict_values d) -> 0 <= dict_get_default k 0 d.
Proof.
  intros Hall. unfold dict_get_default.
  destruct (dict_get k d) as [v|] eqn:Hg; [|lra].
  apply dict_get_In in Hg. rewrite Forall_forall in Hall.
  apply Hall. unfold dict_values. change v with (snd (k, v)).
  now apply in_map.
Qed.

Lemma sum_zeros (X : Type) (l : list X) : Py.sum (map (fun _ => 0) l) = 0.
Proof.
  induction l as [|x l IH]; simpl; [apply sum_nil|].
  rewrite sum_cons, IH. lra.
Qed.

Lemma filter_all (A : Type) (l : list A) : filter (fun _ => true) l = l.
Proof.
  induction l as [|a l IH]; simpl; [reflexivity|]. now rewrite IH.
Qed.

Lemma values_by_lookup (hc : dict datetime R) :
  NoDup (dict_keys hc) ->
  map (fun time => dict_get_default time 0 hc) (dict_keys hc) = dict_values hc.
Proof.
  intros Hnd.
  pose proof (lookup_values_of_keys hc (fun _ => true) Hnd) as H.
  rewrite !filter_all in H. exact H.
Qed.

(** X2. The whole-horizon self-sufficiency of the objective function raises
    ZeroDivisionError exactly when the consumption values sum to 0; for
    non-negative series with a non-zero total it returns a ratio in [0, 1],
    which is 0 when there is no production at all. *)
Theorem whole_self_sufficiency_range
  (hourly_production hourly_consumption : dict datetime R) :
  NoDup (dict_keys hourly_consumption) ->
  Forall (fun v => 0 <= v) (dict_values hourly_production) ->
  Forall (fun v => 0 <= v) (dict_values hourly_consumption) ->
  (Py.sum (dict_values hourly_consumption) = 0 <->
   whole_self_sufficiency hourly_production hourly_consumption
   = Raise ZeroDivisionError) /\
  (Py.sum (dict_values hourly_consumption) <> 0 ->
   exists s,
     whole_self_sufficiency hourly_production hourly_consumption = Ok s /\
     0 <= s <= 1 /\
     (hourly_production = [] -> s = 0)).
Proof.
  intros Hnd Hp Hc. unfold whole_self_sufficiency, Py.div.
  set (total := Py.sum (dict_values hourly_consumption)).
  set (covered :=
         Py.sum
           (map (fun time =>
                   Py.min (dict_get_default time 0 hourly_consumption)
                          (dict_get_default time 0 hourly_production))
              (dict_keys hourly_consumption))).
  assert (Htotal : 0 <= total) by (apply sum_nonneg; exact Hc).
  assert (Hlow : 0 <= covered).
  { unfold covered. apply sum_nonneg, Forall_forall. intros x Hx.
    apply in_map_iff in Hx. destruct Hx as [time [E _]]. subst x.
    rewrite min_Rmin. apply Rmin_glb; now apply dict_get_default_nonneg. }
  assert (Hhigh : covered <= total).
  { unfold covered, total. rewrite <- (values_by_lookup _ Hnd).
    apply sum_pointwise_le. intros time _. rewrite min_Rmin.
    apply Rmin_l. }
  split.
  - destruct (Req_dec_T total 0); split; congruence.
  - intros Hnz. destruct (Req_dec_T total 0) as [E|_]; [contradiction|].
    exists (covered / total). split; [reflexivity|].
    assert (Hpos : 0 < total) by lra.
    split; [split|].
    + apply Rmult_le_pos; [exact Hlow | left; now apply Rinv_0_lt_compat].
    + apply (Rmult_le_reg_r total); [exact Hpos|].
      unfold Rdiv. rewrite Rmult_assoc, Rinv_l by lra. lra.
    + intros Hempty.
      assert (Hzero : covered = 0).
      { unfold covered. rewrite Hempty.
        rewrite (map_ext_in _ (fun _ : datetime => 0)).
        - apply sum_zeros.
        - intros time _. unfold dict_get_default at 2. simpl.
          pose proof (dict_get_default_nonneg hourly_consumption time Hc).
          unfold Py.min.
          destruct (Rlt_dec 0 (dict_get_default time 0 hourly_consumption));
            lra. }
      rewrite Hzero. unfold Rdiv. apply Rmult_0_l.
Qed.

Lemma whole_self_sufficiency_range_witness :
  NoDup (dict_keys sample_consumption) /\
  Forall (fun v => 0 <= v) (dict_values sample_production) /\
  Forall (fun v => 0 <= v) (dict_values sample_consumption) /\
  Py.sum (dict_values sample_consumption) <> 0 /\
  exists s,
    whole_self_sufficiency sample_production sample_consumption = Ok s /\
    0 <= s <= 1 /\ (sample_production = [] -> s = 0).
Proof.
  assert (Hp : Forall (fun v => 0 <= v) (dict_values sample_production))
    by (repeat constructor; simpl; lra).
  assert (Hc : Forall (fun v => 0 <= v) (dict_values sample_consumption))
    by (repeat constructor; simpl; lra).
  assert (Hnz : Py.sum (dict_values sample_consumption) <> 0)
    by (unfold Py.sum; simpl; lra).
  split; [exact sample_consumption_NoDup|]. split; [exact Hp|].
  split; [exact Hc|]. split; [exact Hnz|].
  exact (proj2 (whole_self_sufficiency_range sample_production
                  sample_consumption sample_consumption_NoDup Hp Hc) Hnz).
Defined.

(** ** The NPV trace *)

Lemma sorted_length (l : list (Z * Z)) : length (sorted l) = length l.
Proof. apply Permutation_length, sorted_perm. Qed.

(** X4. A discount rate of -100 % breaks the evaluator from the second month
    on: the second discount factor is 0 ** (1/12) = 0, so with two or more
    months [calculate_npv] raises ZeroDivisionError. *)
Theorem calculate_npv_rate_minus_one (monthly_costs : dict (Z * Z) (R * R))
  (CapEX : R) (Y : Z) :
  (2 <= length monthly_costs)%nat ->
  calculate_npv monthly_costs CapEX (-1) Y = Raise ZeroDivisionError.
Proof.
  intros Hlen. unfold calculate_npv.
  pose proof (sorted_length (dict_keys monthly_costs)) as Hs.
  unfold dict_keys in Hs at 2. rewrite length_map in Hs.
  destruct (sorted (dict_keys monthly_costs)) as [|m1 [|m2 months]];
    simpl in Hs; try lia.
  cbn [enumerate npv_loop].
  destruct (dict_get_default m1 (0, 0) monthly_costs) as [cw1 cp1].
  destruct (dict_get_default m2 (0, 0) monthly_costs) as [cw2 cp2].
  assert (Hfirst : Py.pow (1 + -1) ((IZR 1 - 1) / 12) = Ok 1).
  { unfold Py.pow. destruct (Req_dec_T ((1 - 1) / 12) 0) as [_|N];
      [reflexivity | exfalso; apply N; lra]. }
  assert (Hsecond : Py.pow (1 + -1) ((IZR (1 + 1) - 1) / 12) = Ok 0).
  { unfold Py.pow. simpl.
    destruct (Req_dec_T ((2 - 1) / 12) 0) as [E|_]; [lra|].
    destruct (Rlt_dec 0 (1 + -1)) as [L|_]; [lra|].
    destruct (Req_dec_T (1 + -1) 0) as [_|N]; [|exfalso; apply N; lra].
    destruct (Rlt_dec 0 ((2 - 1) / 12)) as [_|N];
      [reflexivity | exfalso; apply N; lra]. }
  rewrite Hfirst. cbn [Py.bind]. unfold Py.div at 1.
  destruct (Req_dec_T 1 0) as [E|_]; [lra|]. cbn [Py.bind].
  rewrite Hsecond. cbn [Py.bind]. unfold Py.div.
  destruct (Req_dec_T 0 0) as [_|N]; [reflexivity | congruence].
Qed.

Lemma calculate_npv_rate_minus_one_witness :
  (2 <= length sample_costs)%nat /\
  calculate_npv sample_costs 1000 (-1) 5 = Raise ZeroDivisionError.
Proof.
  assert (H : (2 <= length sample_costs)%nat) by (simpl; lia).
  split; [exact H|].
  exact (@calculate_npv_rate_minus_one sample_costs 1000 5 H).
Defined.

Section TraceOrder.
Variable costs : dict (Z * Z) (R * R).
Variables CapEX r : R.
Hypothesis rate : 0 < 1 + r.
Hypothesis covered :
  forall ym cw cp, dict_get ym costs = Some (cw, cp) ->
                   3 / 100 * CapEX / 12 <= cw - cp.

Let months := sorted (dict_keys costs).

Lemma month_at_is_key (t : nat) :
  (t < length months)%nat -> In (Spec.month_at months (S t)) (dict_keys costs).
Proof.
  intros Ht. apply (Permutation_in _ (sorted_perm (dict_keys costs))).
  unfold Spec.month_at. simpl. rewrite Nat.sub_0_r. now apply nth_In.
Qed.

Lemma npv_term_nonneg (t : nat) :
  (t < length months)%nat -> 0 <= Spec.npv_term costs CapEX r months (S t).
Proof.
  intros Ht. unfold Spec.npv_term.
  pose proof (month_at_is_key Ht) as Hin.
  apply dict_mem_In in Hin. unfold dict_mem in Hin.
  unfold Spec.record_of.
  destruct (dict_get (Spec.month_at months (S t)) costs) as [[cw cp]|] eqn:Hg;
    [|discriminate].
  pose proof (covered _ Hg) as Hc. cbn [fst snd].
  apply Rmult_le_pos; [lra|].
  left. apply Rinv_0_lt_compat. unfold Rpower. apply exp_pos.
Qed.

Lemma npv_after_nondecreasing (a b : nat) :
  (a <= b)%nat -> (b <= length months)%nat ->
  Spec.npv_after costs CapEX r months a
  <= Spec.npv_after costs CapEX r months b.
Proof.
  induction 1 as [|b Hab IH]; intros Hb; [lra|].
  cbn [Spec.npv_after].
  assert (0 <= Spec.npv_term costs CapEX r months (S b))
    by (apply npv_term_nonneg; lia).
  assert (Spec.npv_after costs CapEX r months a
          <= Spec.npv_after costs CapEX r months b) by (apply IH; lia).
  lra.
Qed.

Lemma calculate_npv_closed_form (Y : Z) :
  calculate_npv costs CapEX r Y
  = Ok (Spec.npv_after costs CapEX r months (length months),
        map (fun t => (Spec.month_at months t,
                       Spec.npv_after costs CapEX r months t))
          (seq 1 (length months))).
Proof.
  pose proof (@npv_loop_spec costs CapEX r rate months months [] [] eq_refl)
    as Hloop.
  cbn [length Z.of_nat Z.add app Nat.add] in Hloop. exact Hloop.
Qed.

End TraceOrder.

(** X5. For a discount rate above -100 %, when every month's saving
    (cost without panels minus cost with panels) covers the monthly operating
    expenditure 0.03 CapEx / 12, [calculate_npv] returns a trace with one
    entry per month, in ascending month order, whose values start at or above
    -CapEx, never decrease, and end at the returned NPV. *)
Theorem calculate_npv_trace_nondecreasing
  (monthly_costs : dict (Z * Z) (R * R)) (CapEX r : R) (Y : Z) :
  0 < 1 + r ->
  (forall ym cw cp, dict_get ym monthly_costs = Some (cw, cp) ->
                    3 / 100 * CapEX / 12 <= cw - cp) ->
  exists npv trace,
    calculate_npv monthly_costs CapEX r Y = Ok (npv, trace) /\
    map fst trace = sorted (dict_keys monthly_costs) /\
    length trace = length monthly_costs /\
    StronglySorted Rle (map snd trace) /\
    Forall (fun v => - CapEX <= v <= npv) (map snd trace) /\
    last (map snd trace) (- CapEX) = npv.
Proof.
  intros Hr Hcov.
  set (months := sorted (dict_keys monthly_costs)).
  set (npv_at := Spec.npv_after monthly_costs CapEX r months).
  exists (npv_at (length months)),
    (map (fun t => (Spec.month_at months t, npv_at t))
       (seq 1 (length months))).
  split; [apply calculate_npv_closed_form; exact Hr|].
  assert (Hmono : forall a b, (a <= b)%nat -> (b <= length months)%nat ->
                              npv_at a <= npv_at b)
    by (intros a b; apply npv_after_nondecreasing; assumption).
  rewrite !map_map. cbn [fst snd].
  split.
  { unfold Spec.month_at.
    clear. generalize months. intros l.
    assert (H : forall k, map (fun t => nth (t - 1) l (0%Z, 0%Z))
                            (seq (S k) (length l - k))
                          = skipn k l).
    { intros k. remember (length l - k)%nat as n eqn:Hn.
      revert k Hn. induction n as [|n IH]; intros k Hn.
      - simpl. symmetry. apply skipn_all2. lia.
      - simpl. rewrite Nat.sub_0_r. rewrite IH by lia.
        assert (Hk : (k < length l)%nat) by lia.
        clear - Hk. revert k Hk.
        induction l as [|a l IHl]; intros k Hk; simpl in *; [lia|].
        destruct k as [|k]; [reflexivity|]. simpl. apply IHl. lia. }
    specialize (H 0%nat). rewrite Nat.sub_0_r in H. exact H. }
  split.
  { rewrite length_map, length_seq. unfold months.
    rewrite sorted_length. unfold dict_keys. apply length_map. }
  assert (Hseq : forall n k, (k + n <= length months)%nat ->
            StronglySorted Rle (map npv_at (seq (S k) n)) /\
            Forall (fun v => npv_at k <= v <= npv_at (k + n)%nat)
              (map npv_at (seq (S k) n))).
  { induction n as [|n IH]; intros k Hk.
    - simpl. repeat constructor.
    - destruct (IH (S k) ltac:(lia)) as (Hs & Hf).
      replace (S k + n)%nat with (k + S n)%nat in * by lia.
      cbn [seq map]. split.
      + constructor; [exact Hs|].
        eapply Forall_impl; [|exact Hf]. intros v Hv. cbn beta in Hv. lra.
      + constructor.
        * split; apply Hmono; lia.
        * eapply Forall_impl; [|exact Hf]. intros v Hv. cbn beta in Hv.
          assert (npv_at k <= npv_at (S k)) by (apply Hmono; lia). lra. }
  destruct (Hseq (length months) 0%nat ltac:(lia)) as (Hs & Hf).
  cbn [Nat.add] in *.
  split; [exact Hs|]. split; [exact Hf|].
  destruct (length months) as [|n]; [reflexivity|].
  rewrite seq_S, map_app. cbn [map]. apply last_last.
Qed.

Lemma calculate_npv_trace_nondecreasing_witness :
  0 < 1 + 5 / 100 /\
  exists npv trace,
    calculate_npv sample_costs 1000 (5 / 100) 5 = Ok (npv, trace) /\
    map fst trace = sorted (dict_keys sample_costs) /\
    length trace = length sample_costs /\
    StronglySorted Rle (map snd trace) /\
    Forall (fun v => - 1000 <= v <= npv) (map snd trace) /\
    last (map snd trace) (- 1000) = npv.
Proof.
  assert (Hr : 0 < 1 + 5 / 100) by lra.
  assert (Hcov : forall ym cw cp,
             dict_get ym sample_costs = Some (cw, cp) ->
             3 / 100 * 1000 / 12 <= cw - cp).
  { intros ym cw cp. unfold sample_costs. simpl.
    destruct (key_eq_dec ym (1998, 3)%Z);
      [intros E; inversion E; lra|].
    destruct (key_eq_dec ym (1998, 2)%Z);
      [intros E; inversion E; lra | discriminate]. }
  split; [exact Hr|].
  exact (@calculate_npv_trace_nondecreasing sample_costs 1000 (5 / 100) 5
           Hr Hcov).
Defined.

(** ** The horizon extender at the edges of the calendar *)

Lemma extend_series_outcome (series : dict datetime R) (offset : Z)
  (ext : dict datetime R) :
  match extend_series series offset ext with
  | Ok _ => forall t, In t (dict_keys series) ->
                      check_date_fields (year t + offset) (month t) (day t)
                      = true
  | Raise e => e = ValueError
  end.
Proof.
  revert ext. induction series as [|[time v] series IH]; intros ext; simpl.
  - intros t [].
  - unfold replace_year.
    destruct (check_date_fields (year time + offset) (month time) (day time))
      eqn:Hc; cbn [Py.bind]; [|reflexivity].
    specialize (IH (dict_set (with_year time (year time + offset)) v ext)).
    destruct (extend_series series offset _); [|exact IH].
    intros t [E|Hin]; [now subst | now apply IH].
Qed.

Lemma extend_loop_outcome (offsets : list Z) (hp hc ep ec : dict datetime R) :
  match extend_loop offsets hp hc ep ec with
  | Ok _ => forall offset t,
      In offset offsets -> In t (dict_keys hp) \/ In t (dict_keys hc) ->
      check_date_fields (year t + offset) (month t) (day t) = true
  | Raise e => e = ValueError
  end.
Proof.
  revert ep ec. induction offsets as [|offset offsets IH]; intros ep ec;
    cbn [extend_loop].
  - intros offset t [].
  - pose proof (extend_series_outcome hp offset ep) as Hp.
    destruct (extend_series hp offset ep) as [ep'|e]; cbn [Py.bind];
      [|exact Hp].
    pose proof (extend_series_outcome hc offset ec) as Hc.
    destruct (extend_series hc offset ec) as [ec'|e]; cbn [Py.bind];
      [|exact Hc].
    specialize (IH ep' ec').
    destruct (extend_loop offsets hp hc ep' ec'); [|exact IH].
    intros o t [E|Hin] Ht.
    + subst o. destruct Ht; auto.
    + now apply IH.
Qed.

Lemma leap_day_next_year (t : datetime) :
  valid_datetime t = true -> month t = 2%Z -> day t = 29%Z ->
  check_date_fields (year t + 1) (month t) (day t) = false.
Proof.
  unfold valid_datetime, check_date_fields. intros Hv Hm Hd.
  rewrite Hm, Hd in *.
  apply andb_true_iff in Hv. destruct Hv as [Hv _].
  apply andb_true_iff in Hv. destruct Hv as [_ Hdays].
  apply Z.leb_le in Hdays. unfold days_in_month in *. simpl in *.
  destruct (is_leap (year t)) eqn:Hl; [|lia].
  assert (Hn : is_leap (year t + 1) = false).
  { unfold is_leap in *. apply andb_true_iff in Hl. destruct Hl as [H4 _].
    apply Z.eqb_eq in H4. apply andb_false_iff. left. apply Z.eqb_neq.
    intros H4'.
    pose proof (Z.mod_pos_bound (year t) 4 ltac:(lia)).
    rewrite Z.add_mod, H4 in H4' by lia. simpl in H4'. discriminate. }
  rewrite Hn. apply andb_false_iff. right. apply Z.leb_gt. lia.
Qed.

(** X6. A reference series that holds an hour of a 29 February cannot be
    extended over two or more years: rewriting the year to the next one is
    refused, and [extend_data_to_years] raises ValueError (it neither drops
    nor remaps the leap-day hours). *)
Theorem extend_leap_day_raises
  (hourly_production hourly_consumption : dict datetime R) (years : Z)
  (t : datetime) :
  In t (dict_keys hourly_production) \/ In t (dict_keys hourly_consumption) ->
  valid_datetime t = true -> month t = 2%Z -> day t = 29%Z ->
  (2 <= years)%Z ->
  extend_data_to_years hourly_production hourly_consumption years
  = Raise ValueError.
Proof.
  intros Hin Hv Hm Hd Hy. unfold extend_data_to_years.
  pose proof (extend_loop_outcome (range years) hourly_production
                hourly_consumption [] []) as Hout.
  destruct (extend_loop (range years) hourly_production hourly_consumption
              [] []) as [res|e]; [|now subst].
  exfalso.
  assert (H1 : In 1%Z (range years)).
  { unfold range. apply in_map_iff. exists 1%nat. split; [reflexivity|].
    apply in_seq. lia. }
  specialize (Hout 1%Z t H1 Hin).
  rewrite (leap_day_next_year t Hv Hm Hd) in Hout. discriminate.
Qed.

Lemma extend_leap_day_raises_witness :
  In (at_hour 1996 2 29 12)
     (dict_keys [(at_hour 1996 2 29 12, 1)]) /\
  valid_datetime (at_hour 1996 2 29 12) = true /\
  (2 <= 5)%Z /\
  extend_data_to_years [(at_hour 1996 2 29 12, 1)] [] 5 = Raise ValueError.
Proof.
  assert (Hin : In (at_hour 1996 2 29 12)
                   (dict_keys [(at_hour 1996 2 29 12, 1)]))
    by (simpl; auto).
  assert (Hv : valid_datetime (at_hour 1996 2 29 12) = true) by reflexivity.
  assert (Hy : (2 <= 5)%Z) by lia.
  split; [exact Hin|]. split; [exact Hv|]. split; [exact Hy|].
  exact (@extend_leap_day_raises [(at_hour 1996 2 29 12, 1)] [] 5
           (at_hour 1996 2 29 12) (or_introl Hin) Hv eq_refl eq_refl Hy).
Defined.

Lemma with_same_year (t : datetime) : with_year t (year t + 0) = t.
Proof.
  destruct t. unfold with_year. simpl. f_equal. lia.
Qed.

Lemma extend_series_same_year (series ext : dict datetime R) :
  Forall (fun t => valid_datetime t = true) (dict_keys series) ->
  NoDup (dict_keys ext ++ dict_keys series) ->
  extend_series series 0 ext = Ok (ext ++ series).
Proof.
  unfold dict_keys. revert ext.
  induction series as [|[time v] series IH]; intros ext Hv Hnd; simpl.
  - now rewrite app_nil_r.
  - inversion Hv as [|? ? Htime Hrest]; subst.
    unfold replace_year. rewrite Z.add_0_r.
    unfold valid_datetime in Htime. apply andb_true_iff in Htime.
    destruct Htime as [Hdate _]. simpl in Hdate. rewrite Hdate.
    cbn [Py.bind].
    pose proof (with_same_year time) as Hsame. rewrite Z.add_0_r in Hsame.
    rewrite Hsame.
    assert (Hset : dict_set time v ext = ext ++ [(time, v)]).
    { apply (fold_dict_set_fresh [(time, v)] ext). simpl.
      simpl in Hnd. unfold dict_keys.
      replace (map fst ext ++ [time])
        with (map fst ext ++ [time] ++ []) by reflexivity.
      eapply NoDup_app_prefix with (l3 := map fst series). exact Hnd. }
    rewrite Hset, IH.
    + now rewrite <- app_assoc.
    + exact Hrest.
    + rewrite map_app, <- app_assoc. exact Hnd.
Qed.

(** X7. Over a horizon of one year the extender gives back the two reference
    series unchanged, for any well-formed timestamps (a 29 February
    included); with a horizon of 0 years or less it returns two empty
    mappings. *)
Theorem extend_one_year_identity
  (hourly_production hourly_consumption : dict datetime R) (years : Z) :
  Forall (fun t => valid_datetime t = true) (dict_keys hourly_production) ->
  Forall (fun t => valid_datetime t = true) (dict_keys hourly_consumption) ->
  NoDup (dict_keys hourly_production) ->
  NoDup (dict_keys hourly_consumption) ->
  (years = 1%Z ->
   extend_data_to_years hourly_production hourly_consumption years
   = Ok (hourly_production, hourly_consumption)) /\
  ((years <= 0)%Z ->
   extend_data_to_years hourly_production hourly_consumption years
   = Ok ([], [])).
Proof.
  intros Hvp Hvc Hnp Hnc. unfold extend_data_to_years. split.
  - intros Hy. subst years. change (range 1) with [0%Z].
    cbn [extend_loop].
    rewrite (extend_series_same_year hourly_production [] Hvp Hnp).
    cbn [Py.bind app].
    rewrite (extend_series_same_year hourly_consumption [] Hvc Hnc).
    reflexivity.
  - intros Hy. unfold range.
    replace (Z.to_nat years) with 0%nat by lia. reflexivity.
Qed.

Lemma extend_one_year_identity_witness :
  extend_data_to_years [(at_hour 1996 2 29 12, 1)] sample_consumption 1
  = Ok ([(at_hour 1996 2 29 12, 1)], sample_consumption).
Proof.
  assert (Hvp : Forall (fun t => valid_datetime t = true)
                  (dict_keys [(at_hour 1996 2 29 12, 1)]))
    by (repeat constructor).
  assert (Hvc : Forall (fun t => valid_datetime t = true)
                  (dict_keys sample_consumption))
    by (repeat constructor).
  assert (Hnp : NoDup (dict_keys [(at_hour 1996 2 29 12, 1)]))
    by (repeat constructor; simpl; tauto).
  exact (proj1 (@extend_one_year_identity [(at_hour 1996 2 29 12, 1)]
                  sample_consumption 1 Hvp Hvc Hnp sample_consumption_NoDup)
           eq_refl).
Defined.

(** ** Merging the appliances *)

Lemma fold_left_concat (A B : Type) (f : A -> B -> A) (ls : list (list B))
  (a : A) :
  fold_left (fun acc l => fold_left f l acc) ls a = fold_left f (concat ls) a.
Proof.
  revert a. induction ls as [|l ls IH]; intros a; simpl; [reflexivity|].
  now rewrite fold_left_app, IH.
Qed.

Lemma aggregate_hourly_consumption_buckets
  (consumers_data : list (list Consumer)) :
  aggregate_hourly_consumption consumers_data
  = bucket_fold c_time 0 (fun c v => v + c_val c) (concat consumers_data) [].
Proof.
  unfold aggregate_hourly_consumption, bucket_fold.
  now rewrite (fold_left_concat
                 (fun d consumer =>
                    add_at (c_time consumer) (c_val consumer)
                      (init_if_absent (c_time consumer) 0 d))).
Qed.

Lemma fold_left_add_map (X : Type) (w : X -> R) (l : list X) (a : R) :
  fold_left (fun v x => v + w x) l a = fold_left Rplus (map w l) a.
Proof.
  revert a. induction l as [|x l IH]; intros a; simpl; [reflexivity|].
  apply IH.
Qed.

(** X8. Merging the per-appliance hourly lists into whole-house consumption
    keeps every timestamp that occurs in any list, once; the value at a
    timestamp is the sum, accumulated from 0 in the order of the lists, of
    the entries of all appliances at that timestamp (an appliance without an
    entry there adds nothing). *)
Theorem aggregate_hourly_consumption_spec
  (consumers_data : list (list Consumer)) :
  let merged := aggregate_hourly_consumption consumers_data in
  let entries := concat consumers_data in
  NoDup (dict_keys merged) /\
  (forall t, In t (dict_keys merged)
             <-> exists c, In c entries /\ c_time c = t) /\
  (forall t,
      dict_get t merged
      = if existsb (fun c => key_eqb (c_time c) t) entries
        then Some (Py.sum (map c_val
                             (filter (fun c => key_eqb (c_time c) t) entries)))
        else None).
Proof.
  intros merged entries. unfold merged.
  rewrite aggregate_hourly_consumption_buckets. fold entries.
  split; [apply bucket_fold_NoDup; constructor|].
  split.
  - intros t. rewrite bucket_fold_In_keys. simpl. tauto.
  - intros t. rewrite bucket_fold_get.
    rewrite (fold_left_add_map c_val). reflexivity.
Qed.

(** ** Production of a mixed configuration *)

Lemma dict_get_app_fresh (K V : Type) `{KeyEq K} (k : K) (d1 d2 : dict K V) :
  ~ In k (dict_keys d1) -> dict_get k (d1 ++ d2) = dict_get k d2.
Proof.
  unfold dict_keys. induction d1 as [|[k' v'] d1 IH]; simpl; intros Hni;
    [reflexivity|].
  destruct (key_eq_dec k k') as [E|N]; [exfalso; auto|]. apply IH. tauto.
Qed.

Lemma dict_set_app_fresh (K V : Type) `{KeyEq K} (k : K) (v : V)
  (d1 d2 : dict K V) :
  ~ In k (dict_keys d1) -> dict_set k v (d1 ++ d2) = d1 ++ dict_set k v d2.
Proof.
  unfold dict_keys. induction d1 as [|[k' v'] d1 IH]; simpl; intros Hni;
    [reflexivity|].
  destruct (key_eq_dec k k') as [E|N]; [exfalso; auto|].
  f_equal. apply IH. tauto.
Qed.

Lemma dict_of_production_fresh (production : list Production)
  (d : dict datetime R) :
  NoDup (dict_keys d ++ map p_time production) ->
  fold_left (fun d prod => dict_set (p_time prod) (p_val prod) d) production d
  = d ++ map (fun prod => (p_time prod, p_val prod)) production.
Proof.
  intros Hnd.
  rewrite <- (fold_dict_set_fresh
                (map (fun prod => (p_time prod, p_val prod)) production) d).
  - clear Hnd. revert d.
    induction production as [|prod production IH]; intros d; simpl;
      [reflexivity | apply IH].
  - unfold dict_keys. rewrite map_map. exact Hnd.
Qed.

Lemma merge_production_aligned (rest done : list (datetime * R * R)) :
  NoDup (map (fun x => fst (fst x)) (done ++ rest)) ->
  merge_production
    (map (fun x => mkProduction (snd x) (fst (fst x))) rest)
    (map (fun x => (fst (fst x), snd (fst x) + snd x)) done
     ++ map (fun x => (fst (fst x), snd (fst x))) rest)
  = map (fun x => (fst (fst x), snd (fst x) + snd x)) (done ++ rest).
Proof.
  unfold merge_production.
  set (merged := fun x : datetime * R * R =>
                   (fst (fst x), snd (fst x) + snd x)).
  set (single := fun x : datetime * R * R => (fst (fst x), snd (fst x))).
  revert done.
  induction rest as [|[[t a] b] rest IH]; intros done Hnd.
  - simpl. now rewrite !app_nil_r.
  - cbn [map fold_left p_time p_val].
    assert (Hfresh : ~ In t (dict_keys (map merged done))).
    { unfold dict_keys, merged. rewrite map_map. cbn [fst].
      rewrite map_app in Hnd. cbn [map fst] in Hnd.
      apply NoDup_remove_2 in Hnd. intros Hin. apply Hnd, in_or_app.
      now left. }
    assert (Hhead : single (t, a, b) = (t, a)) by reflexivity.
    assert (Htime : fst (fst (t, a, b)) = t) by reflexivity.
    assert (Hval : snd (t, a, b) = b) by reflexivity.
    rewrite Hhead, Htime, Hval.
    assert (Hmem : dict_mem t (map merged done ++ (t, a) :: map single rest)
                   = true).
    { unfold dict_mem. rewrite dict_get_app_fresh by exact Hfresh. simpl.
      destruct (key_eq_dec t t); congruence. }
    rewrite Hmem. unfold add_at, dict_get_default.
    rewrite dict_get_app_fresh, dict_set_app_fresh by exact Hfresh.
    cbn [dict_get dict_set].
    destruct (key_eq_dec t t) as [_|N]; [|congruence].
    replace (map merged done ++ (t, a + b) :: map single rest)
      with (map merged (done ++ [(t, a, b)]) ++ map single rest)
      by (rewrite map_app, <- app_assoc; reflexivity).
    replace (done ++ (t, a, b) :: rest) with ((done ++ [(t, a, b)]) ++ rest)
      by (rewrite <- app_assoc; reflexivity).
    apply IH. rewrite <- app_assoc. exact Hnd.
Qed.

Section MixedProduction.
Variable fromtimestamp : Z -> datetime.
Variable db : Database.

Let rows := DatabaseManager.select_weather db 26198001 4.

Hypothesis distinct_hours :
  NoDup (map (fun row => fromtimestamp (snd row)) rows).

Lemma get_production_entries (nominal_power : R) (nr_panels : Z) (f : R) :
  dict_of_production
    (DatabaseManager.get_production fromtimestamp db 26198001 4
       nominal_power nr_panels f)
  = map (fun row => (fromtimestamp (snd row),
                     nominal_power * IZR nr_panels * f * fst row / 1000))
      rows.
Proof.
  unfold dict_of_production, DatabaseManager.get_production. fold rows.
  rewrite dict_of_production_fresh.
  - simpl. rewrite map_map. apply map_ext. intros [V E]. reflexivity.
  - simpl. rewrite map_map.
    rewrite (map_ext _ (fun row => fromtimestamp (snd row)));
      [exact distinct_hours | intros [V E]; reflexivity].
Qed.

Lemma hourly_production_of_entries (n0 n1 n2 : Z) :
  hourly_production_of fromtimestamp db n0 n1 n2
  = map (fun row =>
           (fromtimestamp (snd row),
            IZR (power panel_low_cost) * IZR n0 * (8 / 10) * fst row / 1000
            + IZR (power panel_standard) * IZR n1 * (8 / 10) * fst row / 1000
            + IZR (power panel_high_efficiency) * IZR n2 * (8 / 10) * fst row
              / 1000))
      rows.
Proof.
  unfold hourly_production_of.
  rewrite get_production_entries.
  unfold DatabaseManager.get_production. fold rows.
  set (low := fun V => IZR (power panel_low_cost) * IZR n0 * (8 / 10) * V
                       / 1000).
  set (std := fun V => IZR (power panel_standard) * IZR n1 * (8 / 10) * V
                       / 1000).
  set (high := fun V => IZR (power panel_high_efficiency) * IZR n2 * (8 / 10)
                        * V / 1000).
  pose proof (merge_production_aligned
                (map (fun row => (fromtimestamp (snd row), low (fst row),
                                  std (fst row))) rows) []) as Hstd.
  pose proof (merge_production_aligned
                (map (fun row => (fromtimestamp (snd row),
                                  low (fst row) + std (fst row),
                                  high (fst row))) rows) []) as Hhigh.
  cbn [app map] in Hstd, Hhigh. rewrite !map_map in Hstd, Hhigh.
  cbn [fst snd] in Hstd, Hhigh.
  rewrite (map_ext (fun '(Value, EpochTime) =>
                      mkProduction
                        (IZR (power panel_standard) * IZR n1 * (8 / 10)
                         * Value / 1000) (fromtimestamp EpochTime))
                   (fun row => mkProduction (std (fst row))
                                 (fromtimestamp (snd row))))
    by (intros [V E]; reflexivity).
  rewrite (map_ext (fun '(Value, EpochTime) =>
                      mkProduction
                        (IZR (power panel_high_efficiency) * IZR n2 * (8 / 10)
                         * Value / 1000) (fromtimestamp EpochTime))
                   (fun row => mkProduction (high (fst row))
                                 (fromtimestamp (snd row))))
    by (intros [V E]; reflexivity).
  fold (low) in |- *.
  change (map (fun row : R * Z =>
                 (fromtimestamp (snd row),
                  IZR (power panel_low_cost) * IZR n0 * (8 / 10) * fst row
                  / 1000)) rows)
    with (map (fun row : R * Z => (fromtimestamp (snd row), low (fst row)))
            rows).
  rewrite Hstd by exact distinct_hours.
  rewrite Hhigh by exact distinct_hours.
  reflexivity.
Qed.

End MixedProduction.

(** X9. When the selected irradiance rows have distinct timestamps, the
    production series of a mixed configuration holds one entry per row, in row
    order, and its value is the sum, in this order, of the productions of the
    three panel types: 200 n_low * 0.8 * irradiance / 1000, plus
    300 n_std * 0.8 * irradiance / 1000, plus
    415 n_high * 0.8 * irradiance / 1000. *)
Theorem mixed_production_spec (fromtimestamp : Z -> datetime) (db : Database)
  (n0 n1 n2 : Z) :
  NoDup (map (fun row => fromtimestamp (snd row))
           (DatabaseManager.select_weather db 26198001 4)) ->
  hourly_production_of fromtimestamp db n0 n1 n2
  = map (fun row =>
           (fromtimestamp (snd row),
            200 * IZR n0 * (8 / 10) * fst row / 1000
            + 300 * IZR n1 * (8 / 10) * fst row / 1000
            + 415 * IZR n2 * (8 / 10) * fst row / 1000))
      (DatabaseManager.select_weather db 26198001 4) /\
  NoDup (dict_keys (hourly_production_of fromtimestamp db n0 n1 n2)) /\
  length (hourly_production_of fromtimestamp db n0 n1 n2)
  = length (DatabaseManager.select_weather db 26198001 4).
Proof.
  intros Hnd.
  rewrite (@hourly_production_of_entries fromtimestamp db Hnd n0 n1 n2).
  split; [|split].
  - reflexivity.
  - unfold dict_keys. rewrite map_map. exact Hnd.
  - apply length_map.
Qed.

Lemma two_hour_store_distinct :
  NoDup (map (fun row => utc_of_epoch (snd row))
           (DatabaseManager.select_weather two_hour_store 26198001 4)).
Proof.
  assert (H : map (fun row => utc_of_epoch (snd row))
                (DatabaseManager.select_weather two_hour_store 26198001 4)
              = [at_hour 1998 2 5 21; at_hour 1998 2 5 22])
    by reflexivity.
  rewrite H. repeat constructor; simpl; intuition discriminate.
Qed.

Lemma mixed_production_spec_witness :
  hourly_production_of utc_of_epoch two_hour_store 1 2 3
  = map (fun row =>
           (utc_of_epoch (snd row),
            200 * IZR 1 * (8 / 10) * fst row / 1000
            + 300 * IZR 2 * (8 / 10) * fst row / 1000
            + 415 * IZR 3 * (8 / 10) * fst row / 1000))
      (DatabaseManager.select_weather two_hour_store 26198001 4).
Proof.
  exact (proj1 (@mixed_production_spec utc_of_epoch two_hour_store 1 2 3
                  two_hour_store_distinct)).
Defined.

(** X10. The report stage replaces the three panel types by one blended panel
    of power (200 n_low + 300 n_std + 415 n_high) / total and [total] panels.
    For a non-empty configuration and distinct irradiance timestamps, the
    production series it analyses has one entry per irradiance row, of value
    power * total * 0.8 * irradiance / 1000 for that blended power; its
    timestamps are those of the series the objective function evaluated for
    the configuration, in the same order, and its consumption series is the
    same whole-house series. *)
Theorem report_matches_objective
  (utcfromtimestamp fromtimestamp : Z -> datetime) (db : Database)
  (n0 n1 n2 : Z) :
  (n0 + n1 + n2 <> 0)%Z ->
  NoDup (map (fun row => fromtimestamp (snd row))
           (DatabaseManager.select_weather db 26198001 4)) ->
  exists analysis,
    Report.analysis_of utcfromtimestamp fromtimestamp db (n0, n1, n2)
    = Ok analysis /\
    Report.hourly_production analysis
    = map (fun row =>
             (fromtimestamp (snd row),
              IZR (n0 * 200 + n1 * 300 + n2 * 415) / IZR (n0 + n1 + n2)
              * IZR (n0 + n1 + n2) * (8 / 10) * fst row / 1000))
        (DatabaseManager.select_weather db 26198001 4) /\
    dict_keys (Report.hourly_production analysis)
    = dict_keys (hourly_production_of fromtimestamp db n0 n1 n2) /\
    Report.hourly_consumption analysis
    = aggregate_hourly_consumption (consumers_data utcfromtimestamp db).
Proof.
  intros Htotal Hnd. unfold Report.analysis_of, Py.div.
  destruct (Req_dec_T (IZR (n0 + n1 + n2)) 0) as [E|N];
    [apply eq_IZR in E; contradiction|].
  cbn [Py.bind]. eexists. split; [reflexivity|].
  unfold Report.init. cbn [Report.hourly_production Report.hourly_consumption].
  rewrite (@get_production_entries fromtimestamp db Hnd).
  rewrite (@hourly_production_of_entries fromtimestamp db Hnd n0 n1 n2).
  split; [reflexivity|]. split; [|reflexivity].
  unfold dict_keys. rewrite !map_map. reflexivity.
Qed.

Lemma report_matches_objective_witness :
  (1 + 2 + 3 <> 0)%Z /\
  exists analysis,
    Report.analysis_of utc_of_epoch utc_of_epoch two_hour_store (1, 2, 3)%Z
    = Ok analysis /\
    Report.hourly_production analysis
    = map (fun row =>
             (utc_of_epoch (snd row),
              IZR (1 * 200 + 2 * 300 + 3 * 415) / IZR (1 + 2 + 3)
              * IZR (1 + 2 + 3) * (8 / 10) * fst row / 1000))
        (DatabaseManager.select_weather two_hour_store 26198001 4) /\
    dict_keys (Report.hourly_production analysis)
    = dict_keys (hourly_production_of utc_of_epoch two_hour_store 1 2 3) /\
    Report.hourly_consumption analysis
    = aggregate_hourly_consumption (consumers_data utc_of_epoch two_hour_store).
Proof.
  assert (H : (1 + 2 + 3 <> 0)%Z) by lia.
  split; [exact H|].
  exact (@report_matches_objective utc_of_epoch utc_of_epoch two_hour_store
           1 2 3 H two_hour_store_distinct).
Defined.

(** X11. The report stage divides by the total panel count without a guard:
    it raises ZeroDivisionError exactly when the configuration found by the
    search has no panel at all. *)
Theorem report_empty_configuration
  (utcfromtimestamp fromtimestamp : Z -> datetime) (db : Database)
  (n0 n1 n2 : Z) :
  Report.analysis_of utcfromtimestamp fromtimestamp db (n0, n1, n2)
  = Raise ZeroDivisionError
  <-> (n0 + n1 + n2 = 0)%Z.
Proof.
  unfold Report.analysis_of, Py.div.
  destruct (Req_dec_T (IZR (n0 + n1 + n2)) 0) as [E|N]; cbn [Py.bind].
  - apply eq_IZR in E. tauto.
  - split; [discriminate|]. intros E. rewrite E in N. contradiction.
Qed.

(** ** Aggregate indicators *)

Lemma fold_dict_set_NoDup (K V : Type) `{KeyEq K} (f : K -> V) (ks : list K)
  (d : dict K V) :
  NoDup (dict_keys d) ->
  NoDup (dict_keys (fold_left (fun d k => dict_set k (f k) d) ks d)).
Proof.
  revert d. induction ks as [|k ks IH]; intros d Hnd; simpl; [exact Hnd|].
  now apply IH, dict_set_NoDup.
Qed.

Lemma daily_indicator_NoDup (indicator : list R -> list R -> R)
  (hp hc : dict datetime R) :
  NoDup (dict_keys (daily_indicator indicator hp hc)).
Proof.
  unfold daily_indicator.
  rewrite (fold_conditional_set
             (fun day => dict_mem day (group_by_day hc))
             (fun day => indicator
                           (dict_get_default day [] (group_by_day hp))
                           (dict_get_default day [] (group_by_day hc)))).
  apply fold_dict_set_NoDup. constructor.
Qed.

Lemma daily_indicator_values (indicator : list R -> list R -> R)
  (P : R -> Prop) (hp hc : dict datetime R) :
  (forall day, P (indicator (Spec.day_values hp day)
                    (Spec.day_values hc day))) ->
  Forall P (dict_values (daily_indicator indicator hp hc)).
Proof.
  intros HP. unfold dict_values. apply Forall_forall. intros v Hv.
  apply in_map_iff in Hv. destruct Hv as [[day v'] [E Hin]].
  simpl in E. subst v'.
  apply dict_In_get in Hin; [|apply daily_indicator_NoDup].
  rewrite daily_indicator_get in Hin.
  destruct (Spec.has_day hp day && Spec.has_day hc day); [|discriminate].
  inversion Hin. apply HP.
Qed.

Lemma guarded_ratio_range (ps cs : list R) :
  Forall (fun v => 0 <= v) ps -> Forall (fun v => 0 <= v) cs ->
  0 <= self_consumption_day ps cs <= 1 /\
  0 <= self_sufficiency_day ps cs <= 1.
Proof.
  intros Hp Hc. split.
  - destruct (Req_dec_T (Py.sum ps) 0) as [E|N].
    + unfold self_consumption_day.
      destruct (Req_dec_T (Py.sum ps) 0); [lra | contradiction].
    + now apply self_consumption_day_bounds.
  - destruct (Req_dec_T (Py.sum cs) 0) as [E|N].
    + unfold self_sufficiency_day.
      destruct (Req_dec_T (Py.sum cs) 0); [lra | contradiction].
    + now apply self_sufficiency_day_bounds.
Qed.

Lemma mean_of_unit_values (d : dict date R) :
  d <> [] -> Forall (fun v => 0 <= v <= 1) (dict_values d) ->
  exists m, Py.div (Py.sum (dict_values d)) (INR (length d)) = Ok m
            /\ 0 <= m <= 1.
Proof.
  intros Hne Hall.
  assert (Hlen : 0 < INR (length d)).
  { apply lt_0_INR. destruct d; [congruence | simpl; lia]. }
  assert (Hsum : 0 <= Py.sum (dict_values d) <= INR (length d)).
  { unfold dict_values in *. clear Hne Hlen.
    induction d as [|[k v] d IH].
    - simpl. rewrite sum_nil. lra.
    - inversion Hall as [|? ? Hv Hrest]; subst.
      cbn [map snd]. rewrite sum_cons.
      change (length ((k, v) :: d)) with (S (length d)).
      rewrite S_INR. simpl in Hv. specialize (IH Hrest). lra. }
  unfold Py.div. destruct (Req_dec_T (INR (length d)) 0) as [E|_]; [lra|].
  eexists. split; [reflexivity|]. split.
  - apply Rmult_le_pos; [lra | left; now apply Rinv_0_lt_compat].
  - apply (Rmult_le_reg_r (INR (length d))); [exact Hlen|].
    unfold Rdiv. rewrite Rmult_assoc, Rinv_l by lra. lra.
Qed.

(** X12. For non-negative hourly series that share at least one calendar
    day, the yearly self-consumption and the yearly self-sufficiency (the
    means of the daily ratios) are returned and lie in [0, 1]. *)
Theorem total_ratios_range
  (hourly_production hourly_consumption : dict datetime R) (day : date) :
  Forall (fun v => 0 <= v) (dict_values hourly_production) ->
  Forall (fun v => 0 <= v) (dict_values hourly_consumption) ->
  dict_mem day (group_by_day hourly_production) = true ->
  dict_mem day (group_by_day hourly_consumption) = true ->
  exists sc ss,
    calculate_total_self_consumption
      (calculate_self_consumption_daily hourly_production hourly_consumption)
    = Ok sc /\
    calculate_total_self_sufficiency
      (calculate_self_sufficiency_daily hourly_production hourly_consumption)
    = Ok ss /\
    0 <= sc <= 1 /\ 0 <= ss <= 1.
Proof.
  intros Hp Hc Hdp Hdc. rewrite group_by_day_mem in Hdp, Hdc.
  assert (Hne : forall indicator,
             daily_indicator indicator hourly_production hourly_consumption
             <> []).
  { intros indicator Hempty.
    pose proof (daily_indicator_get indicator hourly_production
                  hourly_consumption day) as Hg.
    rewrite Hempty, Hdp, Hdc in Hg. discriminate. }
  assert (Hrange : forall d,
             0 <= self_consumption_day
                    (Spec.day_values hourly_production d)
                    (Spec.day_values hourly_consumption d) <= 1 /\
             0 <= self_sufficiency_day
                    (Spec.day_values hourly_production d)
                    (Spec.day_values hourly_consumption d) <= 1).
  { intros d. apply guarded_ratio_range; now apply day_values_nonneg. }
  destruct (@mean_of_unit_values
              (calculate_self_consumption_daily hourly_production
                 hourly_consumption) (Hne _)) as [sc [Hsc Hsc01]].
  { apply (daily_indicator_values self_consumption_day
             (fun v => 0 <= v <= 1)). intros d. apply Hrange. }
  destruct (@mean_of_unit_values
              (calculate_self_sufficiency_daily hourly_production
                 hourly_consumption) (Hne _)) as [ss [Hss Hss01]].
  { apply (daily_indicator_values self_sufficiency_day
             (fun v => 0 <= v <= 1)). intros d. apply Hrange. }
  exists sc, ss. auto.
Qed.

Lemma total_ratios_range_witness :
  exists sc ss,
    calculate_total_self_consumption
      (calculate_self_consumption_daily noon_first noon_last) = Ok sc /\
    calculate_total_self_sufficiency
      (calculate_self_sufficiency_daily noon_first noon_last) = Ok ss /\
    0 <= sc <= 1 /\ 0 <= ss <= 1.
Proof.
  assert (Hp : Forall (fun v => 0 <= v) (dict_values noon_first))
    by (repeat constructor; simpl; lra).
  assert (Hc : Forall (fun v => 0 <= v) (dict_values noon_last))
    by (repeat constructor; simpl; lra).
  exact (@total_ratios_range noon_first noon_last june_1 Hp Hc
           eq_refl eq_refl).
Defined.

(** X13. A day gets a daily indicator exactly when it occurs in both series,
    and it gets one entry only; the days that occur in one series alone are
    left out of the result. *)
Theorem daily_indicator_days (indicator : list R -> list R -> R)
  (hourly_production hourly_consumption : dict datetime R) :
  let daily :=
    daily_indicator indicator hourly_production hourly_consumption in
  NoDup (dict_keys daily) /\
  forall day,
    In day (dict_keys daily)
    <-> (exists time, In time (dict_keys hourly_production)
                      /\ date_of time = day)
        /\ (exists time, In time (dict_keys hourly_consumption)
                         /\ date_of time = day).
Proof.
  intros daily. split; [apply daily_indicator_NoDup|].
  intros day.
  assert (Hhas : forall series,
             Spec.has_day series day = true
             <-> exists time, In time (dict_keys series)
                              /\ date_of time = day).
  { intros series. unfold Spec.has_day. rewrite existsb_exists. split.
    - intros [[time v] [Hin He]]. apply key_eqb_true in He.
      exists time. split; [|exact He].
      change time with (fst (time, v)). now apply in_map.
    - intros [time [Hin He]]. apply in_map_iff in Hin.
      destruct Hin as [[t v] [Ht Hin]]. simpl in Ht. subst t.
      exists (time, v). split; [exact Hin | now apply key_eqb_true]. }
  rewrite <- !Hhas, <- dict_mem_In. unfold dict_mem, daily.
  rewrite daily_indicator_get.
  destruct (Spec.has_day hourly_production day),
    (Spec.has_day hourly_consumption day); simpl; intuition congruence.
Qed.

(** X14. The yearly NEEG is >= 0 for any two series, and it is 0 only when
    the NEEG of every day is 0. *)
Theorem total_neeg_nonneg
  (hourly_production hourly_consumption : dict datetime R) :
  let daily := calculate_neeg_daily hourly_production hourly_consumption in
  0 <= calculate_total_neeg daily /\
  (calculate_total_neeg daily = 0
   <-> Forall (fun v => v = 0) (dict_values daily)).
Proof.
  intros daily. unfold calculate_total_neeg.
  assert (Hall : Forall (fun v => 0 <= v) (dict_values daily)).
  { apply (daily_indicator_values neeg_day (fun v => 0 <= v)).
    intros day. apply neeg_day_nonneg. }
  split; [now apply sum_nonneg|].
  split; [now apply sum_nonneg_zero|].
  intros Hz. clear Hall.
  induction Hz as [|v vs Hv _ IH]; [apply sum_nil|].
  rewrite sum_cons, IH, Hv. lra.
Qed.

(** ** The consumption query *)

Lemma select_consumption_In (db : Database) (locuinta_id consumer_id : Z)
  (row : Z * Z * R) :
  In row (DatabaseManager.select_consumption db locuinta_id consumer_id) ->
  fst (fst row) = consumer_id
  /\ (886709400 <= snd (fst row) <= 918244800)%Z.
Proof.
  unfold DatabaseManager.select_consumption. rewrite in_map_iff.
  intros [r [E Hin]]. subst row. apply filter_In in Hin.
  destruct Hin as [_ Hf]. cbn [fst snd].
  repeat (apply andb_true_iff in Hf; destruct Hf as [Hf ?]).
  repeat match goal with
         | H : (_ =? _)%Z = true |- _ => apply Z.eqb_eq in H
         | H : (_ <=? _)%Z = true |- _ => apply Z.leb_le in H
         end.
  lia.
Qed.

Lemma slice_incl (A : Type) (l : list A) (i j : nat) (a : A) :
  In a (Py.slice l i j) -> In a l.
Proof.
  unfold Py.slice. intros Hin.
  rewrite <- (firstn_skipn i l). apply in_or_app. right.
  rewrite <- (firstn_skipn (j - i) (skipn i l)). apply in_or_app.
  now left.
Qed.

(** X15. [get_cons_by_constype] returns floor(n / 6) hourly entries, where n
    is the number of Consumption rows of the requested house and appliance
    whose EpochTime lies in the reference window; every entry carries the
    requested label and appliance id and the timestamp of a row inside the
    window.  In particular fewer than 6 matching rows give an empty list. *)
Theorem get_cons_by_constype_spec (utcfromtimestamp : Z -> datetime)
  (db : Database) (locuinta_id consumer_id : Z) (consumer : string) :
  let rows := DatabaseManager.select_consumption db locuinta_id consumer_id in
  let out :=
    DatabaseManager.get_cons_by_constype utcfromtimestamp db locuinta_id
      consumer_id consumer in
  length rows
  = length (filter (fun r => ((HouseIDREF r =? locuinta_id)
                              && (ApplianceIDREF r =? consumer_id)
                              && (886709400 <=? cr_EpochTime r)
                              && (cr_EpochTime r <=? 918244800))%Z)
              (Consumption db)) /\
  length out = (length rows / 6)%nat /\
  Forall (fun e =>
            c_type e = consumer /\ c_type_id e = consumer_id /\
            exists epoch, (886709400 <= epoch <= 918244800)%Z
                          /\ c_time e = utcfromtimestamp epoch) out.
Proof.
  intros rows out.
  split; [unfold rows, DatabaseManager.select_consumption;
          apply length_map|].
  unfold out, DatabaseManager.get_cons_by_constype. fold rows.
  rewrite aggregate_rows_eq.
  split; [now rewrite length_map, length_seq|].
  apply Forall_forall. intros e He. apply in_map_iff in He.
  destruct He as [k [E Hk]]. subst e. apply in_seq in Hk.
  pose proof (Nat.div_mod_eq (length rows) 6) as Hdm.
  pose proof (Nat.mod_upper_bound (length rows) 6 ltac:(lia)) as Hmod.
  assert (Hlen : length (Py.slice rows (k * 6) (k * 6 + 6)) = 6%nat)
    by (rewrite slice_length; lia).
  assert (Hin : forall i, (i < 6)%nat ->
             In (nth i (Py.slice rows (k * 6) (k * 6 + 6))
                   DatabaseManager.row0) rows).
  { intros i Hi. apply (slice_incl rows (k * 6) (k * 6 + 6)).
    apply nth_In. lia. }
  unfold DatabaseManager.hourly_entry. cbn [c_type c_type_id c_time].
  split; [reflexivity|]. split.
  - apply (select_consumption_In db locuinta_id consumer_id), Hin. lia.
  - eexists. split; [|reflexivity].
    apply (select_consumption_In db locuinta_id consumer_id), Hin. lia.
Qed.

(** ** The empty configuration *)

Section ValueInvariants.
Context {K : Type} `{KeyEq K}.
Variable P : R -> Prop.




End ValueInvariants.








(** ** Chart data of the monthly profile *)

Lemma existsb_keys (V : Type) (f : datetime -> bool) (d : dict datetime V) :
  existsb f (dict_keys d) = existsb (fun h => f (fst h)) d.
Proof.
  unfold dict_keys. induction d as [|h d IH]; simpl; [reflexivity|].
  now rewrite IH.
Qed.

Lemma group_by_day_hour_get (series : dict datetime R) (cell : Z * Z) :
  NoDup (dict_keys series) ->
  dict_get cell (Charts.group_by_day_hour series)
  = if ChartSpec.cell_used series cell
    then Some (ChartSpec.cell_values series cell) else None.
Proof.
  intros Hnd.
  change (Charts.group_by_day_hour series)
    with (bucket_fold (fun key : datetime => (day key, hour key)) []
            (fun key l => l ++ [dict_get_default key 0 series])
            (dict_keys series) []).
  rewrite bucket_fold_get.
  rewrite (fold_append_values (fun key => dict_get_default key 0 series)).
  rewrite (existsb_keys (fun key => key_eqb (day key, hour key) cell)).
  rewrite (lookup_values_of_keys series
             (fun key => key_eqb (day key, hour key) cell) Hnd).
  reflexivity.
Qed.

Lemma average_by_day_hour_get (series : dict datetime R) (cell : Z * Z) :
  NoDup (dict_keys series) ->
  dict_get cell (Charts.average_by_day_hour series)
  = if ChartSpec.cell_used series cell
    then Some (Charts.np_mean (ChartSpec.cell_values series cell)) else None.
Proof.
  intros Hnd. unfold Charts.average_by_day_hour.
  rewrite (fold_dict_set_get
             (fun key => Charts.np_mean
                           (dict_get_default key []
                              (Charts.group_by_day_hour series)))).
  pose proof (@group_by_day_hour_get series cell Hnd) as Hg.
  destruct (in_dec key_eq_dec cell _) as [Hin|Hni].
  - apply dict_mem_In in Hin. unfold dict_mem in Hin.
    unfold dict_get_default. rewrite Hg in *.
    destruct (ChartSpec.cell_used series cell); [reflexivity|discriminate].
  - apply dict_get_None in Hni. rewrite Hg in Hni.
    destruct (ChartSpec.cell_used series cell); [discriminate|reflexivity].
Qed.

Lemma make_datetime_january (d h : Z) :
  (1 <= d <= 31)%Z -> (0 <= h <= 23)%Z ->
  Charts.make_datetime 2000 1 d h = Ok (mkDatetime 2000 1 d h 0 0 0).
Proof.
  intros Hd Hh. unfold Charts.make_datetime.
  replace (valid_datetime (mkDatetime 2000 1 d h 0 0 0)) with true;
    [reflexivity|].
  symmetry. unfold valid_datetime, check_date_fields, check_time_fields.
  cbn [year month day hour minute second microsecond].
  change (days_in_month 2000 1) with 31%Z. unfold MINYEAR, MAXYEAR.
  repeat (apply andb_true_iff; split); apply Z.leb_le; lia.
Qed.

Section MonthlyLoops.
Variable average : dict (Z * Z) R.

Let shown (cells : list (Z * Z)) : list (Z * Z) :=
  filter (fun cell => dict_mem cell average) cells.
Let time_of (cell : Z * Z) : datetime :=
  mkDatetime 2000 1 (fst cell) (snd cell) 0 0 0.
Let value_of (cell : Z * Z) : R := dict_get_default cell 0 average.

Lemma hours_loop_spec (d : Z) (hours : list Z)
  (acc : list datetime * list R) :
  (1 <= d <= 31)%Z -> Forall (fun h => (0 <= h <= 23)%Z) hours ->
  Charts.hours_loop average d hours acc
  = Ok (fst acc ++ map time_of (shown (map (fun h => (d, h)) hours)),
        snd acc ++ map value_of (shown (map (fun h => (d, h)) hours))).
Proof.
  intros Hd Hhours. revert acc.
  induction Hhours as [|h hours Hh _ IH]; intros acc.
  - simpl. rewrite !app_nil_r. now destruct acc.
  - cbn [Charts.hours_loop map]. unfold shown at 1 2. cbn [filter].
    destruct (dict_mem (d, h) average).
    + rewrite make_datetime_january by assumption. cbn [Py.bind].
      rewrite IH. cbn [fst snd map]. rewrite <- !app_assoc. reflexivity.
    + apply IH.
Qed.

Lemma days_loop_spec (days : list Z) (acc : list datetime * list R) :
  Forall (fun d => (1 <= d <= 31)%Z) days ->
  Charts.days_loop average days acc
  = Ok (fst acc
        ++ map time_of
             (shown (flat_map (fun d => map (fun h => (d, h)) (range 24))
                       days)),
        snd acc
        ++ map value_of
             (shown (flat_map (fun d => map (fun h => (d, h)) (range 24))
                       days))).
Proof.
  intros Hdays. revert acc.
  induction Hdays as [|d days Hd _ IH]; intros acc.
  - simpl. rewrite !app_nil_r. now destruct acc.
  - cbn [Charts.days_loop flat_map].
    rewrite hours_loop_spec; [|exact Hd|].
    + cbn [Py.bind]. rewrite IH. cbn [fst snd]. unfold shown.
      rewrite filter_app, !map_app, <- !app_assoc. reflexivity.
    + apply Forall_forall. intros h Hin. apply range_In in Hin. lia.
Qed.

End MonthlyLoops.

Lemma range_from_In (a b d : Z) :
  In d (Charts.range_from a b) -> (a <= d < b)%Z.
Proof.
  unfold Charts.range_from. rewrite in_map_iff.
  intros [k [E Hk]]. apply range_In in Hk. lia.
Qed.

Lemma monthly_points_shape (series : dict datetime R) :
  Charts.monthly_points series
  = Ok (map (fun cell => mkDatetime 2000 1 (fst cell) (snd cell) 0 0 0)
          (filter (fun cell =>
                     dict_mem cell (Charts.average_by_day_hour series))
             ChartSpec.month_grid),
        map (fun cell =>
               dict_get_default cell 0 (Charts.average_by_day_hour series))
          (filter (fun cell =>
                     dict_mem cell (Charts.average_by_day_hour series))
             ChartSpec.month_grid)).
Proof.
  unfold Charts.monthly_points. rewrite days_loop_spec; [reflexivity|].
  apply Forall_forall. intros d Hin. apply range_from_In in Hin. lia.
Qed.

(** X19. For a series with unique timestamps, the monthly profile chart gets
    one point per (day of month, hour) cell that occurs in the series, in
    day-then-hour order; the point is drawn at 2000-01-day hour:00 and its
    value is the arithmetic mean of all values of the series in that cell. *)
Theorem monthly_points_spec (series : dict datetime R) :
  NoDup (dict_keys series) ->
  let cells := filter (ChartSpec.cell_used series) ChartSpec.month_grid in
  Charts.monthly_points series
  = Ok (map (fun cell => mkDatetime 2000 1 (fst cell) (snd cell) 0 0 0) cells,
        map (fun cell => Charts.np_mean (ChartSpec.cell_values series cell))
          cells).
Proof.
  intros Hnd cells. rewrite monthly_points_shape.
  assert (Hfilter : filter (fun cell =>
                              dict_mem cell
                                (Charts.average_by_day_hour series))
                      ChartSpec.month_grid = cells).
  { unfold cells. apply filter_ext. intros cell. unfold dict_mem.
    rewrite average_by_day_hour_get by exact Hnd.
    destruct (ChartSpec.cell_used series cell); reflexivity. }
  rewrite Hfilter. do 2 f_equal.
  apply map_ext_in. intros cell Hin. unfold cells in Hin.
  apply filter_In in Hin. destruct Hin as [_ Hused].
  unfold dict_get_default.
  rewrite average_by_day_hour_get, Hused by exact Hnd. reflexivity.
Qed.

Lemma monthly_points_spec_witness :
  Charts.monthly_points sample_consumption
  = Ok (map (fun cell => mkDatetime 2000 1 (fst cell) (snd cell) 0 0 0)
          (filter (ChartSpec.cell_used sample_consumption)
             ChartSpec.month_grid),
        map (fun cell =>
               Charts.np_mean (ChartSpec.cell_values sample_consumption cell))
          (filter (ChartSpec.cell_used sample_consumption)
             ChartSpec.month_grid)).
Proof.
  exact (@monthly_points_spec sample_consumption sample_consumption_NoDup).
Defined.

Lemma seq_sorted (a n : nat) : StronglySorted lt (seq a n).
Proof.
  revert a. induction n as [|n IH]; intros a; simpl; constructor.
  - apply IH.
  - apply Forall_forall. intros b Hb. apply in_seq in Hb. lia.
Qed.

Lemma sorted_map (A B : Type) (RA : A -> A -> Prop) (RB : B -> B -> Prop)
  (f : A -> B) (l : list A) :
  (forall a b, RA a b -> RB (f a) (f b)) ->
  StronglySorted RA l -> StronglySorted RB (map f l).
Proof.
  intros Hf. induction 1 as [|a l Hs IH Ha]; simpl; constructor; [exact IH|].
  rewrite Forall_forall in *. intros b Hb. apply in_map_iff in Hb.
  destruct Hb as [x [E Hx]]. subst b. auto.
Qed.

Lemma sorted_filter (A : Type) (RA : A -> A -> Prop) (f : A -> bool)
  (l : list A) :
  StronglySorted RA l -> StronglySorted RA (filter f l).
Proof.
  induction 1 as [|a l Hs IH Ha]; simpl; [constructor|].
  destruct (f a); [|exact IH]. constructor; [exact IH|].
  rewrite Forall_forall in *. intros b Hb. apply filter_In in Hb.
  apply Ha. tauto.
Qed.

Lemma sorted_app (A : Type) (RA : A -> A -> Prop) (l1 l2 : list A) :
  StronglySorted RA l1 -> StronglySorted RA l2 ->
  (forall a b, In a l1 -> In b l2 -> RA a b) ->
  StronglySorted RA (l1 ++ l2).
Proof.
  intros H1 H2 Hcross. induction H1 as [|a l1 Hs IH Ha]; simpl; [exact H2|].
  constructor.
  - apply IH. intros x y Hx Hy. apply Hcross; [now right | exact Hy].
  - apply Forall_app. split; [exact Ha|].
    apply Forall_forall. intros b Hb. apply Hcross; [now left | exact Hb].
Qed.

Lemma range_sorted (n : Z) : StronglySorted Z.lt (range n).
Proof.
  unfold range. apply (sorted_map (RA := lt)); [|apply seq_sorted].
  intros a b Hab. lia.
Qed.

Lemma grid_sorted (days hours : list Z) :
  StronglySorted Z.lt days -> StronglySorted Z.lt hours ->
  StronglySorted ChartSpec.cell_lt
    (flat_map (fun day => map (fun hour => (day, hour)) hours) days).
Proof.
  intros Hdays Hhours.
  induction Hdays as [|d days Hs IH Hd]; cbn [flat_map]; [constructor|].
  apply sorted_app; [|exact IH|].
  - apply (sorted_map (RA := Z.lt)); [|exact Hhours].
    intros a b Hab. right. simpl. lia.
  - intros a b Ha Hb. apply in_map_iff in Ha. destruct Ha as [h [E _]].
    subst a. apply in_flat_map in Hb. destruct Hb as [d' [Hd' Hb]].
    apply in_map_iff in Hb. destruct Hb as [h' [E _]]. subst b.
    rewrite Forall_forall in Hd. left. simpl. now apply Hd.
Qed.

Lemma month_grid_sorted : StronglySorted ChartSpec.cell_lt ChartSpec.month_grid.
Proof.
  unfold ChartSpec.month_grid. apply grid_sorted; [|apply range_sorted].
  unfold Charts.range_from.
  apply (sorted_map (RA := Z.lt)); [|apply range_sorted].
  intros a b Hab. lia.
Qed.

Lemma monthly_points_ascending (series : dict datetime R) :
  exists times values,
    Charts.monthly_points series = Ok (times, values) /\
    length times = length values /\
    (length times <= 744)%nat /\
    StronglySorted ChartSpec.datetime_lt times.
Proof.
  rewrite monthly_points_shape. eexists. eexists.
  split; [reflexivity|]. split; [now rewrite !length_map|]. split.
  - rewrite length_map.
    change 744%nat with (length ChartSpec.month_grid).
    apply filter_length_le.
  - apply (sorted_map (RA := ChartSpec.cell_lt)).
    + intros [d h] [d' h'] Hlt. unfold ChartSpec.cell_lt in Hlt.
      unfold ChartSpec.datetime_lt. simpl in *. lia.
    + apply sorted_filter, month_grid_sorted.
Qed.

(** X20. Whatever the two series hold, preparing the monthly profile chart
    never raises; for each series it yields as many times as values, at most
    744 points (31 days of 24 hours), with strictly ascending times. *)
Theorem monthly_chart_data_shape
  (hourly_consumption hourly_production : dict datetime R) :
  exists times values times_prod values_prod,
    Charts.plot_consumption_vs_production_monthly hourly_consumption
      hourly_production
    = Ok ((times, values), (times_prod, values_prod)) /\
    length times = length values /\
    length times_prod = length values_prod /\
    (length times <= 744)%nat /\ (length times_prod <= 744)%nat /\
    StronglySorted ChartSpec.datetime_lt times /\
    StronglySorted ChartSpec.datetime_lt times_prod.
Proof.
  destruct (monthly_points_ascending hourly_consumption)
    as (tc & vc & Hc & Hlc & Hnc & Hsc).
  destruct (monthly_points_ascending hourly_production)
    as (tp & vp & Hp & Hlp & Hnp & Hsp).
  exists tc, vc, tp, vp.
  unfold Charts.plot_consumption_vs_production_monthly.
  rewrite Hc, Hp. cbn [Py.bind]. tauto.
Qed.
